(** * ipcalc.py: a shallow embedding and its verification

    The program is a thin command-line wrapper around Python's [ipaddress]
    module.  The development has three layers:

    - [Py]: the fragment of Python the program relies on (exceptions and
      [try]/[except], [str] methods, integer formatting);
    - [ipaddress]: the part of the standard [ipaddress] module (CPython 3.11)
      reached from ipcalc.py, function by function;
    - [ipcalc]: the four functions of ipcalc.py.

    A Python [str] is modelled by a Rocq [string] whose characters are read as
    the code points 0..255; a Python [int] is a [Z]. *)

From Stdlib Require Import ZArith List String Ascii Bool Lia.
Import ListNotations.

Local Open Scope string_scope.
Local Open Scope Z_scope.

(* ================================================================= *)
(** ** The Python fragment *)

Module Py.

(** *** Exceptions *)

Inductive exc_class :=
| BaseException | KeyboardInterrupt | Exception
| ArithmeticError | OverflowError
| LookupError | IndexError
| ValueError | AddressValueError | NetmaskValueError.

Definition exc_class_eqb (c d : exc_class) : bool :=
  match c, d with
  | BaseException, BaseException | KeyboardInterrupt, KeyboardInterrupt
  | Exception, Exception | ArithmeticError, ArithmeticError
  | OverflowError, OverflowError | LookupError, LookupError
  | IndexError, IndexError | ValueError, ValueError
  | AddressValueError, AddressValueError
  | NetmaskValueError, NetmaskValueError => true
  | _, _ => false
  end.

(** The direct base class.  [AddressValueError] and [NetmaskValueError] are
    declared in ipaddress.py as subclasses of [ValueError]. *)
Definition base (c : exc_class) : option exc_class :=
  match c with
  | BaseException => None
  | KeyboardInterrupt | Exception => Some BaseException
  | ArithmeticError | LookupError | ValueError => Some Exception
  | OverflowError => Some ArithmeticError
  | IndexError => Some LookupError
  | AddressValueError | NetmaskValueError => Some ValueError
  end.

Fixpoint issubclass_upto (fuel : nat) (c d : exc_class) : bool :=
  exc_class_eqb c d ||
  match fuel, base c with
  | S fuel', Some p => issubclass_upto fuel' p d
  | _, _ => false
  end.

(** No class is more than three steps below [BaseException]. *)
Definition issubclass : exc_class -> exc_class -> bool := issubclass_upto 3.

(** An exception instance: its class and [str(e)]. *)
Record exn := Exn { exn_class : exc_class; exn_str : string }.

Definition isinstance (e : exn) (c : exc_class) : bool :=
  issubclass (exn_class e) c.

(** A computation either returns or raises. *)
Inductive result (A : Type) :=
| Ok (a : A)
| Raise (e : exn).
Arguments Ok {A} a.
Arguments Raise {A} e.

Definition bind {A B} (m : result A) (k : A -> result B) : result B :=
  match m with
  | Ok a => k a
  | Raise e => Raise e
  end.

Definition raise {A} (c : exc_class) (msg : string) : result A :=
  Raise (Exn c msg).

(** [try: body except C1 as e: h1 e except C2 as e: h2 e ...]: the first
    clause whose class matches handles the exception; what a handler raises
    is not offered to the later clauses. *)
Fixpoint dispatch {A} (e : exn) (clauses : list (exc_class * (exn -> result A)))
  : result A :=
  match clauses with
  | [] => Raise e
  | (c, h) :: rest => if isinstance e c then h e else dispatch e rest
  end.

Definition try_except {A} (body : result A)
    (clauses : list (exc_class * (exn -> result A))) : result A :=
  match body with
  | Ok a => Ok a
  | Raise e => dispatch e clauses
  end.

Fixpoint mapM {A B} (f : A -> result B) (l : list A) : result (list B) :=
  match l with
  | [] => Ok []
  | x :: r => bind (f x) (fun y => bind (mapM f r) (fun ys => Ok (y :: ys)))
  end.

(** *** Characters and strings *)

Definition ord (c : ascii) : Z := Z.of_nat (nat_of_ascii c).
Definition chr (n : Z) : ascii := ascii_of_nat (Z.to_nat n).

Definition dquote : ascii := ascii_of_nat 34.

(** [len(s)] *)
Definition len (s : string) : Z := Z.of_nat (String.length s).

(** [c in s] for a one-character [c] *)
Fixpoint contains (c : ascii) (s : string) : bool :=
  match s with
  | EmptyString => false
  | String a r => Ascii.eqb a c || contains c r
  end.

Fixpoint all_chars (p : ascii -> bool) (s : string) : bool :=
  match s with
  | EmptyString => true
  | String a r => p a && all_chars p r
  end.

(** [s.split(sep)] for a one-character separator *)
Fixpoint split (sep : ascii) (s : string) : list string :=
  match s with
  | EmptyString => [EmptyString]
  | String a r =>
      if Ascii.eqb a sep then EmptyString :: split sep r
      else match split sep r with
           | h :: t => String a h :: t
           | [] => [String a EmptyString]
           end
  end.

(** [sep.join(l)] *)
Definition join (sep : string) (l : list string) : string := String.concat sep l.

(** [s.partition(sep)]: the part before the first separator, whether there
    is one, and the part after it. *)
Fixpoint partition (sep : ascii) (s : string) : string * bool * string :=
  match s with
  | EmptyString => (EmptyString, false, EmptyString)
  | String a r =>
      if Ascii.eqb a sep then (EmptyString, true, r)
      else let '(h, found, t) := partition sep r in (String a h, found, t)
  end.

Fixpoint spaces (n : nat) : string :=
  match n with
  | O => EmptyString
  | S k => String " " (spaces k)
  end.

(** [s.ljust(width)] *)
Definition ljust (s : string) (width : Z) : string :=
  s ++ spaces (Z.to_nat (width - len s)).

(** [s.isascii()] *)
Definition isascii (s : string) : bool := all_chars (fun c => ord c <? 128) s.

Definition is_decimal_digit (c : ascii) : bool := (48 <=? ord c) && (ord c <=? 57).

(** [s.isdigit()]: below 256 the digit characters are [0-9] and the
    superscripts U+00B2, U+00B3 and U+00B9; the empty string has none. *)
Definition isdigit (s : string) : bool :=
  negb (String.eqb s EmptyString) &&
  all_chars (fun c => is_decimal_digit c
                      || (ord c =? 178) || (ord c =? 179) || (ord c =? 185)) s.

(** The value of a character as a digit of the given base. *)
Definition digit_value (base : Z) (c : ascii) : option Z :=
  let n := ord c in
  let v := if (48 <=? n) && (n <=? 57) then Some (n - 48)
           else if (97 <=? n) && (n <=? 122) then Some (n - 87)
           else if (65 <=? n) && (n <=? 90) then Some (n - 55)
           else None in
  match v with
  | Some d => if d <? base then Some d else None
  | None => None
  end.

Fixpoint digits_value (base : Z) (acc : Z) (s : string) : option Z :=
  match s with
  | EmptyString => Some acc
  | String c r =>
      match digit_value base c with
      | Some d => digits_value base (acc * base + d) r
      | None => None
      end
  end.

(** *** Integer formatting *)

(** The character of a digit value, lower case from ten up. *)
Definition digit_char (d : Z) : ascii :=
  if d <? 10 then chr (48 + d) else chr (87 + d).

(** The digits of [n >= 0] in the given base, least significant first;
    [fuel] bounds their number. *)
Fixpoint digits_rev (base : Z) (fuel : nat) (n : Z) : list Z :=
  match fuel with
  | O => []
  | S f => n mod base :: (if n / base =? 0 then [] else digits_rev base f (n / base))
  end.

(** A number has at most [log2 n + 1] digits in any base from two up. *)
Definition digits (base : Z) (n : Z) : list Z :=
  digits_rev base (S (Z.to_nat (Z.log2 n))) n.

Definition digits_str (base : Z) (n : Z) : string :=
  string_of_list_ascii (map digit_char (rev (digits base n))).

(** [str(n)], also ['%d' % n] *)
Definition str_int (n : Z) : string :=
  if n <? 0 then String "-" (digits_str 10 (- n)) else digits_str 10 n.

(** ['%x' % n] *)
Definition pct_x (n : Z) : string :=
  if n <? 0 then String "-" (digits_str 16 (- n)) else digits_str 16 n.

Fixpoint zeros (n : nat) : string :=
  match n with
  | O => EmptyString
  | S k => String "0" (zeros k)
  end.

(** ['%0<width>x' % n]: zeros go between the sign and the digits. *)
Definition pct_0x (width : Z) (n : Z) : string :=
  if n <? 0 then
    let d := digits_str 16 (- n) in
    String "-" (zeros (Z.to_nat (width - 1 - len d)) ++ d)
  else
    let d := digits_str 16 n in
    zeros (Z.to_nat (width - len d)) ++ d.

(** Digit characters, least significant first, with a comma after every
    third one that has a successor; [k] counts the digits of the current
    group. *)
Fixpoint group_thousands (ds : list ascii) (k : nat) : list ascii :=
  match ds with
  | [] => []
  | d :: r =>
      if Nat.eqb k 3 then "," %char :: d :: group_thousands r 1
      else d :: group_thousands r (S k)
  end.

(** [f"{n:,}"] *)
Definition format_comma (n : Z) : string :=
  let body :=
    string_of_list_ascii
      (rev (group_thousands (map digit_char (digits 10 (Z.abs n))) 0)) in
  if n <? 0 then String "-" body else body.

(** [s[i:j]] for [0 <= i <= j] *)
Definition slice (s : string) (i j : Z) : string :=
  substring (Z.to_nat i) (Z.to_nat (j - i)) s.

(** *** [repr] *)

Definition escape_x (n : Z) : string :=
  String "\" (String "x" (String (digit_char (n / 16))
                                  (String (digit_char (n mod 16)) EmptyString))).

(** The quote character [repr] picks: a double quote only when the text has
    a single quote and no double quote. *)
Definition repr_quote (s : string) : ascii :=
  if contains "'" s && negb (contains dquote s) then dquote else "'"%char.

(** [printable c] tells whether a character from 128 up is copied as it is. *)
Fixpoint repr_body (printable : Z -> bool) (q : ascii) (s : string) : string :=
  match s with
  | EmptyString => EmptyString
  | String c r =>
      let n := ord c in
      let rest := repr_body printable q r in
      if Ascii.eqb c q || Ascii.eqb c "\" then String "\" (String c rest)
      else if n =? 9 then String "\" (String "t" rest)
      else if n =? 10 then String "\" (String "n" rest)
      else if n =? 13 then String "\" (String "r" rest)
      else if (n <? 32) || (n =? 127) then escape_x n ++ rest
      else if n <? 127 then String c rest
      else if printable n then String c rest
      else escape_x n ++ rest
  end.

(** Of the code points 128..255, the controls U+0080..U+009F, the no-break
    space U+00A0 and the soft hyphen U+00AD are not printable. *)
Definition str_printable (n : Z) : bool := (160 <? n) && negb (n =? 173).

(** [repr(s)] for a [str] *)
Definition repr (s : string) : string :=
  let q := repr_quote s in
  String q (repr_body str_printable q s ++ String q EmptyString).

(** [repr(b)] for a [bytes] object, given as the string of its bytes *)
Definition repr_bytes (b : string) : string :=
  let q := repr_quote b in
  String "b" (String q (repr_body (fun _ => false) q b ++ String q EmptyString)).

(** [int(s, base)] on the strings that reach it here: the callers have
    checked that [s] holds digits of the base only, so that signs, blanks
    and underscores need no treatment; the empty string is refused. *)
Definition int_of_str (s : string) (base : Z) : result Z :=
  match s, digits_value base 0 s with
  | String _ _, Some n => Ok n
  | _, _ => raise ValueError
              ("invalid literal for int() with base " ++ str_int base ++ ": " ++ repr s)
  end.

(** [int.from_bytes(bs, 'big')] for a sequence of byte values *)
Definition from_bytes (bs : list Z) : Z :=
  fold_left (fun acc b => acc * 256 + b) bs 0.

(** [n.to_bytes(length, 'big')] *)
Definition to_bytes (n : Z) (length : nat) : result (list Z) :=
  if n <? 0 then raise OverflowError "can't convert negative int to unsigned"
  else if 256 ^ Z.of_nat length <=? n then raise OverflowError "int too big to convert"
  else Ok (map (fun i => Z.land (Z.shiftr n (8 * Z.of_nat i)) 255) (rev (seq 0 length))).

(** [n.bit_length()] *)
Definition bit_length (n : Z) : Z :=
  if n =? 0 then 0 else Z.log2 (Z.abs n) + 1.

End Py.

Declare Scope py_scope.
Notation "x <- m ;; k" := (Py.bind m (fun x => k))
  (at level 61, m at next level, right associativity) : py_scope.
Notation "m ;;; k" := (Py.bind m (fun _ => k))
  (at level 61, right associativity) : py_scope.
Local Open Scope py_scope.
Notation "' pat <- m ;; k" := (Py.bind m (fun x => let 'pat := x in k))
  (at level 61, pat pattern, m at next level, right associativity) : py_scope.

(* ================================================================= *)
(** ** The [ipaddress] module *)

Module ipaddress.
Import Py.

Definition IPV4LENGTH : Z := 32.
Definition IPV6LENGTH : Z := 128.

(** *** Module-level helpers *)

Definition _split_optional_netmask (address : string) : result (list string) :=
  let addr := split "/" address in
  if 2 <? Z.of_nat (List.length addr)
  then raise AddressValueError ("Only one '/' permitted in " ++ repr address)
  else Ok addr.

Definition _count_righthand_zero_bits (number bits : Z) : Z :=
  if number =? 0 then bits
  else Z.min bits (bit_length (Z.land (Z.lnot number) (number - 1))).

(** What stands for the mask: an [int] (the default, when the text has no
    ['/']) or the text after the ['/']. *)
Inductive netmask_arg :=
| MaskInt (n : Z)
| MaskStr (s : string).

(** *** [_IPAddressBase]: what both versions share

    [_BaseV4] and [_BaseV6] supply the class constants. *)

Class Version := {
  _version : Z;
  _ALL_ONES : Z;
  _max_prefixlen : Z
}.

Section IPAddressBase.
Context {V : Version}.

Definition _check_int_address (address : Z) : result unit :=
  if address <? 0 then
    raise AddressValueError
      (str_int address ++ " (< 0) is not permitted as an IPv"
       ++ str_int _version ++ " address")
  else if _ALL_ONES <? address then
    raise AddressValueError
      (str_int address ++ " (>= 2**" ++ str_int _max_prefixlen
       ++ ") is not permitted as an IPv" ++ str_int _version ++ " address")
  else Ok tt.

Definition _ip_int_from_prefix (prefixlen : Z) : Z :=
  Z.lxor _ALL_ONES (Z.shiftr _ALL_ONES prefixlen).

Definition _prefix_from_ip_int (ip_int : Z) : result Z :=
  let trailing_zeroes := _count_righthand_zero_bits ip_int _max_prefixlen in
  let prefixlen := _max_prefixlen - trailing_zeroes in
  let leading_ones := Z.shiftr ip_int trailing_zeroes in
  let all_ones := Z.shiftl 1 prefixlen - 1 in
  if negb (leading_ones =? all_ones) then
    let byteslen := _max_prefixlen / 8 in
    details <- to_bytes ip_int (Z.to_nat byteslen) ;;
    raise ValueError
      ("Netmask pattern "
       ++ repr_bytes (string_of_list_ascii (map chr details))
       ++ " mixes zeroes & ones")
  else Ok prefixlen.

Definition _report_invalid_netmask {A} (netmask_str : netmask_arg) : result A :=
  let r := match netmask_str with
           | MaskInt n => str_int n
           | MaskStr s => repr s
           end in
  raise NetmaskValueError (r ++ " is not a valid netmask").

Definition _prefix_from_prefix_string (prefixlen_str : string) : result Z :=
  if negb (isascii prefixlen_str && isdigit prefixlen_str) then
    _report_invalid_netmask (MaskStr prefixlen_str)
  else
    prefixlen <- try_except (int_of_str prefixlen_str 10)
                   [(ValueError,
                     fun _ => _report_invalid_netmask (MaskStr prefixlen_str))] ;;
    if negb ((0 <=? prefixlen) && (prefixlen <=? _max_prefixlen)) then
      _report_invalid_netmask (MaskStr prefixlen_str)
    else Ok prefixlen.

(** [_ip_int_from_string] is the class's own parser. *)
Definition _prefix_from_ip_string (_ip_int_from_string : string -> result Z)
    (ip_str : string) : result Z :=
  ip_int <- try_except (_ip_int_from_string ip_str)
              [(AddressValueError,
                fun _ => _report_invalid_netmask (MaskStr ip_str))] ;;
  try_except (_prefix_from_ip_int ip_int)
    [(ValueError,
      fun _ =>
        let ip_int := Z.lxor ip_int _ALL_ONES in
        try_except (_prefix_from_ip_int ip_int)
          [(ValueError, fun _ => _report_invalid_netmask (MaskStr ip_str))])].

Definition _split_addr_prefix (address : string) : result (string * netmask_arg) :=
  address <- _split_optional_netmask address ;;
  match address with
  | addr :: mask :: _ => Ok (addr, MaskStr mask)
  | [addr] => Ok (addr, MaskInt _max_prefixlen)
  | [] => raise IndexError "list index out of range"
  end.

End IPAddressBase.

(** *** [_BaseV4] *)

#[export] Instance _BaseV4 : Version := {|
  _version := 4;
  _ALL_ONES := 2 ^ IPV4LENGTH - 1;
  _max_prefixlen := IPV4LENGTH
|}.

Module V4.

Definition _parse_octet (octet_str : string) : result Z :=
  if String.eqb octet_str "" then
    raise ValueError "Empty octet not permitted"
  else if negb (isascii octet_str && isdigit octet_str) then
    raise ValueError ("Only decimal digits permitted in " ++ repr octet_str)
  else if 3 <? len octet_str then
    raise ValueError ("At most 3 characters permitted in " ++ repr octet_str)
  else if negb (String.eqb octet_str "0")
          && match octet_str with
             | String c _ => Ascii.eqb c "0"
             | EmptyString => false
             end then
    raise ValueError ("Leading zeros are not permitted in " ++ repr octet_str)
  else
    octet_int <- int_of_str octet_str 10 ;;
    if 255 <? octet_int then
      raise ValueError ("Octet " ++ str_int octet_int ++ " (> 255) not permitted")
    else Ok octet_int.

Definition _ip_int_from_string (ip_str : string) : result Z :=
  if String.eqb ip_str "" then
    raise AddressValueError "Address cannot be empty"
  else
    let octets := split "." ip_str in
    if negb (Z.of_nat (List.length octets) =? 4) then
      raise AddressValueError ("Expected 4 octets in " ++ repr ip_str)
    else
      try_except (bs <- mapM _parse_octet octets ;; Ok (from_bytes bs))
        [(ValueError,
          fun exc => raise AddressValueError
                       (exn_str exc ++ " in " ++ repr ip_str))].

Definition _string_from_ip_int (ip_int : Z) : result string :=
  bs <- to_bytes ip_int 4 ;;
  Ok (join "." (map str_int bs)).

End V4.

(** *** [_BaseV6] *)

#[export] Instance _BaseV6 : Version := {|
  _version := 6;
  _ALL_ONES := 2 ^ IPV6LENGTH - 1;
  _max_prefixlen := IPV6LENGTH
|}.

(** An [IPv4Address] object holds [_ip]. *)
Record IPv4Address_t := { v4_ip : Z }.

(** The [str] branch of [IPv4Address.__init__] *)
Definition IPv4Address_of_str (address : string) : result IPv4Address_t :=
  let addr_str := address in
  if contains "/" addr_str then
    raise AddressValueError ("Unexpected '/' in " ++ repr address)
  else
    ip <- V4._ip_int_from_string addr_str ;;
    Ok {| v4_ip := ip |}.

(** The [int] branch of [IPv4Address.__init__] *)
Definition IPv4Address_of_int (address : Z) : result IPv4Address_t :=
  _check_int_address (V:=_BaseV4) address ;;;
  Ok {| v4_ip := address |}.

Module V6.

Definition _HEXTET_COUNT : Z := 8.

Definition _HEX_DIGITS : list ascii :=
  list_ascii_of_string "0123456789ABCDEFabcdef".

Definition in_HEX_DIGITS (c : ascii) : bool :=
  existsb (Ascii.eqb c) _HEX_DIGITS.

Definition _parse_hextet (hextet_str : string) : result Z :=
  if negb (all_chars in_HEX_DIGITS hextet_str) then
    raise ValueError ("Only hex digits permitted in " ++ repr hextet_str)
  else if 4 <? len hextet_str then
    raise ValueError ("At most 4 characters permitted in " ++ repr hextet_str)
  else int_of_str hextet_str 16.

(** [parts[i]], also for a negative [i]; the calls below stay in range. *)
Definition item (parts : list string) (i : Z) : string :=
  let i := if i <? 0 then Z.of_nat (List.length parts) + i else i in
  nth (Z.to_nat i) parts "".

(** [range(a, b)] *)
Definition range (a b : Z) : list Z :=
  map (fun k => a + Z.of_nat k) (seq 0 (Z.to_nat (b - a))).

(** One round of [for i in range(1, len(parts) - 1)]: the position of an
    empty inner part, of which there may be one only. *)
Definition skip_index_step (ip_str : string) (parts : list string)
    (acc : result (option Z)) (i : Z) : result (option Z) :=
  skip_index <- acc ;;
  if String.eqb (item parts i) "" then
    match skip_index with
    | Some _ => raise AddressValueError
                  ("At most one '::' permitted in " ++ repr ip_str)
    | None => Ok (Some i)
    end
  else Ok skip_index.

(** One round of the loops [ip_int <<= 16; ip_int |= _parse_hextet(parts[i])] *)
Definition hextet_step (parts : list string) (acc : result Z) (i : Z) : result Z :=
  ip_int <- acc ;;
  let ip_int := Z.shiftl ip_int 16 in
  h <- _parse_hextet (item parts i) ;;
  Ok (Z.lor ip_int h).

Definition _ip_int_from_string (ip_str : string) : result Z :=
  if String.eqb ip_str "" then
    raise AddressValueError "Address cannot be empty"
  else
    let parts := split ":" ip_str in
    let _min_parts := 3 in
    if Z.of_nat (List.length parts) <? _min_parts then
      raise AddressValueError
        ("At least " ++ str_int _min_parts ++ " parts expected in " ++ repr ip_str)
    else
      parts <-
        (if contains "." (item parts (-1)) then
           ipv4_int <-
             try_except
               (a <- IPv4Address_of_str (item parts (-1)) ;; Ok (v4_ip a))
               [(AddressValueError,
                 fun exc => raise AddressValueError
                              (exn_str exc ++ " in " ++ repr ip_str))] ;;
           Ok (removelast parts
               ++ [pct_x (Z.land (Z.shiftr ipv4_int 16) 65535);
                   pct_x (Z.land ipv4_int 65535)])%list
         else Ok parts) ;;
      let _max_parts := _HEXTET_COUNT + 1 in
      let nparts := Z.of_nat (List.length parts) in
      if _max_parts <? nparts then
        raise AddressValueError
          ("At most " ++ str_int (_max_parts - 1) ++ " colons permitted in "
           ++ repr ip_str)
      else
        skip_index <-
          fold_left (skip_index_step ip_str parts) (range 1 (nparts - 1)) (Ok None) ;;
        '(parts_hi, parts_lo, parts_skipped) <-
          match skip_index with
          | Some skip_index =>
              let parts_hi := skip_index in
              let parts_lo := nparts - skip_index - 1 in
              parts_hi <-
                (if String.eqb (item parts 0) "" then
                   let parts_hi := parts_hi - 1 in
                   if negb (parts_hi =? 0) then
                     raise AddressValueError
                       ("Leading ':' only permitted as part of '::' in "
                        ++ repr ip_str)
                   else Ok parts_hi
                 else Ok parts_hi) ;;
              parts_lo <-
                (if String.eqb (item parts (-1)) "" then
                   let parts_lo := parts_lo - 1 in
                   if negb (parts_lo =? 0) then
                     raise AddressValueError
                       ("Trailing ':' only permitted as part of '::' in "
                        ++ repr ip_str)
                   else Ok parts_lo
                 else Ok parts_lo) ;;
              let parts_skipped := _HEXTET_COUNT - (parts_hi + parts_lo) in
              if parts_skipped <? 1 then
                raise AddressValueError
                  ("Expected at most " ++ str_int (_HEXTET_COUNT - 1)
                   ++ " other parts with '::' in " ++ repr ip_str)
              else Ok (parts_hi, parts_lo, parts_skipped)
          | None =>
              if negb (nparts =? _HEXTET_COUNT) then
                raise AddressValueError
                  ("Exactly " ++ str_int _HEXTET_COUNT
                   ++ " parts expected without '::' in " ++ repr ip_str)
              else if String.eqb (item parts 0) "" then
                raise AddressValueError
                  ("Leading ':' only permitted as part of '::' in " ++ repr ip_str)
              else if String.eqb (item parts (-1)) "" then
                raise AddressValueError
                  ("Trailing ':' only permitted as part of '::' in " ++ repr ip_str)
              else Ok (nparts, 0, 0)
          end ;;
        try_except
          (ip_int <- fold_left (hextet_step parts) (range 0 parts_hi) (Ok 0) ;;
           let ip_int := Z.shiftl ip_int (16 * parts_skipped) in
           fold_left (hextet_step parts) (range (- parts_lo) 0) (Ok ip_int))
          [(ValueError,
            fun exc => raise AddressValueError
                         (exn_str exc ++ " in " ++ repr ip_str))].

(** The four counters of the loop in [_compress_hextets] *)
Record doublecolon := {
  best_doublecolon_start : Z;
  best_doublecolon_len : Z;
  doublecolon_start : Z;
  doublecolon_len : Z
}.

Definition doublecolon_step (st : doublecolon) (entry : Z * string) : doublecolon :=
  let '(index, hextet) := entry in
  if String.eqb hextet "0" then
    let dlen := doublecolon_len st + 1 in
    let dstart := if doublecolon_start st =? -1 then index
                  else doublecolon_start st in
    if best_doublecolon_len st <? dlen then
      {| best_doublecolon_start := dstart; best_doublecolon_len := dlen;
         doublecolon_start := dstart; doublecolon_len := dlen |}
    else
      {| best_doublecolon_start := best_doublecolon_start st;
         best_doublecolon_len := best_doublecolon_len st;
         doublecolon_start := dstart; doublecolon_len := dlen |}
  else
    {| best_doublecolon_start := best_doublecolon_start st;
       best_doublecolon_len := best_doublecolon_len st;
       doublecolon_start := -1; doublecolon_len := 0 |}.

(** [enumerate(l)] *)
Definition enumerate {A} (l : list A) : list (Z * A) :=
  combine (map Z.of_nat (seq 0 (List.length l))) l.

Definition _compress_hextets (hextets : list string) : list string :=
  let st := fold_left doublecolon_step (enumerate hextets)
              {| best_doublecolon_start := -1; best_doublecolon_len := 0;
                 doublecolon_start := -1; doublecolon_len := 0 |} in
  if 1 <? best_doublecolon_len st then
    let best_doublecolon_end := best_doublecolon_start st + best_doublecolon_len st in
    let hextets :=
      if best_doublecolon_end =? Z.of_nat (List.length hextets)
      then (hextets ++ [""])%list else hextets in
    let hextets :=
      (firstn (Z.to_nat (best_doublecolon_start st)) hextets
       ++ [""] ++ skipn (Z.to_nat best_doublecolon_end) hextets)%list in
    if best_doublecolon_start st =? 0 then "" :: hextets else hextets
  else hextets.

Definition _string_from_ip_int (ip_int : Z) : result string :=
  if _ALL_ONES (Version:=_BaseV6) <? ip_int then
    raise ValueError "IPv6 address is too large"
  else
    let hex_str := pct_0x 32 ip_int in
    hextets <- mapM (fun x => h <- int_of_str (slice hex_str x (x + 4)) 16 ;;
                              Ok (pct_x h))
                    (map (fun k => 4 * k) (range 0 8)) ;;
    let hextets := _compress_hextets hextets in
    Ok (join ":" hextets).

Definition _split_scope_id (ip_str : string) : result (string * option string) :=
  let '(addr, sep, scope_id) := partition "%" ip_str in
  if negb sep then Ok (addr, None)
  else if String.eqb scope_id "" || contains "%" scope_id then
    raise AddressValueError
      ("Invalid IPv6 address: " ++ String dquote (repr ip_str ++ String dquote ""))
  else Ok (addr, Some scope_id).

End V6.

(** An [IPv6Address] object holds [_ip] and [_scope_id]. *)
Record IPv6Address_t := { v6_ip : Z; _scope_id : option string }.

(** The [str] branch of [IPv6Address.__init__] *)
Definition IPv6Address_of_str (address : string) : result IPv6Address_t :=
  let addr_str := address in
  if contains "/" addr_str then
    raise AddressValueError ("Unexpected '/' in " ++ repr address)
  else
    '(addr_str, scope_id) <- V6._split_scope_id addr_str ;;
    ip <- V6._ip_int_from_string addr_str ;;
    Ok {| v6_ip := ip; _scope_id := scope_id |}.

(** The [int] branch of [IPv6Address.__init__] *)
Definition IPv6Address_of_int (address : Z) : result IPv6Address_t :=
  _check_int_address (V:=_BaseV6) address ;;;
  Ok {| v6_ip := address; _scope_id := None |}.

(** [_BaseAddress.__str__] at [IPv4Address] *)
Definition IPv4Address_str (self : IPv4Address_t) : result string :=
  V4._string_from_ip_int (v4_ip self).

(** [IPv6Address.__str__] *)
Definition IPv6Address_str (self : IPv6Address_t) : result string :=
  ip_str <- V6._string_from_ip_int (v6_ip self) ;;
  match _scope_id self with
  | Some scope_id =>
      if String.eqb scope_id "" then Ok ip_str
      else Ok (ip_str ++ "%" ++ scope_id)
  | None => Ok ip_str
  end.

(** [_make_netmask]: the class-level cache only stores what the body
    computes, so the body alone is modelled. *)
Definition _make_netmask_v4 (arg : netmask_arg) : result (IPv4Address_t * Z) :=
  prefixlen <-
    match arg with
    | MaskInt prefixlen =>
        if negb ((0 <=? prefixlen) && (prefixlen <=? _max_prefixlen (Version:=_BaseV4)))
        then _report_invalid_netmask (MaskInt prefixlen)
        else Ok prefixlen
    | MaskStr arg =>
        try_except (_prefix_from_prefix_string (V:=_BaseV4) arg)
          [(NetmaskValueError,
            fun _ => _prefix_from_ip_string (V:=_BaseV4) V4._ip_int_from_string arg)]
    end ;;
  netmask <- IPv4Address_of_int (_ip_int_from_prefix (V:=_BaseV4) prefixlen) ;;
  Ok (netmask, prefixlen).

Definition _make_netmask_v6 (arg : netmask_arg) : result (IPv6Address_t * Z) :=
  prefixlen <-
    match arg with
    | MaskInt prefixlen =>
        if negb ((0 <=? prefixlen) && (prefixlen <=? _max_prefixlen (Version:=_BaseV6)))
        then _report_invalid_netmask (MaskInt prefixlen)
        else Ok prefixlen
    | MaskStr arg => _prefix_from_prefix_string (V:=_BaseV6) arg
    end ;;
  netmask <- IPv6Address_of_int (_ip_int_from_prefix (V:=_BaseV6) prefixlen) ;;
  Ok (netmask, prefixlen).

(** *** Address classes and [_BaseNetwork]

    A network class names its [_address_class]; the methods of
    [_BaseNetwork] reach the address objects through it. *)

Class AddressClass (V : Version) := {
  address : Type;
  int_ : address -> Z;                         (* [int(a)] *)
  of_int : Z -> result address;                (* [cls(n)], [n] an [int] *)
  of_str : string -> result address;           (* [cls(s)], [s] a [str] *)
  str_ : address -> result string;             (* [str(a)] *)
  _make_netmask : netmask_arg -> result (address * Z)
}.

#[export] Instance IPv4Address : AddressClass _BaseV4 := {|
  address := IPv4Address_t;
  int_ := v4_ip;
  of_int := IPv4Address_of_int;
  of_str := IPv4Address_of_str;
  str_ := IPv4Address_str;
  _make_netmask := _make_netmask_v4
|}.

#[export] Instance IPv6Address : AddressClass _BaseV6 := {|
  address := IPv6Address_t;
  int_ := v6_ip;
  of_int := IPv6Address_of_int;
  of_str := IPv6Address_of_str;
  str_ := IPv6Address_str;
  _make_netmask := _make_netmask_v6
|}.

(** A network object: the attributes [__init__] sets. *)
Record Network {V : Version} (AC : AddressClass V) := {
  network_address : @address V AC;
  netmask : @address V AC;
  _prefixlen : Z
}.
Arguments network_address {V AC} _.
Arguments netmask {V AC} _.
Arguments _prefixlen {V AC} _.

Section BaseNetwork.
Context {V : Version} {AC : AddressClass V}.

(** [hostmask], [broadcast_address]: cached properties, computed from
    attributes that no longer change. *)
Definition hostmask (self : Network AC) : result address :=
  of_int (Z.lxor (int_ (netmask self)) _ALL_ONES).

Definition broadcast_address (self : Network AC) : result address :=
  h <- hostmask self ;;
  of_int (Z.lor (int_ (network_address self)) (int_ h)).

Definition with_prefixlen (self : Network AC) : result string :=
  a <- str_ (network_address self) ;;
  Ok (a ++ "/" ++ str_int (_prefixlen self)).

Definition num_addresses (self : Network AC) : result Z :=
  b <- broadcast_address self ;;
  Ok (int_ b - int_ (network_address self) + 1).

(** [__getitem__] *)
Definition getitem (self : Network AC) (n : Z) : result address :=
  let network := int_ (network_address self) in
  b <- broadcast_address self ;;
  let broadcast := int_ b in
  if 0 <=? n then
    if broadcast <? network + n then raise IndexError "address out of range"
    else of_int (network + n)
  else
    let n := n + 1 in
    if broadcast + n <? network then raise IndexError "address out of range"
    else of_int (broadcast + n).

(** [IPv4Network.__init__] and [IPv6Network.__init__], which differ in the
    address class only.  The [hosts] attribute they set last is not used by
    the program. *)
Definition Network_init (address : string) (strict : bool) : result (Network AC) :=
  '(addr, mask) <- _split_addr_prefix address ;;
  network_address0 <- of_str addr ;;
  '(netmask0, prefixlen) <- _make_netmask mask ;;
  let self := {| network_address := network_address0;
                 netmask := netmask0; _prefixlen := prefixlen |} in
  let packed := int_ (network_address self) in
  if negb (Z.land packed (int_ (netmask self)) =? packed) then
    if strict then
      s <- with_prefixlen self ;;
      raise ValueError (s ++ " has host bits set")
    else
      a <- of_int (Z.land packed (int_ (netmask self))) ;;
      Ok {| network_address := a; netmask := netmask0; _prefixlen := prefixlen |}
  else Ok self.

End BaseNetwork.

Definition IPv4Network := Network_init (AC:=IPv4Address).
Definition IPv6Network := Network_init (AC:=IPv6Address).

End ipaddress.

(* ================================================================= *)
(** ** ipcalc.py *)

Module ipcalc.
Import Py ipaddress.

(** A value stored in the information dictionary. *)
Inductive value :=
| VInt (n : Z)
| VStr (s : string).

(** A [dict] with [str] keys, in insertion order. *)
Definition dict := list (string * value).

(** [d[k] = v]: a key that is present keeps its place. *)
Fixpoint setitem (d : dict) (k : string) (v : value) : dict :=
  match d with
  | [] => [(k, v)]
  | (k', v') :: r =>
      if String.eqb k' k then (k, v) :: r else (k', v') :: setitem r k v
  end.

(** A dictionary display [{k1: v1, k2: v2, ...}] *)
Definition dict_display (entries : list (string * value)) : dict :=
  fold_left (fun d kv => setitem d (fst kv) (snd kv)) entries [].

Fixpoint get (d : dict) (k : string) : option value :=
  match d with
  | [] => None
  | (k', v) :: r => if String.eqb k' k then Some v else get r k
  end.

(** The objects that [main] holds in [subnet_info]. *)
Inductive object :=
| PyNone
| PyStr (s : string)
| PyDict (d : dict).

Definition calculate_ipv4_subnet_info (ipv4_address_with_prefix : string)
  : result object :=
  try_except
    (network <- IPv4Network ipv4_address_with_prefix false ;;
     input_cidr <- with_prefixlen network ;;
     network_address_str <- str_ (network_address network) ;;
     broadcast <- broadcast_address network ;;
     broadcast_str <- str_ broadcast ;;
     first <- getitem network 1 ;;
     first_str <- str_ first ;;
     last <- getitem network (-2) ;;
     last_str <- str_ last ;;
     total <- num_addresses network ;;
     let info := dict_display
       [("version", VInt 4);
        ("Input CIDR", VStr input_cidr);
        ("Network Address", VStr network_address_str);
        ("Broadcast Address", VStr broadcast_str);
        ("First usable Address", VStr first_str);
        ("Last usable Address", VStr last_str);
        ("Total Addresses", VInt total)] in
     Ok (PyDict info))
    [(ValueError,
      fun e => Ok (PyStr ("Error: Invalid IPv4 address or prefix. " ++ exn_str e)));
     (Exception,
      fun e => Ok (PyStr ("An unexpected error occurred: " ++ exn_str e)))].

Definition calculate_ipv6_subnet_info (ipv6_address_with_prefix : string)
  : result object :=
  try_except
    (network <- IPv6Network ipv6_address_with_prefix false ;;
     let network_address0 := network_address network in
     first_address <- getitem network 1 ;;
     last_address <- getitem network (-1) ;;
     total_addresses <- num_addresses network ;;
     input_cidr <- with_prefixlen network ;;
     network_address_str <- str_ (network_address network) ;;
     first <- getitem network 1 ;;
     first_str <- str_ first ;;
     last <- getitem network (-1) ;;
     last_str <- str_ last ;;
     total <- num_addresses network ;;
     let info := dict_display
       [("version", VInt 6);
        ("Input CIDR", VStr input_cidr);
        ("Network Address", VStr network_address_str);
        ("First usable Address", VStr first_str);
        ("Last usable Address", VStr last_str);
        ("Total Addresses", VInt total)] in
     Ok (PyDict info))
    [(ValueError,
      fun e => Ok (PyStr ("Error: Invalid IPv6 address or prefix. " ++ exn_str e)));
     (Exception,
      fun e => Ok (PyStr ("An unexpected error occurred: " ++ exn_str e)))].

(** [print_subnet_info] returns the lines it prints, one per [print]. *)
Definition print_subnet_info (subnet_info : dict) : list string :=
  let max_label_width :=
    fold_left (fun max_label_width label =>
                 if max_label_width <? len label then len label
                 else max_label_width)
              (map fst subnet_info) 0 in
  map (fun '(label, value) =>
         let formatted_label := ljust ("  " ++ label ++ ":") (max_label_width + 4) in
         match value with
         | VInt n => formatted_label ++ format_comma n
         | VStr s => formatted_label ++ s
         end)
      subnet_info.

(** *** The command line

    [main] builds an [argparse] parser with the mutually exclusive
    [store_true] options [-4] and [-6], the positional [network_address]
    and the [-h]/[--help] option every parser has.  The command line is
    taken as [argparse] classifies its strings: a cluster such as [-46]
    stands for its options in turn, a string after [--] is a positional, an
    option-like string the parser does not know is kept as it is, and an
    option glued to a text it does not take ([-4x], [--help=1]) is an error
    of its own. *)

Inductive arg :=
| Opt4                       (* [-4] *)
| Opt6                       (* [-6] *)
| OptHelp                    (* [-h], [--help] *)
| OptUnknown (s : string)
| OptIgnoredArg (option explicit_arg : string)
| Positional (s : string).

(** What the process writes, in order. *)
Inductive event :=
| Stdout (line : string)             (* a [print] *)
| StdoutHelp                         (* the help text *)
| StderrUsage (message : string)     (* the usage line and an error *)
| StderrTraceback (e : exn).         (* an uncaught exception *)

(** The result of [parser.parse_args()] *)
Module Namespace.
Record t := {
  is_ipv4 : bool;
  is_ipv6 : bool;
  network_address : string
}.
End Namespace.

Inductive parse_result :=
| Parsed (args : Namespace.t)
| SystemExit (status : Z) (out : list event).

(** The parser's progress over the command line. *)
Record parser_state := {
  seen4 : bool;
  seen6 : bool;
  positional : option string;
  extras : list string
}.

(** [parse_args]: an option that conflicts with one seen before, an option
    with a text it does not take, or a request for help, ends the process
    at once; what is left over and a missing positional are reported at
    the end. *)
Fixpoint parse_loop (st : parser_state) (argv : list arg) : parse_result :=
  match argv with
  | [] =>
      match positional st with
      | None =>
          SystemExit 2
            [StderrUsage "the following arguments are required: network_address"]
      | Some ip =>
          match extras st with
          | [] => Parsed {| Namespace.is_ipv4 := seen4 st;
                            Namespace.is_ipv6 := seen6 st;
                            Namespace.network_address := ip |}
          | _ :: _ =>
              SystemExit 2
                [StderrUsage ("unrecognized arguments: " ++ join " " (extras st))]
          end
      end
  | Opt4 :: rest =>
      if seen6 st then
        SystemExit 2 [StderrUsage "argument -4: not allowed with argument -6"]
      else parse_loop {| seen4 := true; seen6 := seen6 st;
                         positional := positional st; extras := extras st |} rest
  | Opt6 :: rest =>
      if seen4 st then
        SystemExit 2 [StderrUsage "argument -6: not allowed with argument -4"]
      else parse_loop {| seen4 := seen4 st; seen6 := true;
                         positional := positional st; extras := extras st |} rest
  | OptHelp :: _ => SystemExit 0 [StdoutHelp]
  | OptIgnoredArg option explicit_arg :: _ =>
      SystemExit 2
        [StderrUsage ("argument " ++ option ++ ": ignored explicit argument "
                      ++ repr explicit_arg)]
  | OptUnknown s :: rest =>
      parse_loop {| seen4 := seen4 st; seen6 := seen6 st;
                    positional := positional st;
                    extras := (extras st ++ [s])%list |} rest
  | Positional s :: rest =>
      match positional st with
      | None => parse_loop {| seen4 := seen4 st; seen6 := seen6 st;
                              positional := Some s; extras := extras st |} rest
      | Some _ => parse_loop {| seen4 := seen4 st; seen6 := seen6 st;
                                positional := positional st;
                                extras := (extras st ++ [s])%list |} rest
      end
  end.

Definition parse_args (argv : list arg) : parse_result :=
  parse_loop {| seen4 := false; seen6 := false;
                positional := None; extras := [] |} argv.

(** A run of the program: what it wrote and its exit status. *)
Record run := {
  output : list event;
  exit_status : Z
}.

(** [bool(x)] for the objects [subnet_info] may hold *)
Definition truthy (x : object) : bool :=
  match x with
  | PyNone => false
  | PyStr s => negb (String.eqb s "")
  | PyDict d => match d with [] => false | _ :: _ => true end
  end.

(** [main], run as a script: falling off its end gives status 0, an
    exception that escapes gives a traceback and status 1. *)
Definition main (argv : list arg) : run :=
  match parse_args argv with
  | SystemExit status out => {| output := out; exit_status := status |}
  | Parsed args =>
      let ip_input := Namespace.network_address args in
      let subnet_info := PyNone in
      let args :=
        if negb (Namespace.is_ipv4 args) && negb (Namespace.is_ipv6 args)
        then {| Namespace.is_ipv4 := Namespace.is_ipv4 args;
                Namespace.is_ipv6 := true;
                Namespace.network_address := Namespace.network_address args |}
        else args in
      let computed :=
        if Namespace.is_ipv4 args then calculate_ipv4_subnet_info ip_input
        else if Namespace.is_ipv6 args then calculate_ipv6_subnet_info ip_input
        else Ok subnet_info in
      match computed with
      | Raise e => {| output := [StderrTraceback e]; exit_status := 1 |}
      | Ok subnet_info =>
          let printed :=
            match subnet_info with
            | PyStr s => [Stdout s]
            | PyDict d =>
                if truthy subnet_info then map Stdout (print_subnet_info d)
                else []
            | PyNone => []
            end in
          {| output := printed; exit_status := 0 |}
      end
  end.

End ipcalc.

(* ================================================================= *)
(** ** Verification *)

(** *** Notions used in the statements *)

Module Notions.
Import Py.

(** [spec Q E m]: if [m] returns, its value satisfies [Q]; if it raises,
    the exception satisfies [E]. *)
Definition spec {A} (Q : A -> Prop) (E : exn -> Prop) (m : result A) : Prop :=
  match m with
  | Ok a => Q a
  | Raise e => E e
  end.

(** Classes of the exceptions the library raises. *)
Definition is_ValueError (e : exn) : Prop := isinstance e ValueError = true.
Definition is_Exception (e : exn) : Prop := isinstance e Exception = true.

(** A character that is a digit of the base. *)
Definition is_digit_of (base : Z) (c : ascii) : bool :=
  match digit_value base c with
  | Some _ => true
  | None => false
  end.

(** The text of an octet: decimal, read back by [_parse_octet], free of
    dots and slashes, and not empty. *)
Definition octet_text_ok (b : Z) : bool :=
  let t := str_int b in
  negb (contains "." t) && negb (contains "/" t) && negb (String.eqb t "")
  && match ipaddress.V4._parse_octet t with
     | Ok b' => b' =? b
     | Raise _ => false
     end.

(** What the class constants of a version must satisfy. *)
Class VersionLaws (V : ipaddress.Version) := {
  max_prefixlen_nonneg : 0 <= ipaddress._max_prefixlen;
  ALL_ONES_ones : ipaddress._ALL_ONES = Z.ones ipaddress._max_prefixlen
}.

(** What the methods of an address class must satisfy: the constructors
    accept exactly the integers of the version's range, and a netmask is
    the address of its prefix length. *)
Class AddressLaws {V : ipaddress.Version} (AC : ipaddress.AddressClass V) := {
  version_laws : VersionLaws V;
  of_int_spec : forall n,
    spec (fun a => ipaddress.int_ a = n /\ 0 <= n <= ipaddress._ALL_ONES)
         (fun e => exn_class e = AddressValueError) (ipaddress.of_int n);
  of_int_ok : forall n,
    0 <= n <= ipaddress._ALL_ONES -> exists a, ipaddress.of_int n = Ok a;
  of_str_spec : forall s,
    spec (fun a => 0 <= ipaddress.int_ a <= ipaddress._ALL_ONES)
         (fun e => exn_class e = AddressValueError) (ipaddress.of_str s);
  make_netmask_spec : forall m,
    spec (fun r => 0 <= snd r <= ipaddress._max_prefixlen /\
                   ipaddress.of_int (ipaddress._ip_int_from_prefix (snd r))
                   = Ok (fst r))
         (fun e => exn_class e = NetmaskValueError) (ipaddress._make_netmask m);
  str_ok : forall a,
    0 <= ipaddress.int_ a <= ipaddress._ALL_ONES ->
    exists s, ipaddress.str_ a = Ok s
}.

(** A network object as [__init__] leaves it: the netmask is that of the
    prefix length and the network address has no host bit. *)
Definition wf_network {V : ipaddress.Version} {AC : ipaddress.AddressClass V}
    (net : ipaddress.Network AC) : Prop :=
  let w := ipaddress._max_prefixlen in
  let p := ipaddress._prefixlen net in
  0 <= p <= w /\
  ipaddress.int_ (ipaddress.netmask net) = 2 ^ w - 2 ^ (w - p) /\
  exists q, 0 <= q < 2 ^ p /\
            ipaddress.int_ (ipaddress.network_address net) = 2 ^ (w - p) * q.

(** [field d k t]: the computation [t] returns a text, which is the entry
    [k] of the dictionary. *)
Definition field (d : ipcalc.dict) (k : string) (t : result string) : Prop :=
  exists s, t = Ok s /\ ipcalc.get d k = Some (ipcalc.VStr s).

(** [reads_back_v4 d k a]: the entry [k] of [d] is a text that
    [IPv4Address] reads as the address [a]. *)
Definition reads_back_v4 (d : ipcalc.dict) (k : string)
    (a : ipaddress.IPv4Address_t) : Prop :=
  exists t, ipcalc.get d k = Some (ipcalc.VStr t) /\
            ipaddress.IPv4Address_of_str t = Ok a.

(** The addresses behind the entries of an IPv4 dictionary, in numeric
    order: the network address first, the broadcast address last.  The
    entries are the texts of these addresses and read back as them. *)
Definition ordered_ipv4 (net : ipaddress.Network ipaddress.IPv4Address)
    (d : ipcalc.dict) : Prop :=
  exists b f l,
    ipaddress.broadcast_address net = Ok b /\
    ipaddress.getitem net 1 = Ok f /\
    ipaddress.getitem net (-2) = Ok l /\
    field d "Network Address" (ipaddress.str_ (ipaddress.network_address net)) /\
    field d "Broadcast Address" (ipaddress.str_ b) /\
    field d "First usable Address" (ipaddress.str_ f) /\
    field d "Last usable Address" (ipaddress.str_ l) /\
    reads_back_v4 d "Network Address" (ipaddress.network_address net) /\
    reads_back_v4 d "Broadcast Address" b /\
    reads_back_v4 d "First usable Address" f /\
    reads_back_v4 d "Last usable Address" l /\
    let n := ipaddress.v4_ip (ipaddress.network_address net) in
    n <= ipaddress.v4_ip f <= ipaddress.v4_ip b /\
    n <= ipaddress.v4_ip l <= ipaddress.v4_ip b /\
    n <= ipaddress.v4_ip b.

(** The same for IPv6, where the last usable address is the last one. *)
Definition ordered_ipv6 (net : ipaddress.Network ipaddress.IPv6Address)
    (d : ipcalc.dict) : Prop :=
  exists f l,
    ipaddress.getitem net 1 = Ok f /\
    ipaddress.getitem net (-1) = Ok l /\
    field d "Network Address" (ipaddress.str_ (ipaddress.network_address net)) /\
    field d "First usable Address" (ipaddress.str_ f) /\
    field d "Last usable Address" (ipaddress.str_ l) /\
    let n := ipaddress.v6_ip (ipaddress.network_address net) in
    n <= ipaddress.v6_ip f <= ipaddress.v6_ip l /\
    n <= ipaddress.v6_ip l.

(** [reads_as s a p]: the text [s] splits into an address text that denotes
    [a] and a mask that denotes the prefix length [p]. *)
Definition reads_as {V : ipaddress.Version} (AC : ipaddress.AddressClass V)
    (s : string) (a : ipaddress.address) (p : Z) : Prop :=
  exists addr mask nm,
    ipaddress._split_addr_prefix s = Ok (addr, mask) /\
    ipaddress.of_str addr = Ok a /\
    ipaddress._make_netmask mask = Ok (nm, p).

(** The address with its host bits cleared, for a prefix length. *)
Definition network_bits {V : ipaddress.Version} (ip : Z) (p : Z) : Z :=
  Z.land ip (ipaddress._ip_int_from_prefix p).

(** [s0] is [s] with the host bits of its address cleared: both read with
    the same prefix length, the address of [s] has host bits, and the
    address of [s0] is that of [s] without them. *)
Definition host_bits_cleared_v4 (s s0 : string) : Prop :=
  exists a a0 p,
    reads_as ipaddress.IPv4Address s a p /\
    reads_as ipaddress.IPv4Address s0 a0 p /\
    network_bits (V:=ipaddress._BaseV4) (ipaddress.v4_ip a) p
    <> ipaddress.v4_ip a /\
    ipaddress.v4_ip a0
    = network_bits (V:=ipaddress._BaseV4) (ipaddress.v4_ip a) p.

(** The same for IPv6, where an address may carry a zone identifier:
    [zone] relates the zone of [s] and the zone of [s0]. *)
Definition host_bits_cleared_v6
    (zone : option string -> option string -> Prop) (s s0 : string) : Prop :=
  exists a a0 p,
    reads_as ipaddress.IPv6Address s a p /\
    reads_as ipaddress.IPv6Address s0 a0 p /\
    network_bits (V:=ipaddress._BaseV6) (ipaddress.v6_ip a) p
    <> ipaddress.v6_ip a /\
    ipaddress.v6_ip a0
    = network_bits (V:=ipaddress._BaseV6) (ipaddress.v6_ip a) p /\
    zone (ipaddress._scope_id a) (ipaddress._scope_id a0).

(** How the IPv4 calculator derives its entries from the text: the address
    and the mask it reads, the network and broadcast addresses as bit
    operations on them, the usable addresses next to these, and the count. *)
Definition ipv4_derivations (s : string)
    (net : ipaddress.Network ipaddress.IPv4Address) : Prop :=
  exists addr mask a,
    ipaddress._split_addr_prefix (V:=ipaddress._BaseV4) s = Ok (addr, mask) /\
    ipaddress.IPv4Address_of_str addr = Ok a /\
    ipaddress._make_netmask_v4 mask
    = Ok (ipaddress.netmask net, ipaddress._prefixlen net) /\
    let p := ipaddress._prefixlen net in
    let m := ipaddress.v4_ip (ipaddress.netmask net) in
    let n := Z.land (ipaddress.v4_ip a) m in
    let b := Z.lor n (Z.lxor m (2 ^ 32 - 1)) in
    0 <= p <= 32 /\
    m = Z.shiftl (Z.ones p) (32 - p) /\
    ipaddress.network_address net = {| ipaddress.v4_ip := n |} /\
    ipaddress.broadcast_address net = Ok {| ipaddress.v4_ip := b |} /\
    ipaddress.num_addresses net = Ok (2 ^ (32 - p)) /\
    (p < 32 ->
     ipaddress.getitem net 1 = Ok {| ipaddress.v4_ip := n + 1 |} /\
     ipaddress.getitem net (-2) = Ok {| ipaddress.v4_ip := b - 1 |}) /\
    (forall d,
       ipcalc.calculate_ipv4_subnet_info s = Ok (ipcalc.PyDict d) ->
       exists ns bs fs ls,
         ipaddress.IPv4Address_str {| ipaddress.v4_ip := n |} = Ok ns /\
         ipaddress.IPv4Address_str {| ipaddress.v4_ip := b |} = Ok bs /\
         ipaddress.IPv4Address_str {| ipaddress.v4_ip := n + 1 |} = Ok fs /\
         ipaddress.IPv4Address_str {| ipaddress.v4_ip := b - 1 |} = Ok ls /\
         d = [("version", ipcalc.VInt 4);
              ("Input CIDR", ipcalc.VStr (ns ++ "/" ++ str_int p));
              ("Network Address", ipcalc.VStr ns);
              ("Broadcast Address", ipcalc.VStr bs);
              ("First usable Address", ipcalc.VStr fs);
              ("Last usable Address", ipcalc.VStr ls);
              ("Total Addresses", ipcalc.VInt (2 ^ (32 - p)))]) /\
    (p < 32 ->
     exists d, ipcalc.calculate_ipv4_subnet_info s = Ok (ipcalc.PyDict d)).

(** The label a printed line shows: what stands between the two leading
    blanks and the first colon. *)
Definition label_of_line (line : string) : string :=
  let '(before, _, _) := partition ":" line in
  substring 2 (String.length before - 2) before.

(** The line feed, which ends a line of the output. *)
Definition LF : ascii := "010"%char.

(** The lines that a list of printed texts puts on the output: [print]
    writes its text and a line feed, so a text with a line feed inside
    gives more than one line. *)
Definition lines_of (texts : list string) : list string :=
  flat_map (split LF) texts.

(** The lines the [print] calls of a run wrote to standard output, in
    order. *)
Definition printed_lines (r : ipcalc.run) : list string :=
  lines_of (flat_map (fun ev => match ev with
                                | ipcalc.Stdout text => [text]
                                | _ => []
                                end)
                     (ipcalc.output r)).

(** The text of a value: an integer with its thousands grouped, a string
    as it is. *)
Definition render (v : ipcalc.value) : string :=
  match v with
  | ipcalc.VInt n => format_comma n
  | ipcalc.VStr s => s
  end.

(** The layout the specification describes, to compare with
    [ipcalc.print_subnet_info]: two blanks, the label padded to the width
    of the widest label, a colon, one blank, the value. *)
Definition colon_aligned_lines (subnet_info : ipcalc.dict) : list string :=
  let max_label_width :=
    fold_left Z.max (map (fun kv => len (fst kv)) subnet_info) 0 in
  map (fun kv => "  " ++ ljust (fst kv) max_label_width ++ ": " ++ render (snd kv))
      subnet_info.

End Notions.

(* ================================================================= *)
(** ** Further properties of the program *)

(** *** Notions used in their statements *)

Module CoverageNotions.
Import Py Notions.

(** How the IPv6 calculator derives its entries from the text: the address
    and the prefix length it reads, the network address as a bit operation
    on them (with the zone of the address when no host bit was set), the
    first address after it, the last address of the range, and the
    count.  There is no broadcast entry. *)
Definition ipv6_derivations (s : string)
    (net : ipaddress.Network ipaddress.IPv6Address) : Prop :=
  exists addr mask a,
    ipaddress._split_addr_prefix (V:=ipaddress._BaseV6) s = Ok (addr, mask) /\
    ipaddress.IPv6Address_of_str addr = Ok a /\
    ipaddress._make_netmask_v6 mask
    = Ok (ipaddress.netmask net, ipaddress._prefixlen net) /\
    let p := ipaddress._prefixlen net in
    let m := ipaddress.v6_ip (ipaddress.netmask net) in
    let n := Z.land (ipaddress.v6_ip a) m in
    let l := Z.lor n (Z.lxor m (2 ^ 128 - 1)) in
    0 <= p <= 128 /\
    m = Z.shiftl (Z.ones p) (128 - p) /\
    ipaddress.network_address net
    = {| ipaddress.v6_ip := n;
         ipaddress._scope_id :=
           if n =? ipaddress.v6_ip a then ipaddress._scope_id a else None |} /\
    ipaddress.num_addresses net = Ok (2 ^ (128 - p)) /\
    l = n + 2 ^ (128 - p) - 1 /\
    ipaddress.getitem net (-1)
    = Ok {| ipaddress.v6_ip := l; ipaddress._scope_id := None |} /\
    (p < 128 ->
     ipaddress.getitem net 1
     = Ok {| ipaddress.v6_ip := n + 1; ipaddress._scope_id := None |}) /\
    (forall d,
       ipcalc.calculate_ipv6_subnet_info s = Ok (ipcalc.PyDict d) ->
       exists ns fs ls,
         ipaddress.IPv6Address_str (ipaddress.network_address net) = Ok ns /\
         ipaddress.IPv6Address_str
           {| ipaddress.v6_ip := n + 1; ipaddress._scope_id := None |} = Ok fs /\
         ipaddress.IPv6Address_str
           {| ipaddress.v6_ip := l; ipaddress._scope_id := None |} = Ok ls /\
         d = [("version", ipcalc.VInt 6);
              ("Input CIDR", ipcalc.VStr (ns ++ "/" ++ str_int p));
              ("Network Address", ipcalc.VStr ns);
              ("First usable Address", ipcalc.VStr fs);
              ("Last usable Address", ipcalc.VStr ls);
              ("Total Addresses", ipcalc.VInt (2 ^ (128 - p)))] /\
         ipcalc.get d "Broadcast Address" = None) /\
    (p < 128 ->
     exists d, ipcalc.calculate_ipv6_subnet_info s = Ok (ipcalc.PyDict d)).

(** The text of the prefix length [p] as the IPv4 parser takes it: it has
    no slash and [_make_netmask] reads it as [p]. *)
Definition prefix_text_ok_v4 (p : Z) : bool :=
  let t := str_int p in
  negb (contains "/" t)
  && match ipaddress._make_netmask_v4 (ipaddress.MaskStr t) with
     | Ok (nm, q) =>
         (ipaddress.v4_ip nm =? ipaddress._ip_int_from_prefix (V:=ipaddress._BaseV4) p)
         && (q =? p)
     | Raise _ => false
     end.

(** The dotted text of the integer [mask] is read by [_make_netmask] as the
    prefix length [p]. *)
Definition mask_text_ok_v4 (mask p : Z) : bool :=
  match ipaddress.V4._string_from_ip_int mask with
  | Ok t =>
      negb (contains "/" t)
      && match ipaddress._make_netmask_v4 (ipaddress.MaskStr t) with
         | Ok (nm, q) =>
             (ipaddress.v4_ip nm
              =? ipaddress._ip_int_from_prefix (V:=ipaddress._BaseV4) p)
             && (q =? p)
         | Raise _ => false
         end
  | Raise _ => false
  end.

(** The netmask and the hostmask of a prefix length, as integers. *)
Definition netmask_int_v4 (p : Z) : Z := 2 ^ 32 - 2 ^ (32 - p).
Definition hostmask_int_v4 (p : Z) : Z := 2 ^ (32 - p) - 1.

(** [s.replace(c, "")] for a one-character [c] *)
Fixpoint without (c : ascii) (s : string) : string :=
  match s with
  | EmptyString => EmptyString
  | String a r => if Ascii.eqb a c then without c r else String a (without c r)
  end.

(** The command line, as far as [parse_args] looks at it: the texts of the
    positional arguments in order, whether [-4] or [-6] occurs, and whether
    it holds these three kinds of arguments only. *)
Definition positionals (argv : list ipcalc.arg) : list string :=
  flat_map (fun a => match a with
                     | ipcalc.Positional s => [s]
                     | _ => []
                     end) argv.

Definition has4 (argv : list ipcalc.arg) : bool :=
  existsb (fun a => match a with ipcalc.Opt4 => true | _ => false end) argv.

Definition has6 (argv : list ipcalc.arg) : bool :=
  existsb (fun a => match a with ipcalc.Opt6 => true | _ => false end) argv.

Definition plain (argv : list ipcalc.arg) : bool :=
  forallb (fun a => match a with
                    | ipcalc.Opt4 | ipcalc.Opt6 | ipcalc.Positional _ => true
                    | _ => false
                    end) argv.


(** A character the IPv4 parser lets through: a decimal digit or a dot. *)
Definition is_dotted_char (c : ascii) : bool :=
  is_decimal_digit c || Ascii.eqb c ".".

(** A character of the text of a hextet: a hexadecimal digit in lower
    case. *)
Definition is_hextet_char (c : ascii) : bool :=
  existsb (Ascii.eqb c) (list_ascii_of_string "0123456789abcdef").

(** A character of the text of an IPv6 address without its zone. *)
Definition is_v6_text_char (c : ascii) : bool :=
  is_hextet_char c || Ascii.eqb c ":".

(** The hextets of [T] from [start] on, [length] of them, are all ["0"]. *)
Definition run_of_zeros (T : list string) (start length : Z) : Prop :=
  0 <= start /\ 1 <= length /\
  forall j, start <= Z.of_nat j < start + length -> nth j T "" = "0".

(** The counters of [_compress_hextets] after the hextets before
    position [i]: the best run and the current run hold zero hextets
    only, the best run ends before [i], the current run at [i]. *)
Definition compress_inv (T : list string) (i : nat)
    (st : ipaddress.V6.doublecolon) : Prop :=
  (ipaddress.V6.best_doublecolon_len st = 0 \/
   (run_of_zeros T (ipaddress.V6.best_doublecolon_start st)
                   (ipaddress.V6.best_doublecolon_len st) /\
    ipaddress.V6.best_doublecolon_start st + ipaddress.V6.best_doublecolon_len st
    <= Z.of_nat i)) /\
  ((ipaddress.V6.doublecolon_len st = 0 /\ ipaddress.V6.doublecolon_start st = -1) \/
   (run_of_zeros T (ipaddress.V6.doublecolon_start st)
                   (ipaddress.V6.doublecolon_len st) /\
    ipaddress.V6.doublecolon_start st + ipaddress.V6.doublecolon_len st
    = Z.of_nat i)).

(** A zone identifier as [IPv6Address] takes it from a text: not empty,
    and free of percent signs and slashes. *)
Definition zone_ok (zone : option string) : Prop :=
  match zone with
  | None => True
  | Some z => z <> "" /\ contains "%" z = false /\ contains "/" z = false
  end.

(** [reads_back_v6 d k a]: the entry [k] of [d] is a text that
    [IPv6Address] reads as the address [a]. *)
Definition reads_back_v6 (d : ipcalc.dict) (k : string)
    (a : ipaddress.IPv6Address_t) : Prop :=
  exists t, ipcalc.get d k = Some (ipcalc.VStr t) /\
            ipaddress.IPv6Address_of_str t = Ok a.

(** The text of the prefix length [p] as the IPv6 parser takes it. *)
Definition prefix_text_ok_v6 (p : Z) : bool :=
  let t := str_int p in
  negb (contains "/" t)
  && match ipaddress._make_netmask_v6 (ipaddress.MaskStr t) with
     | Ok (nm, q) =>
         (ipaddress.v6_ip nm =? ipaddress._ip_int_from_prefix (V:=ipaddress._BaseV6) p)
         && match ipaddress._scope_id nm with None => true | Some _ => false end
         && (q =? p)
     | Raise _ => false
     end.
(** An entry that [print_subnet_info] prints on one line: no line feed in
    the key nor in a string value, and an integer value that the formatting
    of integers takes (Python refuses to convert an integer of more than
    4300 decimal digits to text). *)
Definition one_line_entry (kv : string * ipcalc.value) : Prop :=
  contains LF (fst kv) = false /\
  match snd kv with
  | ipcalc.VStr text => contains LF text = false
  | ipcalc.VInt n => Z.abs n < 10 ^ 4300
  end.


End CoverageNotions.

#[local] Arguments Z.pow : simpl never.
#[local] Arguments Z.ones : simpl never.
#[local] Arguments Z.shiftl : simpl never.
#[local] Arguments Z.shiftr : simpl never.
#[local] Arguments Z.land : simpl never.
#[local] Arguments Z.lor : simpl never.
#[local] Arguments Z.lxor : simpl never.

(** *** Computations that may raise, strings and digits *)

Module PyFacts.
Import Py Notions.

Lemma spec_ok {A} (Q : A -> Prop) E a : Q a -> spec Q E (Ok a).
Proof. exact (fun H => H). Qed.

Lemma spec_raise {A} (Q : A -> Prop) (E : exn -> Prop) c msg :
  E (Exn c msg) -> spec Q E (raise c msg).
Proof. exact (fun H => H). Qed.

Lemma spec_bind {A B} (Q1 : A -> Prop) (Q : B -> Prop) E m k :
  spec Q1 E m -> (forall a, m = Ok a -> Q1 a -> spec Q E (k a)) ->
  spec Q E (bind m k).
Proof.
  destruct m as [a|e]; simpl; intros H1 H2; [apply H2; auto | exact H1].
Qed.

Lemma spec_weaken {A} (Q Q' : A -> Prop) (E E' : exn -> Prop) m :
  spec Q E m -> (forall a, Q a -> Q' a) -> (forall e, E e -> E' e) ->
  spec Q' E' m.
Proof. destruct m; simpl; auto. Qed.

Lemma spec_returns {A} (Q : A -> Prop) E m a : spec Q E m -> m = Ok a -> Q a.
Proof. intros H ->. exact H. Qed.

Lemma spec_raises {A} (Q : A -> Prop) E m e : spec Q E m -> m = Raise e -> E e.
Proof. intros H ->. exact H. Qed.

(** A [try] with one clause. *)
Lemma spec_try1 {A} (Q : A -> Prop) (E E1 : exn -> Prop) m c h :
  spec Q E1 m ->
  (forall e, E1 e -> if isinstance e c then spec Q E (h e) else E e) ->
  spec Q E (try_except m [(c, h)]).
Proof.
  destruct m as [a|e]; simpl; intros H1 H2; [exact H1|].
  specialize (H2 e H1). destruct (isinstance e c); exact H2.
Qed.

Lemma spec_mapM {A B} (Q : B -> Prop) E (f : A -> result B) l :
  (forall x, spec Q E (f x)) ->
  spec (fun ys => List.length ys = List.length l /\ Forall Q ys) E (mapM f l).
Proof.
  intros Hf. induction l as [|x r IH]; simpl.
  - split; [reflexivity | constructor].
  - apply spec_bind with (Q1 := Q); [apply Hf|]. intros y _ Hy.
    eapply spec_bind; [exact IH|]. intros ys _ [Hl Hys]. simpl.
    split; [simpl; congruence | constructor; assumption].
Qed.

(** A loop that threads a [result] through [fold_left]. *)
Lemma spec_fold_left {A S} (I : nat -> S -> Prop) E
    (step : result S -> A -> result S) (l : list A) (init : S) :
  I O init ->
  (forall e x, step (Raise e) x = Raise e) ->
  (forall k s x, I k s -> nth_error l k = Some x -> spec (I (Datatypes.S k)) E (step (Ok s) x)) ->
  spec (I (List.length l)) E (fold_left step l (Ok init)).
Proof.
  intros H0 Hr Hs.
  assert (G : forall l2 l1 acc, l = (l1 ++ l2)%list ->
              spec (I (List.length l1)) E acc ->
              spec (I (List.length l)) E (fold_left step l2 acc)).
  { induction l2 as [|x r IH]; intros l1 acc El Hacc; simpl.
    - rewrite El, app_nil_r. exact Hacc.
    - apply (IH (l1 ++ [x])%list).
      + rewrite <- app_assoc. exact El.
      + rewrite length_app. simpl. rewrite Nat.add_1_r.
        destruct acc as [s|e]; simpl in *.
        * apply Hs; [exact Hacc|]. rewrite El.
          rewrite nth_error_app2 by lia. rewrite Nat.sub_diag. reflexivity.
        * rewrite Hr. exact Hacc. }
  apply (G l [] (Ok init)); [reflexivity | exact H0].
Qed.

Lemma is_ValueError_Exception e : is_ValueError e -> is_Exception e.
Proof. destruct e as [c m]. destruct c; cbv; congruence. Qed.

(** *** Strings *)

Lemma split_not_nil sep s : split sep s <> [].
Proof.
  destruct s as [|a r]; simpl; [discriminate|].
  destruct (Ascii.eqb a sep); [discriminate|].
  destruct (split sep r); discriminate.
Qed.

Lemma ord_range c : 0 <= ord c < 256.
Proof.
  unfold ord. pose proof (nat_ascii_bounded c). lia.
Qed.

Lemma digit_value_range base c d :
  digit_value base c = Some d -> 0 <= d < base.
Proof.
  unfold digit_value.
  destruct ((48 <=? ord c) && (ord c <=? 57)) eqn:E1;
    [|destruct ((97 <=? ord c) && (ord c <=? 122)) eqn:E2;
      [|destruct ((65 <=? ord c) && (ord c <=? 90)) eqn:E3; [|discriminate]]];
    match goal with |- context [?x <? base] => destruct (Z.ltb_spec x base) end;
    intros [= <-]; lia.
Qed.

Lemma digits_value_range base s : forall acc n,
  0 <= acc -> digits_value base acc s = Some n ->
  acc * base ^ len s <= n < (acc + 1) * base ^ len s.
Proof.
  unfold len. induction s as [|c r IH]; intros acc n Hacc; simpl digits_value.
  - intros [= <-]. simpl. lia.
  - destruct (digit_value base c) as [d|] eqn:Ed; [|discriminate].
    apply digit_value_range in Ed. intros H.
    assert (0 <= acc * base) by (apply Z.mul_nonneg_nonneg; lia).
    apply IH in H; [|lia].
    cbn [String.length]. rewrite Nat2Z.inj_succ, Z.pow_succ_r by lia.
    assert (0 <= base ^ Z.of_nat (String.length r)) by (apply Z.pow_nonneg; lia).
    nia.
Qed.

Lemma int_of_str_spec s base :
  spec (fun n => 0 <= n < base ^ len s) (fun e => exn_class e = ValueError)
       (int_of_str s base).
Proof.
  unfold int_of_str. destruct s as [|c r]; [reflexivity|].
  destruct (digits_value base 0 (String c r)) as [n|] eqn:E; [|reflexivity].
  apply digits_value_range in E; [|lia]. unfold spec. lia.
Qed.

End PyFacts.

(** *** Bit masks *)

Module Bits.

Lemma ones_pow2 w : 0 <= w -> Z.ones w = 2 ^ w - 1.
Proof. intros _. rewrite Z.ones_equiv. lia. Qed.

Ltac bitwise :=
  apply Z.bits_inj'; intros i Hi;
  repeat first
    [ rewrite Z.lxor_spec | rewrite Z.land_spec | rewrite Z.lor_spec
    | rewrite Z.ldiff_spec
    | rewrite Z.shiftl_spec by lia | rewrite Z.shiftr_spec by lia
    | rewrite Z.testbit_ones by lia ].

Ltac bool_lia :=
  repeat match goal with
         | |- context [?a <=? ?b] => destruct (Z.leb_spec a b)
         | |- context [?a <? ?b] => destruct (Z.ltb_spec a b)
         end;
  simpl; try reflexivity; try lia;
  rewrite ?andb_false_r, ?andb_true_r, ?orb_false_r, ?orb_true_r,
          ?xorb_false_r, ?xorb_true_r; try reflexivity; try lia.

Lemma mask_shift w p :
  0 <= p <= w ->
  Z.lxor (Z.ones w) (Z.shiftr (Z.ones w) p) = Z.shiftl (Z.ones p) (w - p).
Proof.
  intros H. bitwise. bool_lia.
Qed.

Lemma shifted_ones_pow2 w p :
  0 <= p <= w -> Z.shiftl (Z.ones p) (w - p) = 2 ^ w - 2 ^ (w - p).
Proof.
  intros H. rewrite Z.shiftl_mul_pow2 by lia. rewrite ones_pow2 by lia.
  replace w with (p + (w - p)) at 2 by lia.
  rewrite Z.pow_add_r by lia. ring.
Qed.

Lemma host_bits w p :
  0 <= p <= w ->
  Z.lxor (Z.shiftl (Z.ones p) (w - p)) (Z.ones w) = Z.ones (w - p).
Proof.
  intros H. bitwise. bool_lia.
Qed.

Lemma testbit_high x w i :
  0 <= x < 2 ^ w -> w <= i -> Z.testbit x i = false.
Proof.
  intros Hx Hi. destruct (Z.eq_dec x 0) as [->|Hn].
  - apply Z.testbit_0_l.
  - apply Z.bits_above_log2; [lia|].
    assert (Z.log2 x < w) by (apply Z.log2_lt_pow2; lia). lia.
Qed.

Lemma land_mask w p x :
  0 <= p <= w -> 0 <= x < 2 ^ w ->
  Z.land x (Z.shiftl (Z.ones p) (w - p)) = 2 ^ (w - p) * (x / 2 ^ (w - p)).
Proof.
  intros H Hx.
  rewrite Z.mul_comm, <- Z.shiftl_mul_pow2, <- Z.shiftr_div_pow2 by lia.
  bitwise.
  destruct (Z.ltb_spec (i - (w - p)) 0).
  - rewrite (Z.testbit_neg_r _ (i - (w - p))) by lia. bool_lia.
  - rewrite Z.shiftr_spec by lia. replace (i - (w - p) + (w - p)) with i by lia.
    destruct (Z.ltb_spec i w).
    + destruct (Z.testbit x i); bool_lia.
    + rewrite (testbit_high x w i) by lia. reflexivity.
Qed.

Lemma lor_host w p q :
  0 <= p <= w ->
  Z.lor (2 ^ (w - p) * q) (Z.ones (w - p)) = 2 ^ (w - p) * q + 2 ^ (w - p) - 1.
Proof.
  intros H.
  pose proof (Z.add_lor_land (2 ^ (w - p) * q) (Z.ones (w - p))) as E.
  rewrite Z.land_ones in E by lia.
  rewrite (Z.mul_comm (2 ^ (w - p)) q) in E at 2.
  rewrite Z.mod_mul in E by (apply Z.pow_nonzero; lia).
  rewrite ones_pow2 in * by lia. lia.
Qed.

End Bits.

(** *** The version-independent helpers *)

Module BaseFacts.
Import Py Notions PyFacts ipaddress.

Lemma lxor_range w a b :
  0 <= w -> 0 <= a < 2 ^ w -> 0 <= b < 2 ^ w -> 0 <= Z.lxor a b < 2 ^ w.
Proof.
  intros Hw Ha Hb.
  assert (Hn : 0 <= Z.lxor a b) by (apply Z.lxor_nonneg; lia).
  split; [exact Hn|].
  destruct (Z.eq_dec (Z.lxor a b) 0) as [->|Hz]; [apply Z.pow_pos_nonneg; lia|].
  assert (w <> 0).
  { intros ->. change (2 ^ 0) with 1 in *.
    assert (a = 0) by lia. assert (b = 0) by lia. subst. apply Hz. reflexivity. }
  apply Z.log2_lt_pow2; [lia|].
  pose proof (Z.log2_lxor a b ltac:(lia) ltac:(lia)) as Hl.
  assert (Z.log2 a < w).
  { destruct (Z.eq_dec a 0) as [->|]; [simpl|apply Z.log2_lt_pow2]; lia. }
  assert (Z.log2 b < w).
  { destruct (Z.eq_dec b 0) as [->|]; [simpl|apply Z.log2_lt_pow2]; lia. }
  lia.
Qed.

#[export] Instance V4Laws : VersionLaws _BaseV4.
Proof. split; [cbv; discriminate | reflexivity]. Qed.

#[export] Instance V6Laws : VersionLaws _BaseV6.
Proof. split; [cbv; discriminate | reflexivity]. Qed.

Section Generic.
Context {V : Version} {L : VersionLaws V}.

Lemma ALL_ONES_pow2 : _ALL_ONES = 2 ^ _max_prefixlen - 1.
Proof. rewrite ALL_ONES_ones. apply Bits.ones_pow2, max_prefixlen_nonneg. Qed.

Lemma _check_int_address_ok n :
  0 <= n <= _ALL_ONES -> _check_int_address n = Ok tt.
Proof.
  intros H. unfold _check_int_address.
  destruct (Z.ltb_spec n 0); [lia|].
  destruct (Z.ltb_spec _ALL_ONES n); [lia|]. reflexivity.
Qed.

Lemma _check_int_address_spec n :
  spec (fun _ => 0 <= n <= _ALL_ONES)
       (fun e => exn_class e = AddressValueError) (_check_int_address n).
Proof.
  unfold _check_int_address.
  destruct (Z.ltb_spec n 0); [reflexivity|].
  destruct (Z.ltb_spec _ALL_ONES n); [reflexivity|]. simpl. lia.
Qed.

(** The netmask of a prefix length. *)
Lemma _ip_int_from_prefix_pow2 p :
  0 <= p <= _max_prefixlen ->
  _ip_int_from_prefix p = 2 ^ _max_prefixlen - 2 ^ (_max_prefixlen - p).
Proof.
  intros H. unfold _ip_int_from_prefix. rewrite ALL_ONES_ones.
  rewrite Bits.mask_shift by exact H. apply Bits.shifted_ones_pow2, H.
Qed.

Lemma _ip_int_from_prefix_range p :
  0 <= p <= _max_prefixlen -> 0 <= _ip_int_from_prefix p <= _ALL_ONES.
Proof.
  intros H. rewrite _ip_int_from_prefix_pow2, ALL_ONES_pow2 by exact H.
  assert (0 < 2 ^ (_max_prefixlen - p)) by (apply Z.pow_pos_nonneg; lia).
  assert (2 ^ (_max_prefixlen - p) <= 2 ^ _max_prefixlen)
    by (apply Z.pow_le_mono_r; lia).
  lia.
Qed.

Lemma _report_invalid_netmask_class {A} m e :
  _report_invalid_netmask (A:=A) m = Raise e -> exn_class e = NetmaskValueError.
Proof. unfold _report_invalid_netmask, raise. intros [= <-]. reflexivity. Qed.

Lemma _prefix_from_prefix_string_spec s :
  spec (fun p => 0 <= p <= _max_prefixlen)
       (fun e => exn_class e = NetmaskValueError)
       (_prefix_from_prefix_string s).
Proof.
  unfold _prefix_from_prefix_string.
  destruct (negb (isascii s && isdigit s)); [reflexivity|].
  eapply spec_bind.
  - eapply spec_try1; [apply int_of_str_spec|].
    intros [c m] Hc. simpl in Hc. subst c. reflexivity.
  - intros p _ _. simpl.
    destruct (Z.leb_spec 0 p); destruct (Z.leb_spec p _max_prefixlen);
      simpl; try reflexivity. lia.
Qed.

Lemma bit_length_nonneg n : 0 <= bit_length n.
Proof.
  unfold bit_length. destruct (n =? 0); [lia|].
  pose proof (Z.log2_nonneg (Z.abs n)). lia.
Qed.

Lemma _count_righthand_zero_bits_range number bits :
  0 <= bits -> 0 <= _count_righthand_zero_bits number bits <= bits.
Proof.
  intros H. unfold _count_righthand_zero_bits.
  destruct (number =? 0); [lia|].
  pose proof (bit_length_nonneg (Z.land (Z.lnot number) (number - 1))). lia.
Qed.

Lemma _split_addr_prefix_spec s :
  spec (fun _ => True) (fun e => exn_class e = AddressValueError)
       (_split_addr_prefix s).
Proof.
  unfold _split_addr_prefix, _split_optional_netmask.
  destruct (2 <? Z.of_nat (List.length (split "/" s))); [reflexivity|].
  simpl. pose proof (split_not_nil "/" s).
  destruct (split "/" s) as [|a [|m r]]; simpl; auto. congruence.
Qed.

End Generic.

End BaseFacts.

(** *** IPv4 parsing and printing *)

Module V4Facts.
Import Py Notions PyFacts ipaddress BaseFacts.

Lemma _parse_octet_spec s :
  spec (fun n => 0 <= n <= 255) (fun e => exn_class e = ValueError)
       (V4._parse_octet s).
Proof.
  unfold V4._parse_octet.
  destruct (String.eqb s ""); [reflexivity|].
  destruct (negb (isascii s && isdigit s)); [reflexivity|].
  destruct (3 <? len s); [reflexivity|].
  match goal with |- context [if ?c then _ else _] => destruct c end; [reflexivity|].
  eapply spec_bind; [apply int_of_str_spec|].
  intros n _ Hn. simpl in Hn. destruct (Z.ltb_spec 255 n); [reflexivity|].
  simpl. lia.
Qed.

Lemma from_bytes_4 bs :
  List.length bs = 4%nat -> Forall (fun n => 0 <= n <= 255) bs ->
  0 <= from_bytes bs <= 2 ^ 32 - 1.
Proof.
  destruct bs as [|a [|b [|c [|d [|? ?]]]]]; try discriminate. intros _ H.
  inversion_clear H as [|? ? Ha H1]. inversion_clear H1 as [|? ? Hb H2].
  inversion_clear H2 as [|? ? Hc H3]. inversion_clear H3 as [|? ? Hd _].
  unfold from_bytes. simpl. change (2 ^ 32) with 4294967296. lia.
Qed.

Lemma v4_ip_int_from_string_spec s :
  spec (fun n => 0 <= n <= 2 ^ 32 - 1) (fun e => exn_class e = AddressValueError)
       (V4._ip_int_from_string s).
Proof.
  unfold V4._ip_int_from_string.
  destruct (String.eqb s ""); [reflexivity|].
  destruct (Z.eqb_spec (Z.of_nat (List.length (split "." s))) 4) as [E|E];
    [|reflexivity].
  simpl negb. cbv iota.
  eapply spec_try1.
  - eapply spec_bind; [apply spec_mapM, _parse_octet_spec|].
    intros bs _ [Hl Hbs]. apply spec_ok.
    apply from_bytes_4; [lia | exact Hbs].
  - intros [c m] Hc. simpl in Hc. subst c. reflexivity.
Qed.

Lemma IPv4Address_of_str_spec s :
  spec (fun a => 0 <= v4_ip a <= _ALL_ONES (Version:=_BaseV4))
       (fun e => exn_class e = AddressValueError) (IPv4Address_of_str s).
Proof.
  unfold IPv4Address_of_str. destruct (contains "/" s); [reflexivity|].
  eapply spec_bind; [apply v4_ip_int_from_string_spec|].
  intros n _ Hn. exact Hn.
Qed.

Lemma IPv4Address_of_int_ok n :
  0 <= n <= _ALL_ONES (Version:=_BaseV4) -> IPv4Address_of_int n = Ok {| v4_ip := n |}.
Proof.
  intros H. unfold IPv4Address_of_int.
  rewrite (_check_int_address_ok (V:=_BaseV4)) by exact H. reflexivity.
Qed.

Lemma IPv4Address_of_int_spec n :
  spec (fun a => a = {| v4_ip := n |} /\ 0 <= n <= _ALL_ONES (Version:=_BaseV4))
       (fun e => exn_class e = AddressValueError) (IPv4Address_of_int n).
Proof.
  unfold IPv4Address_of_int.
  eapply spec_bind; [apply (_check_int_address_spec (V:=_BaseV4))|].
  intros [] _ H. simpl. auto.
Qed.

Lemma IPv4Address_of_int_spec_eq n a :
  IPv4Address_of_int n = Ok a -> a = {| v4_ip := n |}.
Proof.
  intros H. exact (proj1 (spec_returns _ _ _ _ (IPv4Address_of_int_spec n) H)).
Qed.

Lemma IPv4Address_str_ok a :
  0 <= v4_ip a <= _ALL_ONES (Version:=_BaseV4) -> exists s, IPv4Address_str a = Ok s.
Proof.
  intros H. unfold IPv4Address_str, V4._string_from_ip_int, to_bytes.
  change (_ALL_ONES (Version:=_BaseV4)) with 4294967295 in H.
  destruct (Z.ltb_spec (v4_ip a) 0); [lia|].
  change (256 ^ Z.of_nat 4) with 4294967296.
  destruct (Z.leb_spec 4294967296 (v4_ip a)); [lia|].
  eexists. reflexivity.
Qed.

Lemma _prefix_from_ip_int_spec x :
  0 <= x <= _ALL_ONES (Version:=_BaseV4) ->
  spec (fun p => 0 <= p <= 32) (fun e => exn_class e = ValueError)
       (_prefix_from_ip_int (V:=_BaseV4) x).
Proof.
  intros H. unfold _prefix_from_ip_int. cbv zeta.
  pose proof (_count_righthand_zero_bits_range x 32 ltac:(lia)) as Hz.
  change (_max_prefixlen (Version:=_BaseV4)) with 32.
  match goal with |- context [if ?c then _ else _] => destruct c end.
  - unfold to_bytes. change (_ALL_ONES (Version:=_BaseV4)) with 4294967295 in H.
    destruct (Z.ltb_spec x 0); [lia|].
    change (256 ^ Z.of_nat (Z.to_nat (32 / 8))) with 4294967296.
    destruct (Z.leb_spec 4294967296 x); [lia|]. reflexivity.
  - unfold spec. lia.
Qed.

Lemma _prefix_from_ip_string_spec s :
  spec (fun p => 0 <= p <= 32) (fun e => exn_class e = NetmaskValueError)
       (_prefix_from_ip_string (V:=_BaseV4) V4._ip_int_from_string s).
Proof.
  unfold _prefix_from_ip_string.
  eapply spec_bind.
  - eapply spec_try1; [apply v4_ip_int_from_string_spec|].
    intros [c m] Hc. simpl in Hc. subst c. reflexivity.
  - intros x _ Hx. simpl in Hx.
    eapply spec_try1; [apply _prefix_from_ip_int_spec; exact Hx|].
    intros [c m] Hc. simpl in Hc. subst c.
    change (isinstance {| exn_class := ValueError; exn_str := m |} ValueError) with true.
    cbv iota.
    eapply spec_try1.
    + apply _prefix_from_ip_int_spec.
      change (_ALL_ONES (Version:=_BaseV4)) with (2 ^ 32 - 1) in *.
      pose proof (lxor_range 32 x (2 ^ 32 - 1)). lia.
    + intros [c' m'] Hc'. simpl in Hc'. subst c'. reflexivity.
Qed.

Lemma _make_netmask_v4_spec m :
  spec (fun r => 0 <= snd r <= 32 /\
                 fst r = {| v4_ip := 2 ^ 32 - 2 ^ (32 - snd r) |})
       (fun e => exn_class e = NetmaskValueError)
       (_make_netmask_v4 m).
Proof.
  unfold _make_netmask_v4.
  eapply spec_bind with (Q1 := fun p => 0 <= p <= 32).
  - destruct m as [n|s].
    + change (_max_prefixlen (Version:=_BaseV4)) with 32.
      destruct (Z.leb_spec 0 n); destruct (Z.leb_spec n 32); simpl;
        try reflexivity. lia.
    + eapply spec_try1; [apply (_prefix_from_prefix_string_spec (V:=_BaseV4))|].
      intros [c msg] Hc. simpl in Hc. subst c.
      change (isinstance {| exn_class := NetmaskValueError; exn_str := msg |}
                NetmaskValueError) with true. cbv iota.
      apply _prefix_from_ip_string_spec.
  - intros p _ Hp.
    rewrite IPv4Address_of_int_ok
      by (apply (_ip_int_from_prefix_range (V:=_BaseV4)); exact Hp).
    cbn [bind spec fst snd]. split; [exact Hp|].
    f_equal. apply (_ip_int_from_prefix_pow2 (V:=_BaseV4)). exact Hp.
Qed.

End V4Facts.

(** *** The text of an IPv4 address *)

Module V4Text.
Import Py Notions PyFacts ipaddress BaseFacts V4Facts.

Lemma split_no_sep sep x : contains sep x = false -> split sep x = [x].
Proof.
  induction x as [|c r IH]; intros H; simpl in *; [reflexivity|].
  apply orb_false_iff in H as [Hc Hr]. rewrite Hc, (IH Hr). reflexivity.
Qed.

Lemma split_app_sep sep x rest :
  contains sep x = false ->
  split sep (x ++ String sep rest) = x :: split sep rest.
Proof.
  induction x as [|c r IH]; intros H; simpl in *.
  - rewrite Ascii.eqb_refl. reflexivity.
  - apply orb_false_iff in H as [Hc Hr]. rewrite Hc, (IH Hr). reflexivity.
Qed.

Lemma split_join sep l :
  l <> [] -> Forall (fun x => contains sep x = false) l ->
  split sep (join (String sep "") l) = l.
Proof.
  intros Hl H. induction H as [|x r Hx Hr IH]; [congruence|].
  destruct r as [|y r'].
  - simpl. apply split_no_sep, Hx.
  - change (join (String sep "") (x :: y :: r'))
      with (x ++ String sep (join (String sep "") (y :: r'))).
    rewrite (split_app_sep sep x _ Hx), IH by discriminate. reflexivity.
Qed.

Lemma contains_app c x y : contains c (x ++ y) = contains c x || contains c y.
Proof.
  induction x as [|a r IH]; simpl; [reflexivity|].
  rewrite IH. apply orb_assoc.
Qed.

Lemma contains_join c sep l :
  contains c sep = false -> Forall (fun x => contains c x = false) l ->
  contains c (join sep l) = false.
Proof.
  intros Hs H. induction H as [|x r Hx Hr IH]; [reflexivity|].
  destruct r as [|y r']; [exact Hx|].
  change (join sep (x :: y :: r')) with (x ++ sep ++ join sep (y :: r')).
  rewrite !contains_app, Hx, Hs, IH. reflexivity.
Qed.

Lemma octets_text_ok : forallb octet_text_ok (map Z.of_nat (seq 0 256)) = true.
Proof. vm_compute. reflexivity. Qed.

Lemma octet_text b :
  0 <= b <= 255 ->
  contains "." (str_int b) = false /\ contains "/" (str_int b) = false /\
  str_int b <> "" /\ V4._parse_octet (str_int b) = Ok b.
Proof.
  intros H.
  assert (Hin : In b (map Z.of_nat (seq 0 256))).
  { apply in_map_iff. exists (Z.to_nat b). split; [lia|]. apply in_seq. lia. }
  pose proof (proj1 (forallb_forall _ _) octets_text_ok b Hin) as Hb.
  unfold octet_text_ok in Hb. cbv zeta in Hb.
  apply andb_true_iff in Hb as [Hb H4]. apply andb_true_iff in Hb as [Hb H3].
  apply andb_true_iff in Hb as [H1 H2].
  apply negb_true_iff in H1, H2, H3.
  repeat split; try assumption.
  - intros E. rewrite E in H3. discriminate.
  - destruct (V4._parse_octet (str_int b)) as [b'|]; [|discriminate].
    apply Z.eqb_eq in H4. congruence.
Qed.

Lemma mapM_parse_octets bs :
  Forall (fun b => 0 <= b <= 255) bs ->
  mapM V4._parse_octet (map str_int bs) = Ok bs.
Proof.
  induction 1 as [|b r Hb _ IH]; [reflexivity|].
  cbn [map mapM]. destruct (octet_text b Hb) as (_ & _ & _ & ->).
  cbn [bind]. rewrite IH. reflexivity.
Qed.

Lemma bytes_of_address n :
  0 <= n < 2 ^ 32 ->
  exists b3 b2 b1 b0,
    to_bytes n 4 = Ok [b3; b2; b1; b0] /\
    Forall (fun b => 0 <= b <= 255) [b3; b2; b1; b0] /\
    from_bytes [b3; b2; b1; b0] = n.
Proof.
  intros H. unfold to_bytes. change (2 ^ 32) with 4294967296 in H.
  destruct (Z.ltb_spec n 0); [lia|].
  change (256 ^ Z.of_nat 4) with 4294967296.
  destruct (Z.leb_spec 4294967296 n); [lia|].
  cbn [seq rev app map].
  do 4 eexists. split; [reflexivity|].
  change 255 with (Z.ones 8).
  rewrite !Z.land_ones, !Z.shiftr_div_pow2 by lia.
  change (8 * Z.of_nat 3) with 24. change (8 * Z.of_nat 2) with 16.
  change (8 * Z.of_nat 1) with 8. change (8 * Z.of_nat 0) with 0.
  change (2 ^ 24) with 16777216. change (2 ^ 16) with 65536.
  change (2 ^ 8) with 256. change (2 ^ 0) with 1. change (Z.ones 8) with 255.
  split.
  - repeat constructor;
      match goal with |- context [?x mod 256] =>
        pose proof (Z.mod_pos_bound x 256 ltac:(lia)) end; lia.
  - unfold from_bytes. cbn [fold_left].
    Z.to_euclidean_division_equations. lia.
Qed.

(** The text of an IPv4 address reads back as the address. *)
Theorem IPv4Address_text_roundtrip n :
  0 <= n < 2 ^ 32 ->
  exists t, IPv4Address_str {| v4_ip := n |} = Ok t /\
            IPv4Address_of_str t = Ok {| v4_ip := n |}.
Proof.
  intros H. destruct (bytes_of_address n H) as (b3 & b2 & b1 & b0 & Eb & Hb & Ef).
  unfold IPv4Address_str, V4._string_from_ip_int. cbn [v4_ip]. rewrite Eb.
  cbn [bind]. eexists. split; [reflexivity|].
  set (bs := [b3; b2; b1; b0]) in *.
  assert (Hdot : Forall (fun x => contains "." x = false) (map str_int bs)).
  { apply Forall_map. eapply Forall_impl; [|exact Hb].
    intros b Hb'. apply (octet_text b Hb'). }
  assert (Hslash : Forall (fun x => contains "/" x = false) (map str_int bs)).
  { apply Forall_map. eapply Forall_impl; [|exact Hb].
    intros b Hb'. apply (octet_text b Hb'). }
  unfold IPv4Address_of_str.
  rewrite (contains_join "/" "." _ eq_refl Hslash).
  unfold V4._ip_int_from_string.
  assert (Hne : String.eqb (join "." (map str_int bs)) "" = false).
  { apply String.eqb_neq. intros E.
    inversion Hb as [|? ? Hb3 _]. subst.
    destruct (octet_text b3 Hb3) as (_ & _ & Hn & _).
    unfold bs in E. cbn [map join String.concat] in E.
    destruct (str_int b3); [congruence | discriminate]. }
  rewrite Hne.
  rewrite (split_join "." (map str_int bs)) by (discriminate || exact Hdot).
  replace (Z.of_nat (List.length (map str_int bs)) =? 4) with true by reflexivity.
  cbn [negb]. rewrite (mapM_parse_octets bs Hb). cbn [bind try_except]. rewrite Ef.
  reflexivity.
Qed.

(** So the text that [str] gives for an address reads back as it. *)
Lemma IPv4Address_reads_back n t :
  0 <= n < 2 ^ 32 ->
  IPv4Address_str {| v4_ip := n |} = Ok t ->
  IPv4Address_of_str t = Ok {| v4_ip := n |}.
Proof.
  intros H Et. destruct (IPv4Address_text_roundtrip n H) as (t' & Et' & Er).
  congruence.
Qed.

End V4Text.

(** *** IPv6 parsing *)

Module V6Facts.
Import Py Notions PyFacts ipaddress BaseFacts V4Facts.

Lemma _parse_hextet_spec s :
  spec (fun n => 0 <= n < 2 ^ 16) (fun e => exn_class e = ValueError)
       (V6._parse_hextet s).
Proof.
  unfold V6._parse_hextet.
  destruct (negb (all_chars V6.in_HEX_DIGITS s)); [reflexivity|].
  destruct (Z.ltb_spec 4 (len s)) as [|Hl]; [reflexivity|].
  eapply spec_weaken; [apply int_of_str_spec | | auto].
  intros n Hn. cbv beta in Hn.
  assert (16 ^ len s <= 16 ^ 4).
  { apply Z.pow_le_mono_r; [lia|]. exact Hl. }
  change (16 ^ 4) with (2 ^ 16) in *. lia.
Qed.

Lemma range_length a b : List.length (V6.range a b) = Z.to_nat (b - a).
Proof. unfold V6.range. rewrite length_map, length_seq. reflexivity. Qed.

Lemma range_nth_error a b k x :
  nth_error (V6.range a b) k = Some x -> x = a + Z.of_nat k.
Proof.
  unfold V6.range. intros H.
  rewrite nth_error_map in H.
  destruct (nth_error (seq 0 (Z.to_nat (b - a))) k) as [j|] eqn:E; [|discriminate].
  injection H as <-.
  assert (Hk : (k < List.length (seq 0 (Z.to_nat (b - a))))%nat).
  { apply nth_error_Some. congruence. }
  rewrite length_seq in Hk.
  rewrite nth_error_nth' with (d := O) in E by (rewrite length_seq; exact Hk).
  rewrite seq_nth in E by exact Hk. injection E as <-. lia.
Qed.

(** The loop that looks for the empty inner part. *)
Lemma skip_index_spec ip_str parts n :
  spec (fun o => forall i, o = Some i -> 1 <= i < 1 + Z.of_nat (Z.to_nat (n - 1)))
       (fun e => exn_class e = AddressValueError)
       (fold_left (V6.skip_index_step ip_str parts) (V6.range 1 n) (Ok None)).
Proof.
  rewrite <- range_length.
  apply spec_fold_left
    with (I := fun k o => forall i, o = Some i -> 1 <= i < 1 + Z.of_nat k).
  - discriminate.
  - reflexivity.
  - intros k o x Ho Hx. apply range_nth_error in Hx. subst x.
    unfold V6.skip_index_step. cbn [bind].
    destruct (String.eqb _ _).
    + destruct o; [reflexivity|]. unfold spec. intros i Hi.
      assert (i = 1 + Z.of_nat k) by congruence. lia.
    + unfold spec. intros i Hi. specialize (Ho i Hi). lia.
Qed.

Lemma lor_shift_range v h :
  0 <= v -> 0 <= h < 2 ^ 16 ->
  0 <= Z.lor (Z.shiftl v 16) h < (v + 1) * 2 ^ 16.
Proof.
  intros Hv Hh. rewrite Z.shiftl_mul_pow2 by lia.
  pose proof (Z.add_lor_land (v * 2 ^ 16) h) as E.
  assert (0 <= v * 2 ^ 16) by nia.
  assert (0 <= Z.land (v * 2 ^ 16) h) by (apply Z.land_nonneg; lia).
  assert (0 <= Z.lor (v * 2 ^ 16) h) by (apply Z.lor_nonneg; lia).
  lia.
Qed.

(** The loops that read the hextets: each round makes room for sixteen
    bits more. *)
Lemma hextet_fold_spec parts l v0 B :
  0 <= v0 < B ->
  spec (fun v => 0 <= v < B * 2 ^ (16 * Z.of_nat (List.length l)))
       (fun e => exn_class e = ValueError)
       (fold_left (V6.hextet_step parts) l (Ok v0)).
Proof.
  intros H0.
  apply spec_fold_left with (I := fun k v => 0 <= v < B * 2 ^ (16 * Z.of_nat k)).
  - change (16 * Z.of_nat 0) with 0. rewrite Z.pow_0_r. lia.
  - reflexivity.
  - intros k v x Hv _. unfold V6.hextet_step. cbn [bind].
    eapply spec_bind; [apply _parse_hextet_spec|].
    intros h _ Hh. cbv beta in Hh. apply spec_ok.
    pose proof (lor_shift_range v h ltac:(lia) Hh) as Hr.
    replace (16 * Z.of_nat (S k)) with (16 * Z.of_nat k + 16) by lia.
    rewrite Z.pow_add_r by lia.
    assert (0 < 2 ^ 16) by (apply Z.pow_pos_nonneg; lia).
    nia.
Qed.

Lemma v6_ip_int_from_string_spec s :
  spec (fun n => 0 <= n <= _ALL_ONES (Version:=_BaseV6))
       (fun e => exn_class e = AddressValueError)
       (V6._ip_int_from_string s).
Proof.
  unfold V6._ip_int_from_string.
  destruct (String.eqb s ""); [reflexivity|].
  cbv zeta.
  destruct (Z.ltb_spec (Z.of_nat (List.length (split ":" s))) 3) as [|Hmin];
    [reflexivity|].
  eapply spec_bind
    with (Q1 := fun parts => 3 <= Z.of_nat (List.length parts)).
  - destruct (contains "." _).
    + eapply spec_bind with (Q1 := fun _ => True).
      * eapply spec_try1.
        -- eapply spec_bind; [apply IPv4Address_of_str_spec|].
           intros a _ _. exact I.
        -- intros [c m] Hc. simpl in Hc. subst c. reflexivity.
      * intros v _ _. apply spec_ok.
        rewrite length_app. simpl List.length.
        destruct (split ":" s) as [|p0 ps] eqn:Es; [simpl in Hmin; lia|].
        rewrite removelast_firstn_len, length_firstn. simpl List.length in *. lia.
    + apply spec_ok. exact Hmin.
  - intros parts _ Hparts. cbv beta in Hparts.
    set (nparts := Z.of_nat (List.length parts)) in *.
    destruct (Z.ltb_spec (V6._HEXTET_COUNT + 1) nparts) as [|Hmax]; [reflexivity|].
    eapply spec_bind; [apply skip_index_spec|].
    intros skip _ Hskip. cbv beta in Hskip.
    eapply spec_bind
      with (Q1 := fun t => 0 <= fst (fst t) /\ 0 <= snd (fst t) /\ 0 <= snd t /\
                           fst (fst t) + snd (fst t) + snd t = 8).
    + destruct skip as [si|].
      * specialize (Hskip si eq_refl).
        eapply spec_bind with (Q1 := fun hi => 0 <= hi <= si).
        { destruct (String.eqb _ _); [|apply spec_ok; lia].
          destruct (Z.eqb_spec (si - 1) 0); simpl; [lia | reflexivity]. }
        intros hi _ Hhi.
        eapply spec_bind with (Q1 := fun lo => 0 <= lo <= nparts - si - 1).
        { destruct (String.eqb _ _); [|apply spec_ok; lia].
          destruct (Z.eqb_spec (nparts - si - 1 - 1) 0); simpl; [lia | reflexivity]. }
        intros lo _ Hlo. cbv beta in Hhi, Hlo.
        change V6._HEXTET_COUNT with 8.
        destruct (Z.ltb_spec (8 - (hi + lo)) 1); [reflexivity|].
        apply spec_ok. cbn [fst snd]. lia.
      * change V6._HEXTET_COUNT with 8 in *.
        destruct (Z.eqb_spec nparts 8); [|reflexivity]. simpl negb. cbv iota.
        destruct (String.eqb _ _); [reflexivity|].
        destruct (String.eqb _ _); [reflexivity|].
        apply spec_ok. cbn [fst snd]. lia.
    + intros [[hi lo] skipped] _ (Hhi & Hlo & Hsk & Hsum). cbn [fst snd] in *.
      eapply spec_try1.
      * eapply spec_bind; [apply (hextet_fold_spec parts _ 0 1); lia|].
        intros v _ Hv. cbv beta in Hv. rewrite range_length in Hv.
        eapply spec_weaken;
          [apply (hextet_fold_spec parts _ _ (2 ^ (16 * (hi + skipped)))) | |
           intros e He; exact He].
        -- rewrite Z.shiftl_mul_pow2 by lia.
           replace (16 * (hi + skipped)) with (16 * hi + 16 * skipped) by lia.
           rewrite Z.pow_add_r by lia.
           replace (16 * Z.of_nat (Z.to_nat (hi - 0))) with (16 * hi) in Hv by lia.
           assert (0 < 2 ^ (16 * skipped)) by (apply Z.pow_pos_nonneg; lia).
           nia.
        -- intros n Hn. cbv beta in Hn. rewrite range_length in Hn.
           rewrite <- Z.pow_add_r in Hn by lia.
           replace (16 * (hi + skipped) + 16 * Z.of_nat (Z.to_nat (0 - - lo)))
             with 128 in Hn by lia.
           change (_ALL_ONES (Version:=_BaseV6)) with (2 ^ 128 - 1). lia.
      * intros [c m] Hc. simpl in Hc. subst c. reflexivity.
Qed.

End V6Facts.

(** *** Digits, and the text of an IPv6 address *)

Module DigitFacts.
Import Py Notions PyFacts.

Lemma digits_rev_length base fuel : forall n k,
  2 <= base -> 0 <= n < base ^ k -> 1 <= k ->
  (List.length (digits_rev base fuel n) <= Z.to_nat k)%nat.
Proof.
  induction fuel as [|f IH]; intros n k Hb Hn Hk; simpl; [lia|].
  destruct (Z.eqb_spec (n / base) 0) as [E|E]; simpl; [lia|].
  assert (Hk2 : 2 <= k).
  { destruct (Z.eq_dec k 1) as [->|]; [|lia].
    rewrite Z.pow_1_r in Hn. rewrite Z.div_small in E by lia. congruence. }
  specialize (IH (n / base) (k - 1) Hb).
  assert (0 <= n / base < base ^ (k - 1)).
  { split; [apply Z.div_pos; lia|].
    apply Z.div_lt_upper_bound; [lia|].
    rewrite <- Z.pow_succ_r by lia. replace (Z.succ (k - 1)) with k by lia. lia. }
  specialize (IH ltac:(assumption) ltac:(lia)). lia.
Qed.

Lemma digits_rev_range base fuel : forall n,
  2 <= base -> 0 <= n ->
  Forall (fun d => 0 <= d < base) (digits_rev base fuel n).
Proof.
  induction fuel as [|f IH]; intros n Hb Hn; simpl; constructor.
  - apply Z.mod_pos_bound. lia.
  - destruct (n / base =? 0); [constructor|].
    apply IH; [exact Hb | apply Z.div_pos; lia].
Qed.

Lemma digit_char_hex d : 0 <= d < 16 -> is_digit_of 16 (digit_char d) = true.
Proof.
  intros H.
  assert (C : d = 0 \/ d = 1 \/ d = 2 \/ d = 3 \/ d = 4 \/ d = 5 \/ d = 6 \/ d = 7 \/
              d = 8 \/ d = 9 \/ d = 10 \/ d = 11 \/ d = 12 \/ d = 13 \/ d = 14 \/
              d = 15) by lia.
  repeat (destruct C as [->|C]; [reflexivity|]). subst d. reflexivity.
Qed.

Lemma all_chars_app p s t :
  all_chars p (s ++ t) = all_chars p s && all_chars p t.
Proof.
  induction s as [|c r IH]; simpl; [reflexivity|].
  rewrite IH. apply andb_assoc.
Qed.

Lemma length_app_string s t :
  String.length (s ++ t) = (String.length s + String.length t)%nat.
Proof. induction s as [|c r IH]; simpl; [reflexivity | rewrite IH; reflexivity]. Qed.

Lemma all_chars_of_list p (f : Z -> ascii) l :
  Forall (fun d => p (f d) = true) l ->
  all_chars p (string_of_list_ascii (map f l)) = true.
Proof.
  induction 1 as [|d r Hd _ IH]; simpl; [reflexivity|].
  rewrite Hd, IH. reflexivity.
Qed.

Lemma length_of_list (l : list ascii) :
  String.length (string_of_list_ascii l) = List.length l.
Proof. induction l as [|c r IH]; simpl; [reflexivity | rewrite IH; reflexivity]. Qed.

Lemma all_chars_zeros p k : p "0"%char = true -> all_chars p (zeros k) = true.
Proof. intros H. induction k as [|k IH]; simpl; [reflexivity|]. rewrite H, IH. reflexivity. Qed.

Lemma length_zeros k : String.length (zeros k) = k.
Proof. induction k as [|k IH]; simpl; [reflexivity | rewrite IH; reflexivity]. Qed.

Lemma all_chars_substring p s : forall i m,
  all_chars p s = true -> all_chars p (substring i m s) = true.
Proof.
  induction s as [|c r IH]; intros i m H; simpl in *.
  - destruct i, m; reflexivity.
  - apply andb_true_iff in H as [Hc Hr].
    destruct i as [|i].
    + destruct m as [|m]; simpl; [reflexivity|]. rewrite Hc. apply (IH O m Hr).
    + apply IH, Hr.
Qed.

Lemma length_substring s : forall i m,
  (i + m <= String.length s)%nat -> String.length (substring i m s) = m.
Proof.
  induction s as [|c r IH]; intros i m H; simpl in *.
  - destruct i, m; simpl in *; try reflexivity; lia.
  - destruct i as [|i].
    + destruct m as [|m]; simpl; [reflexivity|]. rewrite (IH O m); [reflexivity|lia].
    + apply IH. lia.
Qed.

Lemma digits_value_total base s : forall acc,
  all_chars (is_digit_of base) s = true ->
  exists n, digits_value base acc s = Some n.
Proof.
  induction s as [|c r IH]; intros acc H; simpl in *.
  - eexists. reflexivity.
  - apply andb_true_iff in H as [Hc Hr]. unfold is_digit_of in Hc.
    destruct (digit_value base c) as [d|]; [|discriminate].
    apply IH, Hr.
Qed.

(** ['%032x' % n] is thirty-two hexadecimal digits when [n] has 128 bits. *)
Lemma pct_0x_32 n :
  0 <= n < 2 ^ 128 ->
  String.length (pct_0x 32 n) = 32%nat /\
  all_chars (is_digit_of 16) (pct_0x 32 n) = true.
Proof.
  intros H. unfold pct_0x. destruct (Z.ltb_spec n 0); [lia|].
  unfold digits_str, digits.
  set (ds := digits_rev 16 (S (Z.to_nat (Z.log2 n))) n).
  assert (Hl : (List.length ds <= 32)%nat).
  { apply (digits_rev_length 16 _ n 32); [lia | | lia].
    change (16 ^ 32) with (2 ^ 128). exact H. }
  assert (Hr : Forall (fun d => 0 <= d < 16) ds)
    by (apply digits_rev_range; lia).
  set (d := string_of_list_ascii (map digit_char (rev ds))).
  assert (Hd : String.length d = List.length ds).
  { unfold d. rewrite length_of_list, length_map, length_rev. reflexivity. }
  split.
  - rewrite length_app_string, length_zeros. unfold len. rewrite Hd. lia.
  - rewrite all_chars_app, all_chars_zeros by reflexivity.
    unfold d. apply all_chars_of_list.
    apply Forall_rev. eapply Forall_impl; [|exact Hr].
    intros x Hx. apply digit_char_hex, Hx.
Qed.

Lemma mapM_ok {A B} (f : A -> result B) l :
  (forall x, In x l -> exists y, f x = Ok y) -> exists ys, mapM f l = Ok ys.
Proof.
  induction l as [|x r IH]; intros H; simpl.
  - eexists. reflexivity.
  - destruct (H x (or_introl eq_refl)) as [y ->].
    destruct IH as [ys ->]; [intros z Hz; apply H; right; exact Hz|].
    eexists. reflexivity.
Qed.

End DigitFacts.

Module V6Text.
Import Py Notions PyFacts ipaddress BaseFacts V6Facts DigitFacts.

Lemma _string_from_ip_int_ok n :
  0 <= n <= _ALL_ONES (Version:=_BaseV6) ->
  exists s, V6._string_from_ip_int n = Ok s.
Proof.
  intros H. unfold V6._string_from_ip_int.
  destruct (Z.ltb_spec (_ALL_ONES (Version:=_BaseV6)) n); [lia|].
  change (_ALL_ONES (Version:=_BaseV6)) with (2 ^ 128 - 1) in H.
  destruct (pct_0x_32 n ltac:(lia)) as [Hlen Hall].
  cbv zeta.
  destruct (mapM_ok
              (fun x => h <- int_of_str (slice (pct_0x 32 n) x (x + 4)) 16 ;;
                        Ok (pct_x h))
              (map (fun k => 4 * k) (V6.range 0 8))) as [hs ->].
  - intros x Hx.
    assert (Hr : 0 <= x <= 28).
    { change (map (fun k => 4 * k) (V6.range 0 8))
        with [0; 4; 8; 12; 16; 20; 24; 28] in Hx.
      simpl in Hx. lia. }
    unfold slice, int_of_str.
    replace (Z.to_nat (x + 4 - x)) with 4%nat by lia.
    pose proof (length_substring (pct_0x 32 n) (Z.to_nat x) 4 ltac:(lia)) as Hs.
    pose proof (all_chars_substring (is_digit_of 16) (pct_0x 32 n) (Z.to_nat x) 4 Hall)
      as Ha.
    destruct (substring (Z.to_nat x) 4 (pct_0x 32 n)) as [|c r] eqn:Esub;
      [discriminate|].
    destruct (digits_value_total 16 (String c r) 0 Ha) as [v ->].
    eexists. reflexivity.
  - eexists. reflexivity.
Qed.

Lemma IPv6Address_str_ok a :
  0 <= v6_ip a <= _ALL_ONES (Version:=_BaseV6) -> exists s, IPv6Address_str a = Ok s.
Proof.
  intros H. unfold IPv6Address_str.
  destruct (_string_from_ip_int_ok _ H) as [s ->]. cbn [bind].
  destruct (_scope_id a) as [z|]; [destruct (String.eqb z "")|]; eexists; reflexivity.
Qed.

Lemma _split_scope_id_spec s :
  spec (fun _ => True) (fun e => exn_class e = AddressValueError)
       (V6._split_scope_id s).
Proof.
  unfold V6._split_scope_id. destruct (partition "%" s) as [[addr sep] scope].
  destruct sep; simpl; [|exact I].
  destruct (String.eqb scope "" || contains "%" scope); [reflexivity | exact I].
Qed.

Lemma IPv6Address_of_str_spec s :
  spec (fun a => 0 <= v6_ip a <= _ALL_ONES (Version:=_BaseV6))
       (fun e => exn_class e = AddressValueError) (IPv6Address_of_str s).
Proof.
  unfold IPv6Address_of_str. cbv zeta. destruct (contains "/" s); [reflexivity|].
  eapply spec_bind; [apply _split_scope_id_spec|].
  intros [addr scope] _ _.
  eapply spec_bind; [apply v6_ip_int_from_string_spec|].
  intros n _ Hn. exact Hn.
Qed.

Lemma IPv6Address_of_int_ok n :
  0 <= n <= _ALL_ONES (Version:=_BaseV6) ->
  IPv6Address_of_int n = Ok {| v6_ip := n; _scope_id := None |}.
Proof.
  intros H. unfold IPv6Address_of_int.
  rewrite (_check_int_address_ok (V:=_BaseV6)) by exact H. reflexivity.
Qed.

Lemma IPv6Address_of_int_spec n :
  spec (fun a => a = {| v6_ip := n; _scope_id := None |} /\
                 0 <= n <= _ALL_ONES (Version:=_BaseV6))
       (fun e => exn_class e = AddressValueError) (IPv6Address_of_int n).
Proof.
  unfold IPv6Address_of_int.
  eapply spec_bind; [apply (_check_int_address_spec (V:=_BaseV6))|].
  intros [] _ H. cbn [spec]. auto.
Qed.

Lemma IPv6Address_of_int_spec_eq n a :
  IPv6Address_of_int n = Ok a -> a = {| v6_ip := n; _scope_id := None |}.
Proof.
  intros H. exact (proj1 (spec_returns _ _ _ _ (IPv6Address_of_int_spec n) H)).
Qed.

Lemma _make_netmask_v6_spec m :
  spec (fun r => 0 <= snd r <= 128 /\
                 fst r = {| v6_ip := 2 ^ 128 - 2 ^ (128 - snd r);
                            _scope_id := None |})
       (fun e => exn_class e = NetmaskValueError)
       (_make_netmask_v6 m).
Proof.
  unfold _make_netmask_v6.
  eapply spec_bind with (Q1 := fun p => 0 <= p <= 128).
  - destruct m as [n|s].
    + change (_max_prefixlen (Version:=_BaseV6)) with 128.
      destruct (Z.leb_spec 0 n); destruct (Z.leb_spec n 128); simpl;
        try reflexivity. lia.
    + apply (_prefix_from_prefix_string_spec (V:=_BaseV6)).
  - intros p _ Hp.
    rewrite IPv6Address_of_int_ok
      by (apply (_ip_int_from_prefix_range (V:=_BaseV6)); exact Hp).
    cbn [bind spec fst snd]. split; [exact Hp|].
    f_equal. apply (_ip_int_from_prefix_pow2 (V:=_BaseV6)). exact Hp.
Qed.

End V6Text.

(** *** Networks *)

Module NetworkFacts.
Import Py Notions PyFacts ipaddress BaseFacts V4Facts V6Facts DigitFacts V6Text.

#[export] Instance IPv4Laws : AddressLaws IPv4Address.
Proof.
  split.
  - exact V4Laws.
  - intros n. eapply spec_weaken; [apply IPv4Address_of_int_spec | | auto].
    intros a [-> H]. auto.
  - intros n H. eexists. apply IPv4Address_of_int_ok, H.
  - exact IPv4Address_of_str_spec.
  - intros m. eapply spec_weaken; [apply _make_netmask_v4_spec | | auto].
    intros [nm p] [Hp E]. cbn [fst snd] in *. split; [exact Hp|]. subst nm.
    cbn [of_int IPv4Address].
    rewrite IPv4Address_of_int_ok
      by (apply (_ip_int_from_prefix_range (V:=_BaseV4)); exact Hp).
    rewrite (_ip_int_from_prefix_pow2 (V:=_BaseV4)) by exact Hp. reflexivity.
  - exact IPv4Address_str_ok.
Qed.

#[export] Instance IPv6Laws : AddressLaws IPv6Address.
Proof.
  split.
  - exact V6Laws.
  - intros n. eapply spec_weaken; [apply IPv6Address_of_int_spec | | auto].
    intros a [-> H]. auto.
  - intros n H. eexists. apply IPv6Address_of_int_ok, H.
  - exact IPv6Address_of_str_spec.
  - intros m. eapply spec_weaken; [apply _make_netmask_v6_spec | | auto].
    intros [nm p] [Hp E]. cbn [fst snd] in *. split; [exact Hp|]. subst nm.
    cbn [of_int IPv6Address].
    rewrite IPv6Address_of_int_ok
      by (apply (_ip_int_from_prefix_range (V:=_BaseV6)); exact Hp).
    rewrite (_ip_int_from_prefix_pow2 (V:=_BaseV6)) by exact Hp. reflexivity.
  - exact IPv6Address_str_ok.
Qed.

Section Generic.
Context {V : Version} {AC : AddressClass V} {L : AddressLaws AC}.

#[local] Existing Instance version_laws.

#[local] Abbreviation w := (_max_prefixlen (Version:=V)).

Lemma of_int_int n a : of_int n = Ok a -> int_ a = n /\ 0 <= n <= _ALL_ONES.
Proof. intros H. exact (spec_returns _ _ _ _ (of_int_spec n) H). Qed.

(** What [__init__] computes from the text. *)
Lemma Network_init_inv s net :
  Network_init (AC:=AC) s false = Ok net ->
  exists addr mask a,
    _split_addr_prefix s = Ok (addr, mask) /\
    of_str addr = Ok a /\
    _make_netmask mask = Ok (netmask net, _prefixlen net) /\
    int_ (network_address net) = Z.land (int_ a) (int_ (netmask net)) /\
    (network_address net = a \/
     Z.land (int_ a) (int_ (netmask net)) <> int_ a /\
     of_int (Z.land (int_ a) (int_ (netmask net))) = Ok (network_address net)).
Proof.
  unfold Network_init. intros H.
  destruct (_split_addr_prefix s) as [[addr mask]|e] eqn:E1; [|discriminate].
  cbn [bind] in H.
  destruct (of_str addr) as [a|e] eqn:E2; [|discriminate]. cbn [bind] in H.
  destruct (_make_netmask mask) as [[nm p]|e] eqn:E3; [|discriminate].
  cbn [bind] in H. cbv zeta in H. cbn [network_address netmask _prefixlen] in H.
  exists addr, mask, a.
  destruct (Z.eqb_spec (Z.land (int_ a) (int_ nm)) (int_ a)) as [E|E];
    cbn [negb] in H.
  - injection H as <-. cbn [network_address netmask _prefixlen].
    repeat split; auto.
  - destruct (of_int (Z.land (int_ a) (int_ nm))) as [a'|e] eqn:E4; [|discriminate].
    cbn [bind] in H. injection H as <-. cbn [network_address netmask _prefixlen].
    apply of_int_int in E4 as E5. destruct E5 as [E5 _].
    repeat split; auto.
Qed.

Lemma netmask_value nm p :
  0 <= p <= w -> of_int (_ip_int_from_prefix p) = Ok nm ->
  int_ nm = Z.shiftl (Z.ones p) (w - p).
Proof.
  intros Hp H. apply of_int_int in H as [-> _].
  unfold _ip_int_from_prefix. rewrite ALL_ONES_ones. apply Bits.mask_shift, Hp.
Qed.

Lemma Network_init_wf s net :
  Network_init (AC:=AC) s false = Ok net -> wf_network net.
Proof.
  intros H. apply Network_init_inv in H as (addr & mask & a & _ & Ha & Hm & Hn & _).
  pose proof (spec_returns _ _ _ _ (of_str_spec addr) Ha) as Ra.
  pose proof (spec_returns _ _ _ _ (make_netmask_spec mask) Hm) as [Hp Hnm].
  cbn [fst snd] in *. cbv beta in Ra.
  pose proof (netmask_value _ _ Hp Hnm) as Em.
  rewrite ALL_ONES_pow2 in Ra.
  unfold wf_network. cbv zeta. split; [exact Hp|]. split.
  - rewrite Em. apply Bits.shifted_ones_pow2, Hp.
  - exists (int_ a / 2 ^ (w - _prefixlen net)). split.
    + assert (0 < 2 ^ (w - _prefixlen net)) by (apply Z.pow_pos_nonneg; lia).
      split; [apply Z.div_pos; lia|].
      apply Z.div_lt_upper_bound; [lia|].
      rewrite <- Z.pow_add_r by lia.
      replace (w - _prefixlen net + _prefixlen net) with w by lia. lia.
    + rewrite Hn, Em. apply Bits.land_mask; [exact Hp | lia].
Qed.

Section WellFormed.
Variable net : Network AC.
Hypothesis Hwf : wf_network net.

#[local] Abbreviation p := (_prefixlen net).
#[local] Abbreviation na := (int_ (network_address net)).

Lemma host_size_pos : 0 < 2 ^ (w - p).
Proof. destruct Hwf as (Hp & _). apply Z.pow_pos_nonneg; lia. Qed.

Lemma network_range : 0 <= na /\ na + 2 ^ (w - p) - 1 <= _ALL_ONES.
Proof.
  destruct Hwf as (Hp & _ & q & Hq & ->). pose proof host_size_pos.
  rewrite ALL_ONES_pow2.
  assert (E : 2 ^ w = 2 ^ (w - p) * 2 ^ p)
    by (rewrite <- Z.pow_add_r by lia; f_equal; lia).
  rewrite E. nia.
Qed.

Lemma inverted_mask : Z.lxor (int_ (netmask net)) _ALL_ONES = 2 ^ (w - p) - 1.
Proof.
  destruct Hwf as (Hp & Em & _). rewrite Em.
  rewrite <- Bits.shifted_ones_pow2, ALL_ONES_ones by exact Hp.
  rewrite Bits.host_bits by exact Hp. apply Bits.ones_pow2. lia.
Qed.

Lemma hostmask_ok :
  exists h, hostmask net = Ok h /\ int_ h = 2 ^ (w - p) - 1.
Proof.
  unfold hostmask. rewrite inverted_mask.
  pose proof network_range. pose proof host_size_pos.
  destruct (of_int_ok (2 ^ (w - p) - 1)) as [h Hh]; [lia|].
  exists h. split; [exact Hh|]. apply of_int_int in Hh. tauto.
Qed.

Lemma broadcast_value :
  Z.lor na (Z.lxor (int_ (netmask net)) _ALL_ONES) = na + 2 ^ (w - p) - 1.
Proof.
  rewrite inverted_mask. destruct Hwf as (Hp & _ & q & _ & ->).
  rewrite <- Bits.ones_pow2 by lia. apply Bits.lor_host, Hp.
Qed.

Lemma broadcast_address_ok :
  exists b, broadcast_address net = Ok b /\
            of_int (Z.lor na (Z.lxor (int_ (netmask net)) _ALL_ONES)) = Ok b /\
            int_ b = na + 2 ^ (w - p) - 1.
Proof.
  unfold broadcast_address.
  destruct hostmask_ok as (h & Hh & Eh). rewrite Hh. cbn [bind].
  rewrite Eh, <- inverted_mask, broadcast_value.
  pose proof network_range. pose proof host_size_pos.
  destruct (of_int_ok (na + 2 ^ (w - p) - 1)) as [b Hb]; [lia|].
  exists b. split; [exact Hb|]. split; [exact Hb|].
  apply of_int_int in Hb. tauto.
Qed.

Lemma num_addresses_ok : num_addresses net = Ok (2 ^ (w - p)).
Proof.
  unfold num_addresses. destruct broadcast_address_ok as (b & -> & _ & Eb).
  cbn [bind]. f_equal. lia.
Qed.

(** [network[n]] for [n >= 0] *)
Lemma getitem_nonneg n :
  0 <= n ->
  getitem net n =
    if n <? 2 ^ (w - p) then of_int (na + n)
    else raise IndexError "address out of range".
Proof.
  intros Hn. unfold getitem. destruct broadcast_address_ok as (b & -> & _ & Eb).
  cbn [bind]. cbv zeta. destruct (Z.leb_spec 0 n); [|lia]. rewrite Eb.
  destruct (Z.ltb_spec (na + 2 ^ (w - p) - 1) (na + n));
    destruct (Z.ltb_spec n (2 ^ (w - p))); try lia; reflexivity.
Qed.

(** [network[n]] for [n < 0] *)
Lemma getitem_neg n :
  n < 0 ->
  getitem net n =
    if - n <=? 2 ^ (w - p) then of_int (na + 2 ^ (w - p) + n)
    else raise IndexError "address out of range".
Proof.
  intros Hn. unfold getitem. destruct broadcast_address_ok as (b & -> & _ & Eb).
  cbn [bind]. cbv zeta. destruct (Z.leb_spec 0 n); [lia|]. rewrite Eb.
  destruct (Z.ltb_spec (na + 2 ^ (w - p) - 1 + (n + 1)) na);
    destruct (Z.leb_spec (- n) (2 ^ (w - p))); try lia; [reflexivity|].
  f_equal. lia.
Qed.

Lemma of_int_in_network k :
  0 <= k < 2 ^ (w - p) -> exists a, of_int (na + k) = Ok a /\ int_ a = na + k.
Proof.
  intros Hk. pose proof network_range.
  destruct (of_int_ok (na + k)) as [a Ha]; [lia|].
  exists a. split; [exact Ha|]. apply of_int_int in Ha. tauto.
Qed.

Lemma str_network_address : exists s, str_ (network_address net) = Ok s.
Proof.
  apply str_ok. pose proof network_range. pose proof host_size_pos. lia.
Qed.

End WellFormed.

(** Every failure of [__init__] is a [ValueError]. *)
Lemma Network_init_raises s e :
  Network_init (AC:=AC) s false = Raise e -> is_ValueError e.
Proof.
  unfold Network_init. intros H.
  assert (C : exn_class e = AddressValueError \/ exn_class e = NetmaskValueError).
  { pose proof (_split_addr_prefix_spec (V:=V) s) as S1.
    destruct (_split_addr_prefix s) as [[addr mask]|e1]; cbn [bind] in H;
      [|injection H as <-; left; exact S1].
    pose proof (of_str_spec addr) as S2.
    destruct (of_str addr) as [a|e2]; cbn [bind] in H;
      [|injection H as <-; left; exact S2].
    pose proof (make_netmask_spec mask) as S3.
    destruct (_make_netmask mask) as [[nm p]|e3]; cbn [bind] in H;
      [|injection H as <-; right; exact S3].
    cbv zeta in H. cbn [network_address netmask _prefixlen] in H.
    destruct (negb _); [|discriminate].
    pose proof (of_int_spec (Z.land (int_ a) (int_ nm))) as S4.
    destruct (of_int (Z.land (int_ a) (int_ nm))) as [a'|e4]; cbn [bind] in H;
      [discriminate|]. injection H as <-. left. exact S4. }
  unfold is_ValueError, isinstance. destruct C as [-> | ->]; reflexivity.
Qed.

End Generic.

End NetworkFacts.

(** *** The two calculators, case by case *)

Module CalculatorFacts.
Import Py Notions PyFacts ipaddress BaseFacts V4Facts V6Facts DigitFacts V6Text
       NetworkFacts ipcalc.

Lemma isinstance_ValueError_Exception e :
  isinstance e ValueError = false -> is_Exception e ->
  dispatch (A:=object) e
    [(ValueError,
      fun e => Ok (PyStr ("Error: Invalid IPv4 address or prefix. " ++ exn_str e)));
     (Exception,
      fun e => Ok (PyStr ("An unexpected error occurred: " ++ exn_str e)))]
  = Ok (PyStr ("An unexpected error occurred: " ++ exn_str e)).
Proof. intros H1 H2. cbn [dispatch]. rewrite H1, H2. reflexivity. Qed.

(** A text that is no network: the first handler answers. *)
Lemma calculate_ipv4_invalid s e :
  IPv4Network s false = Raise e ->
  calculate_ipv4_subnet_info s
  = Ok (PyStr ("Error: Invalid IPv4 address or prefix. " ++ exn_str e)).
Proof.
  intros H. unfold calculate_ipv4_subnet_info. rewrite H.
  cbn [bind try_except dispatch].
  rewrite (Network_init_raises (AC:=IPv4Address) s e H). reflexivity.
Qed.

Lemma calculate_ipv6_invalid s e :
  IPv6Network s false = Raise e ->
  calculate_ipv6_subnet_info s
  = Ok (PyStr ("Error: Invalid IPv6 address or prefix. " ++ exn_str e)).
Proof.
  intros H. unfold calculate_ipv6_subnet_info. rewrite H.
  cbn [bind try_except dispatch].
  rewrite (Network_init_raises (AC:=IPv6Address) s e H). reflexivity.
Qed.

Ltac v4_range :=
  cbn [v4_ip int_ IPv4Address];
  change (_ALL_ONES (Version:=_BaseV4)) with 4294967295 in *; lia.

Ltac v6_range :=
  cbn [v6_ip int_ IPv6Address];
  change (_ALL_ONES (Version:=_BaseV6))
    with 340282366920938463463374607431768211455 in *; lia.

Lemma v4_eta (a : IPv4Address_t) : {| v4_ip := v4_ip a |} = a.
Proof. destruct a. reflexivity. Qed.

(** The addresses the IPv4 calculator derives from a network. *)
Section DerivedV4.
Variable net : Network IPv4Address.
Hypothesis Hwf : wf_network net.

#[local] Abbreviation n4 := (v4_ip (network_address net)).
#[local] Abbreviation size4 := (2 ^ (32 - _prefixlen net)).

Lemma v4_network_range : 0 <= n4 /\ n4 + size4 - 1 <= 4294967295 /\ 1 <= size4.
Proof.
  pose proof (network_range net Hwf) as Hr. pose proof (host_size_pos net Hwf).
  change (_max_prefixlen (Version:=_BaseV4)) with 32 in *.
  change (_ALL_ONES (Version:=_BaseV4)) with 4294967295 in *.
  cbn [int_ IPv4Address] in Hr. lia.
Qed.

Lemma v4_broadcast :
  broadcast_address net = Ok {| v4_ip := n4 + size4 - 1 |} /\
  Z.lor n4 (Z.lxor (v4_ip (netmask net)) (2 ^ 32 - 1)) = n4 + size4 - 1.
Proof.
  destruct (broadcast_address_ok net Hwf) as (b & Eb & _ & Ib).
  cbn [int_ IPv4Address] in Ib.
  change (_max_prefixlen (Version:=_BaseV4)) with 32 in Ib.
  split.
  - rewrite Eb. destruct b as [x]. cbn [v4_ip] in Ib. rewrite Ib. reflexivity.
  - exact (broadcast_value net Hwf).
Qed.

Lemma v4_first :
  _prefixlen net < 32 -> getitem net 1 = Ok {| v4_ip := n4 + 1 |}.
Proof.
  intros Hp. pose proof v4_network_range. destruct Hwf as (Hp0 & _).
  change (_max_prefixlen (Version:=_BaseV4)) with 32 in Hp0.
  assert (2 <= size4).
  { change 2 with (2 ^ 1). apply Z.pow_le_mono_r; lia. }
  rewrite (getitem_nonneg net Hwf 1) by lia.
  change (_max_prefixlen (Version:=_BaseV4)) with 32.
  destruct (Z.ltb_spec 1 size4); [|lia].
  cbn [int_ of_int IPv4Address]. apply IPv4Address_of_int_ok. v4_range.
Qed.

Lemma v4_last :
  _prefixlen net < 32 -> getitem net (-2) = Ok {| v4_ip := n4 + size4 - 2 |}.
Proof.
  intros Hp. pose proof v4_network_range. destruct Hwf as (Hp0 & _).
  change (_max_prefixlen (Version:=_BaseV4)) with 32 in Hp0.
  assert (2 <= size4).
  { change 2 with (2 ^ 1). apply Z.pow_le_mono_r; lia. }
  rewrite (getitem_neg net Hwf (-2)) by lia.
  change (_max_prefixlen (Version:=_BaseV4)) with 32.
  destruct (Z.leb_spec (- -2) size4); [|lia].
  cbn [int_ of_int IPv4Address].
  replace (n4 + size4 + -2) with (n4 + size4 - 2) by lia.
  apply IPv4Address_of_int_ok. v4_range.
Qed.

End DerivedV4.

(** The addresses the IPv6 calculator derives from a network. *)
Section DerivedV6.
Variable net : Network IPv6Address.
Hypothesis Hwf : wf_network net.

#[local] Abbreviation n6 := (v6_ip (network_address net)).
#[local] Abbreviation size6 := (2 ^ (128 - _prefixlen net)).

Lemma v6_network_range :
  0 <= n6 /\ n6 + size6 - 1 <= 340282366920938463463374607431768211455 /\
  1 <= size6.
Proof.
  pose proof (network_range net Hwf) as Hr. pose proof (host_size_pos net Hwf).
  change (_max_prefixlen (Version:=_BaseV6)) with 128 in *.
  change (_ALL_ONES (Version:=_BaseV6))
    with 340282366920938463463374607431768211455 in *.
  cbn [int_ IPv6Address] in Hr. lia.
Qed.

Lemma v6_first :
  _prefixlen net < 128 ->
  getitem net 1 = Ok {| v6_ip := n6 + 1; _scope_id := None |}.
Proof.
  intros Hp. pose proof v6_network_range. destruct Hwf as (Hp0 & _).
  change (_max_prefixlen (Version:=_BaseV6)) with 128 in Hp0.
  assert (2 <= size6).
  { change 2 with (2 ^ 1). apply Z.pow_le_mono_r; lia. }
  rewrite (getitem_nonneg net Hwf 1) by lia.
  change (_max_prefixlen (Version:=_BaseV6)) with 128.
  destruct (Z.ltb_spec 1 size6); [|lia].
  cbn [int_ of_int IPv6Address]. apply IPv6Address_of_int_ok. v6_range.
Qed.

Lemma v6_last :
  getitem net (-1) = Ok {| v6_ip := n6 + size6 - 1; _scope_id := None |}.
Proof.
  pose proof v6_network_range.
  rewrite (getitem_neg net Hwf (-1)) by lia.
  change (_max_prefixlen (Version:=_BaseV6)) with 128.
  destruct (Z.leb_spec (- -1) size6); [|lia].
  cbn [int_ of_int IPv6Address].
  replace (n6 + size6 + -1) with (n6 + size6 - 1) by lia.
  apply IPv6Address_of_int_ok. v6_range.
Qed.

End DerivedV6.

(** A network of more than one address. *)
Lemma calculate_ipv4_dict s net :
  IPv4Network s false = Ok net -> _prefixlen net < 32 ->
  let n := v4_ip (network_address net) in
  let size := 2 ^ (32 - _prefixlen net) in
  exists ns bs fs ls,
    IPv4Address_str {| v4_ip := n |} = Ok ns /\
    IPv4Address_str {| v4_ip := n + size - 1 |} = Ok bs /\
    IPv4Address_str {| v4_ip := n + 1 |} = Ok fs /\
    IPv4Address_str {| v4_ip := n + size - 2 |} = Ok ls /\
    calculate_ipv4_subnet_info s
    = Ok (PyDict
            [("version", VInt 4);
             ("Input CIDR", VStr (ns ++ "/" ++ str_int (_prefixlen net)));
             ("Network Address", VStr ns);
             ("Broadcast Address", VStr bs);
             ("First usable Address", VStr fs);
             ("Last usable Address", VStr ls);
             ("Total Addresses", VInt size)]).
Proof.
  intros H Hp n size.
  pose proof (Network_init_wf (AC:=IPv4Address) s net H) as Hwf.
  pose proof (network_range net Hwf) as Hr.
  pose proof Hwf as (Hp0 & _).
  change (_max_prefixlen (Version:=_BaseV4)) with 32 in *.
  cbn [int_ IPv4Address] in Hr. fold n in Hr. fold size in Hr.
  assert (Hsize : 2 <= size).
  { unfold size. change 2 with (2 ^ 1). apply Z.pow_le_mono_r; lia. }
  destruct (IPv4Address_str_ok {| v4_ip := n |}) as [ns Ens]; [v4_range|].
  destruct (IPv4Address_str_ok {| v4_ip := n + size - 1 |}) as [bs Ebs]; [v4_range|].
  destruct (IPv4Address_str_ok {| v4_ip := n + 1 |}) as [fs Efs]; [v4_range|].
  destruct (IPv4Address_str_ok {| v4_ip := n + size - 2 |}) as [ls Els]; [v4_range|].
  exists ns, bs, fs, ls. repeat (split; [assumption|]).
  unfold calculate_ipv4_subnet_info. rewrite H. cbn [bind].
  unfold with_prefixlen. cbn [str_ IPv4Address].
  unfold n in Ens. rewrite v4_eta in Ens. rewrite Ens. cbn [bind].
  destruct (broadcast_address_ok net Hwf) as (b & Eb & Eb' & Ib).
  rewrite Eb. cbn [bind].
  cbn [int_ of_int IPv4Address] in Eb', Ib.
  change (_max_prefixlen (Version:=_BaseV4)) with 32 in Ib.
  fold n in Ib. fold size in Ib.
  replace b with {| v4_ip := n + size - 1 |} by (destruct b; cbn in Ib; congruence).
  rewrite Ebs. cbn [bind].
  rewrite (getitem_nonneg net Hwf 1) by lia.
  change (_max_prefixlen (Version:=_BaseV4)) with 32. fold size.
  destruct (Z.ltb_spec 1 size); [|lia].
  cbn [int_ of_int IPv4Address]. fold n.
  rewrite IPv4Address_of_int_ok by v4_range. cbn [bind]. rewrite Efs. cbn [bind].
  rewrite (getitem_neg net Hwf (-2)) by lia.
  change (_max_prefixlen (Version:=_BaseV4)) with 32. fold size.
  destruct (Z.leb_spec (- -2) size); [|lia].
  cbn [int_ of_int IPv4Address]. fold n.
  replace (n + size + -2) with (n + size - 2) by lia.
  rewrite IPv4Address_of_int_ok by v4_range. cbn [bind]. rewrite Els. cbn [bind].
  rewrite (num_addresses_ok net Hwf). cbn [bind].
  change (_max_prefixlen (Version:=_BaseV4)) with 32. fold size.
  reflexivity.
Qed.

(** A network of one address: [network[1]] is out of range, and the
    [IndexError] reaches the second handler. *)
Lemma calculate_ipv4_single s net :
  IPv4Network s false = Ok net -> _prefixlen net = 32 ->
  calculate_ipv4_subnet_info s
  = Ok (PyStr "An unexpected error occurred: address out of range").
Proof.
  intros H Hp.
  pose proof (Network_init_wf (AC:=IPv4Address) s net H) as Hwf.
  pose proof (network_range net Hwf) as Hr.
  change (_max_prefixlen (Version:=_BaseV4)) with 32 in *.
  rewrite Hp in Hr. change (2 ^ (32 - 32)) with 1 in Hr.
  unfold calculate_ipv4_subnet_info. rewrite H. cbn [bind].
  unfold with_prefixlen.
  destruct (str_network_address net Hwf) as [ns ->]. cbn [bind].
  destruct (broadcast_address_ok net Hwf) as (b & Eb & Eb' & Ib).
  rewrite Eb. cbn [bind].
  destruct (str_ok b) as [bs ->].
  { rewrite Ib. change (_max_prefixlen (Version:=_BaseV4)) with 32.
    rewrite Hp. change (2 ^ (32 - 32)) with 1. lia. }
  cbn [bind].
  rewrite (getitem_nonneg net Hwf 1) by lia.
  change (_max_prefixlen (Version:=_BaseV4)) with 32.
  rewrite Hp. change (1 <? 2 ^ (32 - 32)) with false. cbv iota.
  reflexivity.
Qed.

Lemma calculate_ipv6_dict s net :
  IPv6Network s false = Ok net -> _prefixlen net < 128 ->
  let n := v6_ip (network_address net) in
  let size := 2 ^ (128 - _prefixlen net) in
  exists ns fs ls,
    IPv6Address_str (network_address net) = Ok ns /\
    IPv6Address_str {| v6_ip := n + 1; _scope_id := None |} = Ok fs /\
    IPv6Address_str {| v6_ip := n + size - 1; _scope_id := None |} = Ok ls /\
    calculate_ipv6_subnet_info s
    = Ok (PyDict
            [("version", VInt 6);
             ("Input CIDR", VStr (ns ++ "/" ++ str_int (_prefixlen net)));
             ("Network Address", VStr ns);
             ("First usable Address", VStr fs);
             ("Last usable Address", VStr ls);
             ("Total Addresses", VInt size)]).
Proof.
  intros H Hp n size.
  pose proof (Network_init_wf (AC:=IPv6Address) s net H) as Hwf.
  pose proof (network_range net Hwf) as Hr.
  pose proof Hwf as (Hp0 & _).
  change (_max_prefixlen (Version:=_BaseV6)) with 128 in *.
  cbn [int_ IPv6Address] in Hr. fold n in Hr. fold size in Hr.
  assert (Hsize : 2 <= size).
  { unfold size. change 2 with (2 ^ 1). apply Z.pow_le_mono_r; lia. }
  destruct (str_network_address net Hwf) as [ns Ens]. cbn [str_ IPv6Address] in Ens.
  destruct (IPv6Address_str_ok {| v6_ip := n + 1; _scope_id := None |})
    as [fs Efs]; [v6_range|].
  destruct (IPv6Address_str_ok {| v6_ip := n + size - 1; _scope_id := None |})
    as [ls Els]; [v6_range|].
  exists ns, fs, ls. repeat (split; [assumption|]).
  unfold calculate_ipv6_subnet_info. rewrite H. cbn [bind]. cbv zeta.
  assert (G1 : getitem net 1 = Ok {| v6_ip := n + 1; _scope_id := None |}).
  { rewrite (getitem_nonneg net Hwf 1) by lia.
    change (_max_prefixlen (Version:=_BaseV6)) with 128. fold size.
    destruct (Z.ltb_spec 1 size); [|lia].
    cbn [int_ of_int IPv6Address]. fold n.
    apply IPv6Address_of_int_ok. v6_range. }
  assert (G2 : getitem net (-1)
               = Ok {| v6_ip := n + size - 1; _scope_id := None |}).
  { rewrite (getitem_neg net Hwf (-1)) by lia.
    change (_max_prefixlen (Version:=_BaseV6)) with 128. fold size.
    destruct (Z.leb_spec (- -1) size); [|lia].
    cbn [int_ of_int IPv6Address]. fold n.
    replace (n + size + -1) with (n + size - 1) by lia.
    apply IPv6Address_of_int_ok. v6_range. }
  rewrite G1, G2, (num_addresses_ok net Hwf). cbn [bind].
  unfold with_prefixlen. cbn [str_ IPv6Address]. rewrite Ens. cbn [bind].
  rewrite Efs, Els. cbn [bind].
  change (_max_prefixlen (Version:=_BaseV6)) with 128. fold size.
  reflexivity.
Qed.

Lemma calculate_ipv6_single s net :
  IPv6Network s false = Ok net -> _prefixlen net = 128 ->
  calculate_ipv6_subnet_info s
  = Ok (PyStr "An unexpected error occurred: address out of range").
Proof.
  intros H Hp.
  pose proof (Network_init_wf (AC:=IPv6Address) s net H) as Hwf.
  unfold calculate_ipv6_subnet_info. rewrite H. cbn [bind]. cbv zeta.
  rewrite (getitem_nonneg net Hwf 1) by lia.
  change (_max_prefixlen (Version:=_BaseV6)) with 128.
  rewrite Hp. change (1 <? 2 ^ (128 - 128)) with false. cbv iota.
  reflexivity.
Qed.

(** Both calculators return, whatever the text. *)
Lemma calculate_ipv4_cases s :
  (exists e, IPv4Network s false = Raise e) \/
  (exists net, IPv4Network s false = Ok net /\
               0 <= _prefixlen net <= 32).
Proof.
  destruct (IPv4Network s false) as [net|e] eqn:E; [right|left; eauto].
  exists net. split; [reflexivity|].
  pose proof (Network_init_wf (AC:=IPv4Address) s net E) as (Hp & _). exact Hp.
Qed.

Lemma calculate_ipv6_cases s :
  (exists e, IPv6Network s false = Raise e) \/
  (exists net, IPv6Network s false = Ok net /\
               0 <= _prefixlen net <= 128).
Proof.
  destruct (IPv6Network s false) as [net|e] eqn:E; [right|left; eauto].
  exists net. split; [reflexivity|].
  pose proof (Network_init_wf (AC:=IPv6Address) s net E) as (Hp & _). exact Hp.
Qed.

End CalculatorFacts.

Module ReadingFacts.
Import Py Notions PyFacts ipaddress BaseFacts V4Facts V6Text NetworkFacts
       CalculatorFacts ipcalc.

Lemma land_range w a b :
  0 <= w -> 0 <= a < 2 ^ w -> 0 <= b -> 0 <= Z.land a b < 2 ^ w.
Proof.
  intros Hw Ha Hb.
  assert (Hn : 0 <= Z.land a b) by (apply Z.land_nonneg; lia).
  split; [exact Hn|].
  destruct (Z.eq_dec (Z.land a b) 0) as [->|Hz]; [lia|].
  assert (a <> 0) by (intros ->; apply Hz, Z.land_0_l).
  apply Z.log2_lt_pow2; [lia|].
  pose proof (Z.log2_land a b ltac:(lia) Hb).
  assert (Z.log2 a < w) by (apply Z.log2_lt_pow2; lia).
  lia.
Qed.

Lemma network_bits_idem {V : Version} x p :
  network_bits (network_bits x p) p = network_bits x p.
Proof. unfold network_bits. rewrite <- Z.land_assoc, Z.land_diag. reflexivity. Qed.

(** What [__init__] returns on a text that reads as an address and a
    prefix length: the address itself when it has no host bit, the address
    object of its network bits otherwise. *)
Lemma Network_init_reads {V : Version} {AC : AddressClass V} {L : AddressLaws AC}
    s a p :
  reads_as AC s a p ->
  exists nm na,
    of_int (_ip_int_from_prefix p) = Ok nm /\
    of_int (network_bits (int_ a) p) = Ok na /\
    Network_init (AC:=AC) s false
    = Ok {| network_address :=
              if network_bits (int_ a) p =? int_ a then a else na;
            netmask := nm; _prefixlen := p |}.
Proof.
  intros (addr & mask & nm & Hs & Ha & Hm). exists nm.
  pose proof (spec_returns _ _ _ _ (make_netmask_spec mask) Hm) as [Hp Hnm].
  cbn [fst snd] in Hp, Hnm.
  pose proof (spec_returns _ _ _ _ (of_str_spec addr) Ha) as Ra. cbv beta in Ra.
  pose proof (version_laws (AC:=AC)) as VL.
  pose proof (_ip_int_from_prefix_range p Hp) as Rm.
  rewrite ALL_ONES_pow2 in Ra.
  assert (Rl : 0 <= Z.land (int_ a) (_ip_int_from_prefix (V:=V) p)
               < 2 ^ _max_prefixlen (Version:=V)).
  { apply land_range; [apply max_prefixlen_nonneg | lia | lia]. }
  destruct (of_int_ok (network_bits (int_ a) p)) as [na Hna].
  { unfold network_bits. rewrite ALL_ONES_pow2. lia. }
  exists na. split; [exact Hnm|]. split; [exact Hna|].
  apply of_int_int in Hnm as Inm. destruct Inm as [Inm _].
  unfold Network_init. rewrite Hs. cbn [bind]. rewrite Ha. cbn [bind].
  rewrite Hm. cbn [bind]. cbv zeta. cbn [network_address netmask _prefixlen].
  unfold network_bits in *. rewrite Inm.
  destruct (Z.land (int_ a) (_ip_int_from_prefix p) =? int_ a); cbn [negb].
  - reflexivity.
  - rewrite Hna. reflexivity.
Qed.

Lemma IPv4Network_reads s a p :
  reads_as IPv4Address s a p ->
  IPv4Network s false
  = Ok (Build_Network _ IPv4Address
          {| v4_ip := network_bits (V:=_BaseV4) (v4_ip a) p |}
          {| v4_ip := _ip_int_from_prefix (V:=_BaseV4) p |}
          p).
Proof.
  intros H. destruct (Network_init_reads s a p H) as (nm & na & Hnm & Hna & E).
  unfold IPv4Network. rewrite E. clear E.
  cbn [int_ of_int IPv4Address] in *.
  apply IPv4Address_of_int_spec_eq in Hnm. apply IPv4Address_of_int_spec_eq in Hna.
  subst nm na.
  destruct (Z.eqb_spec (network_bits (V:=_BaseV4) (v4_ip a) p) (v4_ip a)) as [E|E];
    [|reflexivity].
  rewrite E, v4_eta. reflexivity.
Qed.

Lemma IPv6Network_reads s a p :
  reads_as IPv6Address s a p ->
  IPv6Network s false
  = Ok (Build_Network _ IPv6Address
          (if network_bits (V:=_BaseV6) (v6_ip a) p =? v6_ip a then a
           else {| v6_ip := network_bits (V:=_BaseV6) (v6_ip a) p;
                   _scope_id := None |})
          {| v6_ip := _ip_int_from_prefix (V:=_BaseV6) p; _scope_id := None |}
          p).
Proof.
  intros H. destruct (Network_init_reads s a p H) as (nm & na & Hnm & Hna & E).
  unfold IPv6Network. rewrite E. clear E.
  cbn [int_ of_int IPv6Address] in *.
  apply IPv6Address_of_int_spec_eq in Hnm. apply IPv6Address_of_int_spec_eq in Hna.
  subst nm na. reflexivity.
Qed.

(** The calculators depend on the text through the network only. *)
Lemma calculate_ipv4_ext s s0 :
  IPv4Network s false = IPv4Network s0 false ->
  calculate_ipv4_subnet_info s = calculate_ipv4_subnet_info s0.
Proof. intros H. unfold calculate_ipv4_subnet_info. rewrite H. reflexivity. Qed.

Lemma calculate_ipv6_ext s s0 :
  IPv6Network s false = IPv6Network s0 false ->
  calculate_ipv6_subnet_info s = calculate_ipv6_subnet_info s0.
Proof. intros H. unfold calculate_ipv6_subnet_info. rewrite H. reflexivity. Qed.

End ReadingFacts.


(** *** The formatter and the command line *)

Module DriverFacts.
Import Py Notions PyFacts DigitFacts ipaddress NetworkFacts CalculatorFacts ipcalc.

Lemma partition_label label rest :
  contains ":" label = false ->
  partition ":" (label ++ String ":" rest) = (label, true, rest).
Proof.
  induction label as [|c r IH]; intros H; simpl in *.
  - reflexivity.
  - apply orb_false_iff in H as [Hc Hr]. rewrite Hc, (IH Hr). reflexivity.
Qed.

Lemma substring_all s : substring 0 (String.length s) s = s.
Proof. induction s as [|c r IH]; simpl; [reflexivity | rewrite IH; reflexivity]. Qed.

Lemma append_assoc (s t u : string) : ((s ++ t) ++ u = s ++ (t ++ u))%string.
Proof. induction s as [|c r IH]; simpl; [reflexivity | rewrite IH; reflexivity]. Qed.

(** A printed line shows its label. *)
Lemma label_of_printed_line width label text :
  contains ":" label = false ->
  label_of_line (ljust ("  " ++ label ++ ":") width ++ text) = label.
Proof.
  intros H. unfold label_of_line, ljust.
  rewrite !append_assoc.
  change ("  " ++ label ++ ":" ++ ?x)%string
    with (String " " (String " " (label ++ String ":" x))).
  cbn [partition Ascii.eqb Bool.eqb]. rewrite (partition_label label _ H).
  cbn [String.length Nat.sub substring]. rewrite Nat.sub_0_r.
  apply substring_all.
Qed.

Lemma print_subnet_info_length d :
  List.length (print_subnet_info d) = List.length d.
Proof. unfold print_subnet_info. apply length_map. Qed.

(** [print_subnet_info] prints one line for each entry, in the order of
    the dictionary, and each line shows the label of its entry. *)
Lemma print_subnet_info_labels d :
  Forall (fun kv => contains ":" (fst kv) = false) d ->
  map label_of_line (print_subnet_info d) = map fst d.
Proof.
  intros H. unfold print_subnet_info. rewrite map_map.
  apply map_ext_Forall. eapply Forall_impl; [|exact H].
  intros [label v] Hl. cbn [fst] in *.
  destruct v; apply label_of_printed_line, Hl.
Qed.

Lemma printed_lines_stdout texts status :
  printed_lines {| output := map Stdout texts; exit_status := status |}
  = lines_of texts.
Proof.
  unfold printed_lines. cbn [output]. f_equal.
  induction texts as [|l r IH]; simpl; [reflexivity | rewrite IH; reflexivity].
Qed.

(** The width [print_subnet_info] computes in its first loop. *)
Lemma max_label_width_spec (labels : list string) : forall m0,
  let m := fold_left (fun m label => if m <? len label then len label else m)
                     labels m0 in
  m0 <= m /\ Forall (fun label => len label <= m) labels.
Proof.
  induction labels as [|l r IH]; intros m0; cbn [fold_left].
  - split; [lia | constructor].
  - specialize (IH (if m0 <? len l then len l else m0)). cbv zeta in IH.
    destruct IH as [IH1 IH2].
    destruct (Z.ltb_spec m0 (len l)); (split; [lia | constructor; [lia | exact IH2]]).
Qed.

Lemma max_label_width_in (labels : list string) : forall m0,
  let m := fold_left (fun m label => if m <? len label then len label else m)
                     labels m0 in
  m = m0 \/ In m (map len labels).
Proof.
  induction labels as [|l r IH]; intros m0; cbn [fold_left map].
  - left. reflexivity.
  - specialize (IH (if m0 <? len l then len l else m0)). cbv zeta in IH.
    destruct IH as [E | I]; [|right; right; exact I].
    destruct (m0 <? len l); [right; left; symmetry; exact E | left; exact E].
Qed.

(** What [print_subnet_info] prints: on each line two blanks, the label and
    the colon, then blanks up to the column after the widest label and its
    colon, then the value.  The values are aligned, the colons are not. *)
Lemma print_subnet_info_layout d :
  exists width,
    Forall (fun kv => len (fst kv) <= width) d /\
    (width = 0 \/ In width (map (fun kv => len (fst kv)) d)) /\
    print_subnet_info d
    = map (fun kv => "  " ++ fst kv ++ ":"
                     ++ spaces (Z.to_nat (width + 1 - len (fst kv)))
                     ++ render (snd kv))
          d.
Proof.
  unfold print_subnet_info.
  set (width := fold_left _ (map fst d) 0).
  exists width. split.
  - destruct (max_label_width_spec (map fst d) 0) as [_ H]. fold width in H.
    rewrite Forall_map in H. exact H.
  - split; [rewrite <- (map_map fst len); exact (max_label_width_in (map fst d) 0)|].
    apply map_ext. intros [label v]. cbn [fst snd]. unfold ljust, len.
    rewrite !length_app_string. cbn [String.length].
    replace (Z.to_nat (width + 4 - Z.of_nat (2 + (String.length label + 1))))
      with (Z.to_nat (width + 1 - Z.of_nat (String.length label))) by lia.
    destruct v; cbn [render]; rewrite !append_assoc; reflexivity.
Qed.

Lemma append_inv_head (a x y : string) : (a ++ x = a ++ y)%string -> x = y.
Proof. induction a as [|c r IH]; simpl; intros H; [exact H | apply IH; congruence]. Qed.

Lemma fold_max_spec (l : list Z) : forall m0,
  let m := fold_left Z.max l m0 in
  m0 <= m /\ Forall (fun x => x <= m) l /\ (m = m0 \/ In m l).
Proof.
  induction l as [|x r IH]; intros m0; cbn [fold_left].
  - split; [lia|]. split; [constructor | left; reflexivity].
  - specialize (IH (Z.max m0 x)). cbv zeta in IH. destruct IH as (I1 & I2 & I3).
    split; [lia|]. split; [constructor; [lia | exact I2]|].
    destruct I3 as [E | I]; [|right; right; exact I].
    destruct (Z.max_spec m0 x) as [[_ E'] | [_ E']].
    + right. left. rewrite E. symmetry. exact E'.
    + left. rewrite E. exact E'.
Qed.


(** Where a label is shorter than another the two layouts differ: the
    program prints the colon where the other layout pads. *)
Lemma layouts_differ d k v k' v' :
  In (k, v) d -> In (k', v') d -> len k < len k' ->
  print_subnet_info d <> colon_aligned_lines d.
Proof.
  intros Hk Hk' Hlt E.
  destruct (print_subnet_info_layout d) as (width & _ & _ & Ep). rewrite Ep in E.
  unfold colon_aligned_lines in E.
  set (w := fold_left Z.max _ 0) in E.
  pose proof (ext_in_map E (k, v) Hk) as Ek. cbn [fst snd] in Ek.
  assert (Hw : len k' <= w).
  { destruct (fold_max_spec (map (fun kv => len (fst kv)) d) 0) as (_ & F & _).
    fold w in F. rewrite Forall_map in F.
    rewrite Forall_forall in F. exact (F (k', v') Hk'). }
  unfold ljust in Ek. rewrite append_assoc in Ek.
  apply append_inv_head in Ek. apply append_inv_head in Ek.
  destruct (Z.to_nat (w - len k)) as [|n] eqn:En; [lia|].
  cbn in Ek. discriminate.
Qed.

(** Where all the labels have one length the two layouts agree. *)
Lemma layouts_agree d n :
  Forall (fun kv => len (fst kv) = n) d ->
  print_subnet_info d = colon_aligned_lines d.
Proof.
  intros H. destruct d as [|kv0 d0]; [reflexivity|].
  set (d := kv0 :: d0) in *.
  unfold print_subnet_info, colon_aligned_lines.
  set (w1 := fold_left _ (map fst d) 0). set (w2 := fold_left Z.max _ 0).
  assert (H0 : 0 <= n).
  { inversion H as [|? ? E _]. subst. unfold len. lia. }
  assert (E1 : w1 = n).
  { destruct (max_label_width_spec (map fst d) 0) as [P1 P2].
    destruct (max_label_width_in (map fst d) 0) as [P3 | P3]; fold w1 in P1, P2, P3.
    - rewrite Forall_map in P2. inversion P2 as [|? ? Q _]. inversion H as [|? ? Q' _].
      subst. lia.
    - rewrite map_map in P3. apply in_map_iff in P3 as (kv & Q & I).
      rewrite Forall_forall in H. rewrite <- Q. exact (H kv I). }
  assert (E2 : w2 = n).
  { destruct (fold_max_spec (map (fun kv => len (fst kv)) d) 0) as (P1 & P2 & P3).
    fold w2 in P1, P2, P3. destruct P3 as [P3 | P3].
    - rewrite Forall_map in P2. inversion P2 as [|? ? Q _]. inversion H as [|? ? Q' _].
      subst. lia.
    - apply in_map_iff in P3 as (kv & Q & I).
      rewrite Forall_forall in H. rewrite <- Q. exact (H kv I). }
  rewrite E1, E2. apply map_ext_in. intros [k v] I.
  rewrite Forall_forall in H. specialize (H (k, v) I). cbn [fst snd] in *.
  unfold ljust. rewrite H. unfold len. rewrite !length_app_string. cbn [String.length].
  replace (Z.to_nat (n + 4 - Z.of_nat (2 + (String.length k + 1)))) with 1%nat
    by (unfold len in H; lia).
  replace (Z.to_nat (n - n)) with 0%nat by lia.
  destruct v; cbn [spaces render]; rewrite !append_assoc; cbn; 
    repeat (rewrite ?append_assoc; cbn); reflexivity.
Qed.

(** What the program does once the command line is read. *)
Lemma main_parsed argv args :
  parse_args argv = Parsed args ->
  let calculate := if Namespace.is_ipv4 args then calculate_ipv4_subnet_info
                   else calculate_ipv6_subnet_info in
  (exists d, calculate (Namespace.network_address args) = Ok (PyDict d) /\
             d <> [] /\
             main argv = {| output := map Stdout (print_subnet_info d);
                            exit_status := 0 |}) \/
  (exists msg, calculate (Namespace.network_address args) = Ok (PyStr msg) /\
               main argv = {| output := [Stdout msg]; exit_status := 0 |}).
Proof.
  intros H calculate. unfold main. rewrite H.
  destruct args as [v4 v6 ip]. cbn [Namespace.is_ipv4 Namespace.is_ipv6
                                    Namespace.network_address] in *.
  assert (E : (let args :=
                 if negb v4 && negb v6
                 then {| Namespace.is_ipv4 := v4; Namespace.is_ipv6 := true;
                         Namespace.network_address := ip |}
                 else {| Namespace.is_ipv4 := v4; Namespace.is_ipv6 := v6;
                         Namespace.network_address := ip |} in
               if Namespace.is_ipv4 args then calculate_ipv4_subnet_info ip
               else if Namespace.is_ipv6 args then calculate_ipv6_subnet_info ip
               else Ok PyNone) = calculate ip).
  { unfold calculate. destruct v4, v6; reflexivity. }
  cbv zeta in E. cbv zeta. rewrite E. clear E.
  assert (C : (exists d, calculate ip = Ok (PyDict d) /\ d <> []) \/
              (exists msg, calculate ip = Ok (PyStr msg))).
  { unfold calculate. destruct v4.
    - destruct (calculate_ipv4_cases ip) as [[e He] | (net & Hn & Hp)].
      + right. eexists. exact (calculate_ipv4_invalid ip e He).
      + destruct (Z.eq_dec (_prefixlen net) 32) as [E|E].
        * right. eexists. exact (calculate_ipv4_single ip net Hn E).
        * left. destruct (calculate_ipv4_dict ip net Hn ltac:(lia))
            as (ns & bs & fs & ls & _ & _ & _ & _ & Hc).
          eexists. split; [exact Hc | discriminate].
    - destruct (calculate_ipv6_cases ip) as [[e He] | (net & Hn & Hp)].
      + right. eexists. exact (calculate_ipv6_invalid ip e He).
      + destruct (Z.eq_dec (_prefixlen net) 128) as [E|E].
        * right. eexists. exact (calculate_ipv6_single ip net Hn E).
        * left. destruct (calculate_ipv6_dict ip net Hn ltac:(lia))
            as (ns & fs & ls & _ & _ & _ & Hc).
          eexists. split; [exact Hc | discriminate]. }
  destruct C as [(d & Hd & Hne) | (msg & Hm)].
  - left. exists d. split; [exact Hd|]. split; [exact Hne|]. rewrite Hd.
    destruct d; [congruence | reflexivity].
  - right. exists msg. split; [exact Hm|]. rewrite Hm. reflexivity.
Qed.

(** Both [-4] and [-6], with no request for help: a usage error. *)
Lemma parse_loop_conflict argv : forall st,
  ~ In OptHelp argv ->
  seen4 st && seen6 st = false ->
  seen4 st = true \/ In Opt4 argv ->
  seen6 st = true \/ In Opt6 argv ->
  exists msg, parse_loop st argv = SystemExit 2 [StderrUsage msg].
Proof.
  induction argv as [|a r IH]; intros st Hh Hb H4 H6.
  - exfalso. destruct H4 as [H4|[]], H6 as [H6|[]].
    rewrite H4, H6 in Hb. discriminate.
  - assert (Hh' : ~ In OptHelp r) by (intros C; apply Hh; right; exact C).
    destruct a; cbn [parse_loop].
    + destruct (seen6 st) eqn:E6; [eexists; reflexivity|].
      apply IH; cbn [seen4 seen6]; auto.
      destruct H6 as [H6|[H6|H6]]; [discriminate | discriminate | auto].
    + destruct (seen4 st) eqn:E4; [eexists; reflexivity|].
      apply IH; cbn [seen4 seen6]; auto.
      destruct H4 as [H4|[H4|H4]]; [discriminate | discriminate | auto].
    + exfalso. apply Hh. left. reflexivity.
    + apply IH; cbn [seen4 seen6]; auto.
      * destruct H4 as [H4|[H4|H4]]; [auto | discriminate | auto].
      * destruct H6 as [H6|[H6|H6]]; [auto | discriminate | auto].
    + eexists. reflexivity.
    + destruct (positional st); apply IH; cbn [seen4 seen6]; auto.
      * destruct H4 as [H4|[H4|H4]]; [auto | discriminate | auto].
      * destruct H6 as [H6|[H6|H6]]; [auto | discriminate | auto].
      * destruct H4 as [H4|[H4|H4]]; [auto | discriminate | auto].
      * destruct H6 as [H6|[H6|H6]]; [auto | discriminate | auto].
Qed.

(** No positional argument, and no request for help: a usage error. *)
Lemma parse_loop_missing argv : forall st,
  ~ In OptHelp argv ->
  positional st = None ->
  (forall s, ~ In (Positional s) argv) ->
  exists msg, parse_loop st argv = SystemExit 2 [StderrUsage msg].
Proof.
  induction argv as [|a r IH]; intros st Hh Hp Hn.
  - cbn [parse_loop]. rewrite Hp. eexists. reflexivity.
  - assert (Hh' : ~ In OptHelp r) by (intros C; apply Hh; right; exact C).
    assert (Hn' : forall s, ~ In (Positional s) r)
      by (intros s C; apply (Hn s); right; exact C).
    destruct a; cbn [parse_loop].
    + destruct (seen6 st); [eexists; reflexivity|]. apply IH; auto.
    + destruct (seen4 st); [eexists; reflexivity|]. apply IH; auto.
    + exfalso. apply Hh. left. reflexivity.
    + apply IH; auto.
    + eexists. reflexivity.
    + exfalso. apply (Hn s). left. reflexivity.
Qed.

End DriverFacts.


(* ================================================================= *)
(** ** The claims *)

Module Claims.
Import Py Notions PyFacts ipaddress BaseFacts V4Facts V4Text V6Text NetworkFacts
       CalculatorFacts ReadingFacts DriverFacts ipcalc.

(** C1. The count of a network is exact but does not always reach the
    result.  For every valid IPv4 input [network.num_addresses] is exactly
    [2^(32 - prefixlen)], and for every valid IPv6 input exactly
    [2^(128 - prefixlen)], as an unbounded integer; this is the "Total
    Addresses" entry of every dictionary the calculator returns, and it
    returns one whenever the prefix is shorter than the address.  At a
    one-address network (prefix length 32 or 128) the count is 1, but the
    calculator returns the text of an unexpected error, which holds no
    "Total Addresses" value, and this text is all the program prints. *)
Theorem C1_total_addresses_lost_at_one_address :
  (forall s net,
     IPv4Network s false = Ok net ->
     num_addresses net = Ok (2 ^ (32 - _prefixlen net)) /\
     (forall d, calculate_ipv4_subnet_info s = Ok (PyDict d) ->
                get d "Total Addresses" = Some (VInt (2 ^ (32 - _prefixlen net)))) /\
     (_prefixlen net < 32 ->
      exists d, calculate_ipv4_subnet_info s = Ok (PyDict d)) /\
     (_prefixlen net = 32 ->
      num_addresses net = Ok 1 /\
      calculate_ipv4_subnet_info s
      = Ok (PyStr "An unexpected error occurred: address out of range") /\
      main [Opt4; Positional s]
      = {| output := [Stdout "An unexpected error occurred: address out of range"];
           exit_status := 0 |}))
  /\
  (forall s net,
     IPv6Network s false = Ok net ->
     num_addresses net = Ok (2 ^ (128 - _prefixlen net)) /\
     (forall d, calculate_ipv6_subnet_info s = Ok (PyDict d) ->
                get d "Total Addresses" = Some (VInt (2 ^ (128 - _prefixlen net)))) /\
     (_prefixlen net < 128 ->
      exists d, calculate_ipv6_subnet_info s = Ok (PyDict d)) /\
     (_prefixlen net = 128 ->
      num_addresses net = Ok 1 /\
      calculate_ipv6_subnet_info s
      = Ok (PyStr "An unexpected error occurred: address out of range") /\
      main [Opt6; Positional s]
      = {| output := [Stdout "An unexpected error occurred: address out of range"];
           exit_status := 0 |})).
Proof.
  split; intros s net H.
  - pose proof (Network_init_wf (AC:=IPv4Address) s net H) as Hwf.
    pose proof Hwf as (Hp & _).
    change (_max_prefixlen (Version:=_BaseV4)) with 32 in Hp.
    split; [exact (num_addresses_ok net Hwf)|]. split; [|split].
    + intros d Hd. destruct (Z.eq_dec (_prefixlen net) 32) as [E|E].
      * rewrite (calculate_ipv4_single s net H E) in Hd. discriminate.
      * destruct (calculate_ipv4_dict s net H ltac:(lia))
          as (ns & bs & fs & ls & _ & _ & _ & _ & Hc).
        rewrite Hc in Hd. injection Hd as <-. reflexivity.
    + intros Hlt.
      destruct (calculate_ipv4_dict s net H Hlt)
        as (ns & bs & fs & ls & _ & _ & _ & _ & Hc).
      eexists. exact Hc.
    + intros E. pose proof (num_addresses_ok net Hwf) as Hn.
      change (_max_prefixlen (Version:=_BaseV4)) with 32 in Hn.
      rewrite E in Hn. split; [exact Hn|].
      pose proof (calculate_ipv4_single s net H E) as Hc.
      split; [exact Hc|].
      unfold main.
      cbn -[calculate_ipv4_subnet_info calculate_ipv6_subnet_info print_subnet_info].
      rewrite Hc. reflexivity.
  - pose proof (Network_init_wf (AC:=IPv6Address) s net H) as Hwf.
    pose proof Hwf as (Hp & _).
    change (_max_prefixlen (Version:=_BaseV6)) with 128 in Hp.
    split; [exact (num_addresses_ok net Hwf)|]. split; [|split].
    + intros d Hd. destruct (Z.eq_dec (_prefixlen net) 128) as [E|E].
      * rewrite (calculate_ipv6_single s net H E) in Hd. discriminate.
      * destruct (calculate_ipv6_dict s net H ltac:(lia))
          as (ns & fs & ls & _ & _ & _ & Hc).
        rewrite Hc in Hd. injection Hd as <-. reflexivity.
    + intros Hlt.
      destruct (calculate_ipv6_dict s net H Hlt) as (ns & fs & ls & _ & _ & _ & Hc).
      eexists. exact Hc.
    + intros E. pose proof (num_addresses_ok net Hwf) as Hn.
      change (_max_prefixlen (Version:=_BaseV6)) with 128 in Hn.
      rewrite E in Hn. split; [exact Hn|].
      pose proof (calculate_ipv6_single s net H E) as Hc.
      split; [exact Hc|].
      unfold main.
      cbn -[calculate_ipv4_subnet_info calculate_ipv6_subnet_info print_subnet_info].
      rewrite Hc. reflexivity.
Qed.

(** C1 at [10.0.0.1/32] and at [2001:db8::1/128]: networks of one address,
    for which the calculators return no count. *)
Lemma C1_total_addresses_lost_at_one_address_witness :
  (num_addresses (Build_Network _ IPv4Address
                    {| v4_ip := 167772161 |} {| v4_ip := 4294967295 |} 32)
   = Ok 1 /\
   calculate_ipv4_subnet_info "10.0.0.1/32"
   = Ok (PyStr "An unexpected error occurred: address out of range") /\
   main [Opt4; Positional "10.0.0.1/32"]
   = {| output := [Stdout "An unexpected error occurred: address out of range"];
        exit_status := 0 |}) /\
  (num_addresses (Build_Network _ IPv6Address
                    {| v6_ip := 42540766411282592856903984951653826561;
                       _scope_id := None |}
                    {| v6_ip := 340282366920938463463374607431768211455;
                       _scope_id := None |} 128)
   = Ok 1 /\
   calculate_ipv6_subnet_info "2001:db8::1/128"
   = Ok (PyStr "An unexpected error occurred: address out of range") /\
   main [Opt6; Positional "2001:db8::1/128"]
   = {| output := [Stdout "An unexpected error occurred: address out of range"];
        exit_status := 0 |}).
Proof.
  split.
  - refine (proj2 (proj2 (proj2 (proj1 C1_total_addresses_lost_at_one_address
              "10.0.0.1/32" _ _))) _); reflexivity.
  - refine (proj2 (proj2 (proj2 (proj2 C1_total_addresses_lost_at_one_address
              "2001:db8::1/128" _ _))) _); reflexivity.
Defined.

(** C2. At a one-address network the calculators do not return a
    dictionary: [network[1]] raises [IndexError], which the second handler
    turns into the text of an unexpected error.  The input [10.0.0.1/32]
    under [-4] prints that text and no "Total Addresses" line. *)
Theorem C2_single_address_unexpected_error :
  calculate_ipv4_subnet_info "10.0.0.1/32"
  = Ok (PyStr "An unexpected error occurred: address out of range") /\
  calculate_ipv6_subnet_info "2001:db8::1/128"
  = Ok (PyStr "An unexpected error occurred: address out of range") /\
  main [Opt4; Positional "10.0.0.1/32"]
  = {| output := [Stdout "An unexpected error occurred: address out of range"];
       exit_status := 0 |}.
Proof. repeat split; vm_compute; reflexivity. Qed.

(** C3. In every dictionary the calculators return, the addresses behind
    the entries are in numeric order: the network address is at most the
    first and the last usable address, and these are at most the broadcast
    address (IPv4) or the last usable address (IPv6).  For IPv4 the entries
    also read back as these addresses.  An IPv4 [/31] is
    included: there the last usable address, [network[-2]], is the
    network address. *)
Theorem C3_ordering_invariant :
  (forall s d,
     calculate_ipv4_subnet_info s = Ok (PyDict d) ->
     exists net, IPv4Network s false = Ok net /\ ordered_ipv4 net d)
  /\
  (forall s d,
     calculate_ipv6_subnet_info s = Ok (PyDict d) ->
     exists net, IPv6Network s false = Ok net /\ ordered_ipv6 net d).
Proof.
  split; intros s d Hd.
  - destruct (calculate_ipv4_cases s) as [[e He] | (net & Hn & Hp)].
    { rewrite (calculate_ipv4_invalid s e He) in Hd. discriminate. }
    destruct (Z.eq_dec (_prefixlen net) 32) as [E|E].
    { rewrite (calculate_ipv4_single s net Hn E) in Hd. discriminate. }
    pose proof (Network_init_wf (AC:=IPv4Address) s net Hn) as Hwf.
    destruct (calculate_ipv4_dict s net Hn ltac:(lia))
      as (ns & bs & fs & ls & Ens & Ebs & Efs & Els & Hc).
    rewrite Hc in Hd. injection Hd as <-.
    exists net. split; [exact Hn|].
    destruct (v4_broadcast net Hwf) as [Eb _].
    pose proof (v4_first net Hwf ltac:(lia)) as Ef.
    pose proof (v4_last net Hwf ltac:(lia)) as El.
    pose proof (v4_network_range net Hwf) as Hr.
    assert (2 <= 2 ^ (32 - _prefixlen net)).
    { change 2 with (2 ^ 1) at 1. apply Z.pow_le_mono_r; lia. }
    assert (P32 : 2 ^ 32 = 4294967296) by reflexivity.
    pose proof (fun H => IPv4Address_reads_back _ _ H Ens) as Rn.
    specialize (Rn ltac:(lia)).
    pose proof (fun H => IPv4Address_reads_back _ _ H Ebs) as Rb.
    specialize (Rb ltac:(lia)).
    pose proof (fun H => IPv4Address_reads_back _ _ H Efs) as Rf.
    specialize (Rf ltac:(lia)).
    pose proof (fun H => IPv4Address_reads_back _ _ H Els) as Rl.
    specialize (Rl ltac:(lia)).
    rewrite v4_eta in Ens, Rn.
    eexists _, _, _. split; [exact Eb|]. split; [exact Ef|]. split; [exact El|].
    split; [eexists; split; [exact Ens | reflexivity]|].
    split; [eexists; split; [exact Ebs | reflexivity]|].
    split; [eexists; split; [exact Efs | reflexivity]|].
    split; [eexists; split; [exact Els | reflexivity]|].
    split; [eexists; split; [reflexivity | exact Rn]|].
    split; [eexists; split; [reflexivity | exact Rb]|].
    split; [eexists; split; [reflexivity | exact Rf]|].
    split; [eexists; split; [reflexivity | exact Rl]|].
    cbn [v4_ip]. lia.
  - destruct (calculate_ipv6_cases s) as [[e He] | (net & Hn & Hp)].
    { rewrite (calculate_ipv6_invalid s e He) in Hd. discriminate. }
    destruct (Z.eq_dec (_prefixlen net) 128) as [E|E].
    { rewrite (calculate_ipv6_single s net Hn E) in Hd. discriminate. }
    pose proof (Network_init_wf (AC:=IPv6Address) s net Hn) as Hwf.
    destruct (calculate_ipv6_dict s net Hn ltac:(lia))
      as (ns & fs & ls & Ens & Efs & Els & Hc).
    rewrite Hc in Hd. injection Hd as <-.
    exists net. split; [exact Hn|].
    pose proof (v6_first net Hwf ltac:(lia)) as Ef.
    pose proof (v6_last net Hwf) as El.
    pose proof (v6_network_range net Hwf) as Hr.
    assert (2 <= 2 ^ (128 - _prefixlen net)).
    { change 2 with (2 ^ 1) at 1. apply Z.pow_le_mono_r; lia. }
    eexists _, _. split; [exact Ef|]. split; [exact El|].
    split; [eexists; split; [exact Ens | reflexivity]|].
    split; [eexists; split; [exact Efs | reflexivity]|].
    split; [eexists; split; [exact Els | reflexivity]|].
    cbn [v6_ip]. lia.
Qed.

(** C3 at the IPv4 [/31] network of [10.0.0.1]: the entries are those of
    [10.0.0.0], [10.0.0.1] (first usable and broadcast) and [10.0.0.0]
    (last usable). *)
Lemma C3_ordering_invariant_witness :
  calculate_ipv4_subnet_info "10.0.0.1/31"
  = Ok (PyDict [("version", VInt 4); ("Input CIDR", VStr "10.0.0.0/31");
                ("Network Address", VStr "10.0.0.0");
                ("Broadcast Address", VStr "10.0.0.1");
                ("First usable Address", VStr "10.0.0.1");
                ("Last usable Address", VStr "10.0.0.0");
                ("Total Addresses", VInt 2)]) /\
  exists net,
    IPv4Network "10.0.0.1/31" false = Ok net /\
    ordered_ipv4 net
      [("version", VInt 4); ("Input CIDR", VStr "10.0.0.0/31");
       ("Network Address", VStr "10.0.0.0");
       ("Broadcast Address", VStr "10.0.0.1");
       ("First usable Address", VStr "10.0.0.1");
       ("Last usable Address", VStr "10.0.0.0");
       ("Total Addresses", VInt 2)].
Proof.
  split; [vm_compute; reflexivity|].
  apply (proj1 C3_ordering_invariant "10.0.0.1/31"). vm_compute. reflexivity.
Defined.

(** C5.  [print_subnet_info] puts the colon right after the label and pads
    after it up to the column behind the widest label and its colon, so
    that the values are aligned and the colons are not; the layout of the
    specification (and of the comment above the padding) pads the label
    and puts the colon after the padding.  The integers are grouped by
    thousands and the strings are printed as they are in both.  The two
    layouts differ as soon as one label is shorter than another, and so on
    every dictionary the calculators return. *)
Theorem C5_colons_not_aligned :
  (forall d,
     exists width,
       Forall (fun kv => len (fst kv) <= width) d /\
       (width = 0 \/ In width (map (fun kv => len (fst kv)) d)) /\
       print_subnet_info d
       = map (fun kv => "  " ++ fst kv ++ ":"
                        ++ spaces (Z.to_nat (width + 1 - len (fst kv)))
                        ++ render (snd kv))
             d)
  /\
  (forall d k v k' v',
     In (k, v) d -> In (k', v') d -> len k < len k' ->
     print_subnet_info d <> colon_aligned_lines d)
  /\
  (forall s d,
     calculate_ipv4_subnet_info s = Ok (PyDict d) \/
     calculate_ipv6_subnet_info s = Ok (PyDict d) ->
     print_subnet_info d <> colon_aligned_lines d).
Proof.
  split; [exact print_subnet_info_layout|].
  split; [exact layouts_differ|].
  intros s d [Hd | Hd].
  - destruct (calculate_ipv4_cases s) as [[e He] | (net & Hn & Hp)].
    { rewrite (calculate_ipv4_invalid s e He) in Hd. discriminate. }
    destruct (Z.eq_dec (_prefixlen net) 32) as [E|E].
    { rewrite (calculate_ipv4_single s net Hn E) in Hd. discriminate. }
    destruct (calculate_ipv4_dict s net Hn ltac:(lia))
      as (ns & bs & fs & ls & _ & _ & _ & _ & Hc).
    rewrite Hc in Hd. injection Hd as <-.
    apply (layouts_differ _ "version" (VInt 4) "First usable Address" (VStr fs));
      [simpl; tauto | simpl; tauto | reflexivity].
  - destruct (calculate_ipv6_cases s) as [[e He] | (net & Hn & Hp)].
    { rewrite (calculate_ipv6_invalid s e He) in Hd. discriminate. }
    destruct (Z.eq_dec (_prefixlen net) 128) as [E|E].
    { rewrite (calculate_ipv6_single s net Hn E) in Hd. discriminate. }
    destruct (calculate_ipv6_dict s net Hn ltac:(lia))
      as (ns & fs & ls & _ & _ & _ & Hc).
    rewrite Hc in Hd. injection Hd as <-.
    apply (layouts_differ _ "version" (VInt 6) "First usable Address" (VStr fs));
      [simpl; tauto | simpl; tauto | reflexivity].
Qed.

(** C5 at a dictionary with the labels of [192.168.1.0/24] and a count of
    ten digits: what the program prints, the layout of the specification,
    and that they differ (in every line but the one of the widest
    label). *)
Lemma C5_colons_not_aligned_witness :
  print_subnet_info
    [("version", VInt 4); ("Input CIDR", VStr "192.168.1.0/24");
        ("Network Address", VStr "192.168.1.0");
        ("Broadcast Address", VStr "192.168.1.255");
        ("First usable Address", VStr "192.168.1.1");
        ("Last usable Address", VStr "192.168.1.254");
        ("Total Addresses", VInt 4294967296)]
  = ["  version:              4";
     "  Input CIDR:           192.168.1.0/24";
     "  Network Address:      192.168.1.0";
     "  Broadcast Address:    192.168.1.255";
     "  First usable Address: 192.168.1.1";
     "  Last usable Address:  192.168.1.254";
     "  Total Addresses:      4,294,967,296"] /\
  colon_aligned_lines
    [("version", VInt 4); ("Input CIDR", VStr "192.168.1.0/24");
        ("Network Address", VStr "192.168.1.0");
        ("Broadcast Address", VStr "192.168.1.255");
        ("First usable Address", VStr "192.168.1.1");
        ("Last usable Address", VStr "192.168.1.254");
        ("Total Addresses", VInt 4294967296)]
  = ["  version             : 4";
     "  Input CIDR          : 192.168.1.0/24";
     "  Network Address     : 192.168.1.0";
     "  Broadcast Address   : 192.168.1.255";
     "  First usable Address: 192.168.1.1";
     "  Last usable Address : 192.168.1.254";
     "  Total Addresses     : 4,294,967,296"] /\
  print_subnet_info
    [("version", VInt 4); ("Input CIDR", VStr "192.168.1.0/24");
        ("Network Address", VStr "192.168.1.0");
        ("Broadcast Address", VStr "192.168.1.255");
        ("First usable Address", VStr "192.168.1.1");
        ("Last usable Address", VStr "192.168.1.254");
        ("Total Addresses", VInt 4294967296)]
  <> colon_aligned_lines
    [("version", VInt 4); ("Input CIDR", VStr "192.168.1.0/24");
        ("Network Address", VStr "192.168.1.0");
        ("Broadcast Address", VStr "192.168.1.255");
        ("First usable Address", VStr "192.168.1.1");
        ("Last usable Address", VStr "192.168.1.254");
        ("Total Addresses", VInt 4294967296)].
Proof.
  split; [vm_compute; reflexivity|].
  split; [vm_compute; reflexivity|].
  apply (proj1 (proj2 C5_colons_not_aligned) _
           "version" (VInt 4) "First usable Address" (VStr "192.168.1.1"));
    [simpl; tauto | simpl; tauto | reflexivity].
Defined.

(** C6. For every valid IPv4 input: the network address is the bitwise AND
    of the address read and the mask of the prefix length, the broadcast
    address is the network address OR the inverted mask, the first usable
    address is the network address plus one, the last usable address is the
    broadcast address minus one, and the count is [2^(32 - prefixlen)];
    these are the entries of every dictionary the calculator returns, and
    it returns one whenever the prefix is shorter than 32.  At prefix
    length 32 the network has one address, [network[1]] raises
    [IndexError], and the calculator returns the text of an unexpected
    error: it derives no first and no last usable address, and hands out
    no network, broadcast address or count either. *)
Theorem C6_ipv4_derivations_lost_at_one_address :
  forall s net,
    IPv4Network s false = Ok net ->
    ipv4_derivations s net /\
    (_prefixlen net = 32 ->
     broadcast_address net = Ok (network_address net) /\
     getitem net 1 = raise IndexError "address out of range" /\
     calculate_ipv4_subnet_info s
     = Ok (PyStr "An unexpected error occurred: address out of range")).
Proof.
  intros s net H.
  pose proof (Network_init_wf (AC:=IPv4Address) s net H) as Hwf.
  pose proof Hwf as (Hp & _).
  change (_max_prefixlen (Version:=_BaseV4)) with 32 in Hp.
  destruct (v4_broadcast net Hwf) as [Eb Ev].
  split.
  2:{ intros E. split; [|split].
      - rewrite Eb, E. change (2 ^ (32 - 32)) with 1.
        destruct (network_address net) as [n]. cbn [v4_ip].
        replace (n + 1 - 1) with n by lia. reflexivity.
      - rewrite (getitem_nonneg net Hwf 1) by lia.
        change (_max_prefixlen (Version:=_BaseV4)) with 32.
        rewrite E. reflexivity.
      - exact (calculate_ipv4_single s net H E). }
  destruct (Network_init_inv (AC:=IPv4Address) s net H)
    as (addr & mask & a & Hs & Ha & Hm & Hn & Hc).
  cbn [of_str _make_netmask int_ IPv4Address] in Ha, Hm, Hn, Hc.
  exists addr, mask, a. split; [exact Hs|]. split; [exact Ha|]. split; [exact Hm|].
  cbv zeta.
  assert (En : network_address net
               = {| v4_ip := Z.land (v4_ip a) (v4_ip (netmask net)) |}).
  { rewrite <- Hn. symmetry. apply v4_eta. }
  rewrite Hn in Ev.
  split; [exact Hp|]. split.
  { pose proof (spec_returns _ _ _ _ (make_netmask_spec (AC:=IPv4Address) mask) Hm)
      as [_ Hnm]. cbn [fst snd] in Hnm.
    exact (netmask_value (AC:=IPv4Address) _ _ Hp Hnm). }
  split; [exact En|].
  split; [rewrite Ev, <- Hn; exact Eb|].
  split; [exact (num_addresses_ok net Hwf)|].
  split.
  { intros Hlt. rewrite Ev, <- Hn. split; [exact (v4_first net Hwf Hlt)|].
    rewrite (v4_last net Hwf Hlt). do 2 f_equal. lia. }
  split.
  - intros d Hd. destruct (Z.eq_dec (_prefixlen net) 32) as [E|E].
    { rewrite (calculate_ipv4_single s net H E) in Hd. discriminate. }
    destruct (calculate_ipv4_dict s net H ltac:(lia))
      as (ns & bs & fs & ls & Ens & Ebs & Efs & Els & Hcalc).
    rewrite Hcalc in Hd. injection Hd as <-.
    exists ns, bs, fs, ls. rewrite Ev, <- Hn.
    split; [exact Ens|]. split; [exact Ebs|]. split; [exact Efs|].
    split; [|reflexivity].
    rewrite <- Els. do 2 f_equal. lia.
  - intros Hlt.
    destruct (calculate_ipv4_dict s net H Hlt)
      as (ns & bs & fs & ls & _ & _ & _ & _ & Hcalc).
    eexists. exact Hcalc.
Qed.

(** C6 at [10.0.0.1/32]: the network of the one address 10.0.0.1, for
    which the calculator returns no derived address. *)
Lemma C6_ipv4_derivations_lost_at_one_address_witness :
  IPv4Network "10.0.0.1/32" false
  = Ok (Build_Network _ IPv4Address
          {| v4_ip := 167772161 |} {| v4_ip := 4294967295 |} 32) /\
  broadcast_address (Build_Network _ IPv4Address
                       {| v4_ip := 167772161 |} {| v4_ip := 4294967295 |} 32)
  = Ok {| v4_ip := 167772161 |} /\
  getitem (Build_Network _ IPv4Address
             {| v4_ip := 167772161 |} {| v4_ip := 4294967295 |} 32) 1
  = raise IndexError "address out of range" /\
  calculate_ipv4_subnet_info "10.0.0.1/32"
  = Ok (PyStr "An unexpected error occurred: address out of range").
Proof.
  split; [reflexivity|].
  refine (proj2 (C6_ipv4_derivations_lost_at_one_address "10.0.0.1/32" _ _) _);
    reflexivity.
Defined.

(** C7, as amended.  A text whose address has host bits gives exactly the
    result of the text with these bits cleared: for IPv4 always, for IPv6
    when the text with the bits cleared carries no zone identifier.  In
    particular [192.168.1.5/24] and [192.168.1.0/24] give the same
    result. *)
Theorem C7_host_bits_discarded :
  (forall s s0,
     host_bits_cleared_v4 s s0 ->
     calculate_ipv4_subnet_info s = calculate_ipv4_subnet_info s0)
  /\
  (forall s s0,
     host_bits_cleared_v6 (fun _ zone0 => zone0 = None) s s0 ->
     calculate_ipv6_subnet_info s = calculate_ipv6_subnet_info s0)
  /\
  calculate_ipv4_subnet_info "192.168.1.5/24"
  = calculate_ipv4_subnet_info "192.168.1.0/24".
Proof.
  split; [|split].
  - intros s s0 (a & a0 & p & Hs & Hs0 & _ & E).
    apply calculate_ipv4_ext.
    rewrite (IPv4Network_reads s a p Hs), (IPv4Network_reads s0 a0 p Hs0).
    rewrite E, network_bits_idem. reflexivity.
  - intros s s0 (a & a0 & p & Hs & Hs0 & Hh & E & Hz).
    apply calculate_ipv6_ext.
    rewrite (IPv6Network_reads s a p Hs), (IPv6Network_reads s0 a0 p Hs0).
    destruct (Z.eqb_spec (network_bits (V:=_BaseV6) (v6_ip a) p) (v6_ip a));
      [contradiction|].
    rewrite E, network_bits_idem, Z.eqb_refl.
    destruct a0 as [x z]. cbn [v6_ip _scope_id] in *. subst. reflexivity.
  - vm_compute. reflexivity.
Qed.

(** C7 as amended, at [192.168.1.5/24] and at [fe80::1%eth0/64] against
    [fe80::/64]. *)
Lemma C7_host_bits_discarded_witness :
  host_bits_cleared_v4 "192.168.1.5/24" "192.168.1.0/24" /\
  calculate_ipv4_subnet_info "192.168.1.5/24"
  = calculate_ipv4_subnet_info "192.168.1.0/24" /\
  calculate_ipv6_subnet_info "fe80::1%eth0/64"
  = calculate_ipv6_subnet_info "fe80::/64".
Proof.
  assert (H4 : host_bits_cleared_v4 "192.168.1.5/24" "192.168.1.0/24").
  { exists {| v4_ip := 3232235781 |}, {| v4_ip := 3232235776 |}, 24.
    split; [do 3 eexists; repeat split; reflexivity|].
    split; [do 3 eexists; repeat split; reflexivity|].
    split; [vm_compute; discriminate | vm_compute; reflexivity]. }
  split; [exact H4|]. split.
  - exact (proj1 C7_host_bits_discarded _ _ H4).
  - apply (proj1 (proj2 C7_host_bits_discarded)).
    exists {| v6_ip := 338288524927261089654018896841347694593;
              _scope_id := Some "eth0" |},
           {| v6_ip := 338288524927261089654018896841347694592;
              _scope_id := None |}, 64.
    split; [do 3 eexists; repeat split; reflexivity|].
    split; [do 3 eexists; repeat split; reflexivity|].
    split; [vm_compute; discriminate|].
    split; [vm_compute; reflexivity | reflexivity].
Defined.

(** C7 as stated fails for IPv6: [fe80::1%eth0/64] has host bits, and
    [fe80::%eth0/64] is the same text with them cleared, zone included;
    the first gives the network [fe80::/64], the second
    [fe80::%eth0/64]. *)
Lemma C7_counterexample :
  host_bits_cleared_v6 (fun zone zone0 => zone0 = zone)
    "fe80::1%eth0/64" "fe80::%eth0/64" /\
  calculate_ipv6_subnet_info "fe80::1%eth0/64"
  <> calculate_ipv6_subnet_info "fe80::%eth0/64" /\
  (exists d, calculate_ipv6_subnet_info "fe80::1%eth0/64" = Ok (PyDict d) /\
             get d "Input CIDR" = Some (VStr "fe80::/64")) /\
  (exists d, calculate_ipv6_subnet_info "fe80::%eth0/64" = Ok (PyDict d) /\
             get d "Input CIDR" = Some (VStr "fe80::%eth0/64")).
Proof.
  split; [|split; [|split]].
  - exists {| v6_ip := 338288524927261089654018896841347694593;
              _scope_id := Some "eth0" |},
           {| v6_ip := 338288524927261089654018896841347694592;
              _scope_id := Some "eth0" |}, 64.
    split; [do 3 eexists; repeat split; reflexivity|].
    split; [do 3 eexists; repeat split; reflexivity|].
    split; [vm_compute; discriminate|].
    split; [vm_compute; reflexivity | reflexivity].
  - vm_compute. discriminate.
  - eexists. split; vm_compute; reflexivity.
  - eexists. split; vm_compute; reflexivity.
Qed.

(** C8. A text that the selected family does not read as a network makes
    the calculator return, instead of a dictionary, the message of an
    invalid input followed by the reason the parser gave, and the program
    prints this one line and nothing else. *)
Theorem C8_invalid_input :
  (forall s e,
     IPv4Network s false = Raise e ->
     let message := "Error: Invalid IPv4 address or prefix. " ++ exn_str e in
     calculate_ipv4_subnet_info s = Ok (PyStr message) /\
     main [Opt4; Positional s]
     = {| output := [Stdout message]; exit_status := 0 |})
  /\
  (forall s e,
     IPv6Network s false = Raise e ->
     let message := "Error: Invalid IPv6 address or prefix. " ++ exn_str e in
     calculate_ipv6_subnet_info s = Ok (PyStr message) /\
     main [Opt6; Positional s]
     = {| output := [Stdout message]; exit_status := 0 |} /\
     main [Positional s]
     = {| output := [Stdout message]; exit_status := 0 |}).
Proof.
  split; intros s e H message.
  - pose proof (calculate_ipv4_invalid s e H) as Hc. split; [exact Hc|].
    unfold main. cbn -[calculate_ipv4_subnet_info calculate_ipv6_subnet_info].
    rewrite Hc. reflexivity.
  - pose proof (calculate_ipv6_invalid s e H) as Hc. split; [exact Hc|].
    split; unfold main;
      cbn -[calculate_ipv4_subnet_info calculate_ipv6_subnet_info];
      rewrite Hc; reflexivity.
Qed.

(** C8 at the malformed texts of the specification, at a prefix length out
    of range and at a literal of the other family. *)
Lemma C8_invalid_input_witness :
  main [Opt4; Positional "999.1.1.1/24"]
  = {| output :=
         [Stdout ("Error: Invalid IPv4 address or prefix. "
                  ++ "Octet 999 (> 255) not permitted in '999.1.1.1'")];
       exit_status := 0 |} /\
  main [Opt6; Positional "gg::/64"]
  = {| output :=
         [Stdout ("Error: Invalid IPv6 address or prefix. "
                  ++ "Only hex digits permitted in 'gg' in 'gg::'")];
       exit_status := 0 |} /\
  calculate_ipv4_subnet_info "10.0.0.0/33"
  = Ok (PyStr "Error: Invalid IPv4 address or prefix. '33' is not a valid netmask") /\
  calculate_ipv4_subnet_info "2001:db8::/32"
  = Ok (PyStr
          "Error: Invalid IPv4 address or prefix. Expected 4 octets in '2001:db8::'").
Proof.
  split; [|split; [|split]].
  - apply (proj1 C8_invalid_input "999.1.1.1/24"
             (Exn AddressValueError
                  "Octet 999 (> 255) not permitted in '999.1.1.1'")).
    reflexivity.
  - apply (proj2 C8_invalid_input "gg::/64"
             (Exn AddressValueError "Only hex digits permitted in 'gg' in 'gg::'")).
    reflexivity.
  - apply (proj1 C8_invalid_input "10.0.0.0/33"
             (Exn NetmaskValueError "'33' is not a valid netmask")).
    reflexivity.
  - apply (proj1 C8_invalid_input "2001:db8::/32"
             (Exn AddressValueError "Expected 4 octets in '2001:db8::'")).
    reflexivity.
Defined.

(** C9.  The exit status is 0 whenever the command line is accepted: the
    program then prints either the lines of the dictionary or, when the
    calculator failed, its message alone (on standard output).  Both [-4]
    and [-6], or no positional argument, end the program with status 2
    and nothing on standard output. *)
Theorem C9_exit_status :
  (forall argv args,
     parse_args argv = Parsed args ->
     let calculate := if Namespace.is_ipv4 args then calculate_ipv4_subnet_info
                      else calculate_ipv6_subnet_info in
     (exists d, calculate (Namespace.network_address args) = Ok (PyDict d) /\
                main argv = {| output := map Stdout (print_subnet_info d);
                               exit_status := 0 |}) \/
     (exists msg, calculate (Namespace.network_address args) = Ok (PyStr msg) /\
                  main argv = {| output := [Stdout msg]; exit_status := 0 |}))
  /\
  (forall argv,
     In Opt4 argv -> In Opt6 argv -> ~ In OptHelp argv ->
     exists msg, main argv = {| output := [StderrUsage msg]; exit_status := 2 |})
  /\
  (forall argv,
     (forall s, ~ In (Positional s) argv) -> ~ In OptHelp argv ->
     exists msg, main argv = {| output := [StderrUsage msg]; exit_status := 2 |}).
Proof.
  split; [|split].
  - intros argv args H calculate.
    destruct (main_parsed argv args H) as [(d & Hd & _ & Hm) | (msg & Hc & Hm)].
    + left. exists d. split; assumption.
    + right. exists msg. split; assumption.
  - intros argv H4 H6 Hh.
    destruct (parse_loop_conflict argv
                {| seen4 := false; seen6 := false; positional := None; extras := [] |}
                Hh eq_refl (or_intror H4) (or_intror H6)) as [msg Hm].
    exists msg. unfold main, parse_args. rewrite Hm. reflexivity.
  - intros argv Hn Hh.
    destruct (parse_loop_missing argv
                {| seen4 := false; seen6 := false; positional := None; extras := [] |}
                Hh eq_refl Hn) as [msg Hm].
    exists msg. unfold main, parse_args. rewrite Hm. reflexivity.
Qed.

(** C9 at four command lines: a success, an invalid address, both options,
    no address. *)
Lemma C9_exit_status_witness :
  exit_status (main [Opt4; Positional "192.168.1.0/24"]) = 0 /\
  main [Opt4; Positional "not-an-ip/24"]
  = {| output :=
         [Stdout ("Error: Invalid IPv4 address or prefix. "
                  ++ "Expected 4 octets in 'not-an-ip'")];
       exit_status := 0 |} /\
  (exists msg, main [Opt4; Opt6; Positional "2001:db8::/32"]
               = {| output := [StderrUsage msg]; exit_status := 2 |}) /\
  (exists msg, main [Opt6]
               = {| output := [StderrUsage msg]; exit_status := 2 |}).
Proof.
  split; [|split; [|split]].
  - destruct (proj1 C9_exit_status [Opt4; Positional "192.168.1.0/24"]
                {| Namespace.is_ipv4 := true; Namespace.is_ipv6 := false;
                   Namespace.network_address := "192.168.1.0/24" |} eq_refl)
      as [(d & _ & ->) | (msg & _ & ->)]; reflexivity.
  - vm_compute. reflexivity.
  - apply (proj1 (proj2 C9_exit_status)).
    + left. reflexivity.
    + right. left. reflexivity.
    + intros [C|[C|[C|[]]]]; discriminate.
  - apply (proj2 (proj2 C9_exit_status)).
    + intros s [C|[]]. discriminate.
    + intros [C|[]]. discriminate.
Defined.

(** C10. Both calculators return on every text, a dictionary or a string;
    no exception leaves them. *)
Theorem C10_calculators_total :
  forall s,
    ((exists d, calculate_ipv4_subnet_info s = Ok (PyDict d)) \/
     (exists msg, calculate_ipv4_subnet_info s = Ok (PyStr msg))) /\
    ((exists d, calculate_ipv6_subnet_info s = Ok (PyDict d)) \/
     (exists msg, calculate_ipv6_subnet_info s = Ok (PyStr msg))).
Proof.
  intros s. split.
  - destruct (calculate_ipv4_cases s) as [[e He] | (net & Hn & Hp)].
    + right. eexists. exact (calculate_ipv4_invalid s e He).
    + destruct (Z.eq_dec (_prefixlen net) 32) as [E|E].
      * right. eexists. exact (calculate_ipv4_single s net Hn E).
      * left. destruct (calculate_ipv4_dict s net Hn ltac:(lia))
          as (ns & bs & fs & ls & _ & _ & _ & _ & Hc).
        eexists. exact Hc.
  - destruct (calculate_ipv6_cases s) as [[e He] | (net & Hn & Hp)].
    + right. eexists. exact (calculate_ipv6_invalid s e He).
    + destruct (Z.eq_dec (_prefixlen net) 128) as [E|E].
      * right. eexists. exact (calculate_ipv6_single s net Hn E).
      * left. destruct (calculate_ipv6_dict s net Hn ltac:(lia))
          as (ns & fs & ls & _ & _ & _ & Hc).
        eexists. exact Hc.
Qed.

End Claims.

(* ================================================================= *)
(** ** Further properties: proofs *)

Module Coverage.
Import Py Notions CoverageNotions PyFacts ipaddress BaseFacts V4Facts V4Text V6Text
       DigitFacts NetworkFacts CalculatorFacts ReadingFacts DriverFacts ipcalc.

(** *** The shape of the text *)

Lemma split_two sep a m :
  contains sep a = false -> contains sep m = false ->
  split sep (a ++ String sep m) = [a; m].
Proof.
  intros Ha Hm. rewrite (split_app_sep sep a m Ha), (split_no_sep sep m Hm).
  reflexivity.
Qed.

(** A text without a slash is an address with the full prefix length. *)
Lemma _split_addr_prefix_bare {V : Version} s :
  contains "/" s = false ->
  _split_addr_prefix s = Ok (s, MaskInt _max_prefixlen).
Proof.
  intros H. unfold _split_addr_prefix, _split_optional_netmask.
  rewrite (split_no_sep "/" s H). reflexivity.
Qed.

(** A text with one slash is an address and the text of a mask. *)
Lemma _split_addr_prefix_mask {V : Version} a m :
  contains "/" a = false -> contains "/" m = false ->
  _split_addr_prefix (a ++ "/" ++ m) = Ok (a, MaskStr m).
Proof.
  intros Ha Hm. unfold _split_addr_prefix, _split_optional_netmask.
  change (a ++ "/" ++ m) with (a ++ String "/" m).
  rewrite (split_two "/" a m Ha Hm). reflexivity.
Qed.

Lemma IPv4Address_of_str_no_slash s a :
  IPv4Address_of_str s = Ok a -> contains "/" s = false.
Proof.
  unfold IPv4Address_of_str. destruct (contains "/" s); [discriminate | reflexivity].
Qed.

Lemma IPv6Address_of_str_no_slash s a :
  IPv6Address_of_str s = Ok a -> contains "/" s = false.
Proof.
  unfold IPv6Address_of_str. destruct (contains "/" s); [discriminate | reflexivity].
Qed.

(** X1. For every text the IPv6 network constructor accepts: the network
    address is the bitwise AND of the address read and the mask of the
    prefix length (and keeps the zone of the address only when no host bit
    was set), the last usable address is the network address OR the
    inverted mask, the first usable address is the network address plus
    one, and the count is [2^(128 - prefixlen)]; these are the entries of
    every dictionary the calculator returns, which has no broadcast entry,
    and it returns one whenever the prefix is shorter than 128. *)
Theorem X_ipv6_derivations :
  forall s net, IPv6Network s false = Ok net -> ipv6_derivations s net.
Proof.
  intros s net H.
  pose proof (Network_init_wf (AC:=IPv6Address) s net H) as Hwf.
  pose proof Hwf as (Hp & _).
  change (_max_prefixlen (Version:=_BaseV6)) with 128 in Hp.
  destruct (Network_init_inv (AC:=IPv6Address) s net H)
    as (addr & mask & a & Hs & Ha & Hm & Hn & Hc).
  cbn [of_str _make_netmask int_ IPv6Address] in Ha, Hm, Hn, Hc.
  exists addr, mask, a. split; [exact Hs|]. split; [exact Ha|]. split; [exact Hm|].
  cbv zeta.
  pose proof (broadcast_value net Hwf) as Ev.
  cbn [int_ IPv6Address] in Ev.
  change (_max_prefixlen (Version:=_BaseV6)) with 128 in Ev.
  change (_ALL_ONES (Version:=_BaseV6)) with (2 ^ 128 - 1) in Ev.
  rewrite Hn in Ev.
  pose proof (v6_last net Hwf) as El.
  split; [exact Hp|]. split.
  { pose proof (spec_returns _ _ _ _ (make_netmask_spec (AC:=IPv6Address) mask) Hm)
      as [_ Hnm]. cbn [fst snd] in Hnm.
    exact (netmask_value (AC:=IPv6Address) _ _ Hp Hnm). }
  split.
  { destruct Hc as [Hc | [Hne Hc]].
    - rewrite Hc in Hn |- *. rewrite <- Hn, Z.eqb_refl. destruct a; reflexivity.
    - apply IPv6Address_of_int_spec_eq in Hc. rewrite Hc.
      destruct (Z.eqb_spec (Z.land (v6_ip a) (v6_ip (netmask net))) (v6_ip a));
        [contradiction | reflexivity]. }
  split; [exact (num_addresses_ok net Hwf)|].
  split; [rewrite Ev, <- Hn; reflexivity|].
  split; [rewrite Ev, <- Hn; exact El|].
  split; [intros Hlt; rewrite <- Hn; exact (v6_first net Hwf Hlt)|].
  split.
  - intros d Hd. destruct (Z.eq_dec (_prefixlen net) 128) as [E|E].
    { rewrite (calculate_ipv6_single s net H E) in Hd. discriminate. }
    destruct (calculate_ipv6_dict s net H ltac:(lia))
      as (ns & fs & ls & Ens & Efs & Els & Hcalc).
    rewrite Hcalc in Hd. injection Hd as <-.
    exists ns, fs, ls. rewrite Ev, <- Hn.
    split; [exact Ens|]. split; [exact Efs|]. split; [exact Els|].
    split; reflexivity.
  - intros Hlt.
    destruct (calculate_ipv6_dict s net H Hlt)
      as (ns & fs & ls & _ & _ & _ & Hcalc).
    eexists. exact Hcalc.
Qed.

(** X1 at [2001:db8::/32]. *)
Lemma X_ipv6_derivations_witness :
  calculate_ipv6_subnet_info "2001:db8::/32"
  = Ok (PyDict [("version", VInt 6); ("Input CIDR", VStr "2001:db8::/32");
                ("Network Address", VStr "2001:db8::");
                ("First usable Address", VStr "2001:db8::1");
                ("Last usable Address",
                 VStr "2001:db8:ffff:ffff:ffff:ffff:ffff:ffff");
                ("Total Addresses", VInt 79228162514264337593543950336)]) /\
  ipv6_derivations "2001:db8::/32"
    (Build_Network _ IPv6Address
       {| v6_ip := 42540766411282592856903984951653826560; _scope_id := None |}
       {| v6_ip := 340282366841710300949110269838224261120; _scope_id := None |}
       32).
Proof.
  split; [vm_compute; reflexivity|].
  apply X_ipv6_derivations. reflexivity.
Defined.

(** *** A bare address *)

Lemma reads_as_bare_v4 s a :
  IPv4Address_of_str s = Ok a -> reads_as IPv4Address s a 32.
Proof.
  intros H. exists s, (MaskInt 32), {| v4_ip := 4294967295 |}.
  split; [exact (_split_addr_prefix_bare s (IPv4Address_of_str_no_slash s a H))|].
  split; [exact H | reflexivity].
Qed.

Lemma reads_as_bare_v6 s a :
  IPv6Address_of_str s = Ok a -> reads_as IPv6Address s a 128.
Proof.
  intros H.
  exists s, (MaskInt 128),
         {| v6_ip := 340282366920938463463374607431768211455; _scope_id := None |}.
  split; [exact (_split_addr_prefix_bare s (IPv6Address_of_str_no_slash s a H))|].
  split; [exact H | reflexivity].
Qed.

(** X2. A text that is an address on its own, without a prefix length, is
    taken as the network of this one address, and the calculators answer
    with the text of an unexpected error. *)
Theorem X_bare_address :
  (forall s a,
     IPv4Address_of_str s = Ok a ->
     calculate_ipv4_subnet_info s
     = Ok (PyStr "An unexpected error occurred: address out of range") /\
     main [Opt4; Positional s]
     = {| output := [Stdout "An unexpected error occurred: address out of range"];
          exit_status := 0 |})
  /\
  (forall s a,
     IPv6Address_of_str s = Ok a ->
     calculate_ipv6_subnet_info s
     = Ok (PyStr "An unexpected error occurred: address out of range") /\
     main [Positional s]
     = {| output := [Stdout "An unexpected error occurred: address out of range"];
          exit_status := 0 |}).
Proof.
  split; intros s a H.
  - pose proof (IPv4Network_reads s a 32 (reads_as_bare_v4 s a H)) as Hn.
    pose proof (calculate_ipv4_single s _ Hn eq_refl) as Hc.
    split; [exact Hc|].
    unfold main. cbn -[calculate_ipv4_subnet_info calculate_ipv6_subnet_info].
    rewrite Hc. reflexivity.
  - pose proof (IPv6Network_reads s a 128 (reads_as_bare_v6 s a H)) as Hn.
    pose proof (calculate_ipv6_single s _ Hn eq_refl) as Hc.
    split; [exact Hc|].
    unfold main. cbn -[calculate_ipv4_subnet_info calculate_ipv6_subnet_info].
    rewrite Hc. reflexivity.
Qed.

(** X2 at [192.168.1.7] and at [2001:db8::1]. *)
Lemma X_bare_address_witness :
  calculate_ipv4_subnet_info "192.168.1.7"
  = Ok (PyStr "An unexpected error occurred: address out of range") /\
  calculate_ipv6_subnet_info "2001:db8::1"
  = Ok (PyStr "An unexpected error occurred: address out of range").
Proof.
  split.
  - apply (proj1 X_bare_address "192.168.1.7" {| v4_ip := 3232235783 |}).
    reflexivity.
  - apply (proj2 X_bare_address "2001:db8::1"
             {| v6_ip := 42540766411282592856903984951653826561;
                _scope_id := None |}).
    reflexivity.
Defined.

(** *** Masks and prefix lengths as texts (IPv4) *)

Lemma prefix_texts_ok_v4 :
  forallb prefix_text_ok_v4 (map Z.of_nat (seq 0 33)) = true.
Proof. vm_compute. reflexivity. Qed.

Lemma netmask_texts_ok_v4 :
  forallb (fun p => mask_text_ok_v4 (netmask_int_v4 p) p) (map Z.of_nat (seq 0 33))
  = true.
Proof. vm_compute. reflexivity. Qed.

Lemma hostmask_texts_ok_v4 :
  forallb (fun p => mask_text_ok_v4 (hostmask_int_v4 p) p) (map Z.of_nat (seq 1 31))
  = true.
Proof. vm_compute. reflexivity. Qed.

Lemma in_seq_Z p lo n :
  Z.of_nat lo <= p < Z.of_nat lo + Z.of_nat n -> In p (map Z.of_nat (seq lo n)).
Proof.
  intros H. apply in_map_iff. exists (Z.to_nat p). split; [lia|].
  apply in_seq. lia.
Qed.

Lemma eta_v4 x (a : IPv4Address_t) : v4_ip a = x -> a = {| v4_ip := x |}.
Proof. destruct a. cbn. congruence. Qed.

Lemma prefix_text_v4 p :
  0 <= p <= 32 ->
  contains "/" (str_int p) = false /\
  _make_netmask_v4 (MaskStr (str_int p))
  = Ok ({| v4_ip := _ip_int_from_prefix (V:=_BaseV4) p |}, p).
Proof.
  intros H.
  pose proof (proj1 (forallb_forall _ _) prefix_texts_ok_v4 p
                (in_seq_Z p 0 33 ltac:(lia))) as Hc.
  unfold prefix_text_ok_v4 in Hc. cbv zeta in Hc.
  apply andb_true_iff in Hc as [H1 H2]. apply negb_true_iff in H1.
  split; [exact H1|].
  destruct (_make_netmask_v4 (MaskStr (str_int p))) as [[nm q]|]; [|discriminate].
  apply andb_true_iff in H2 as [H2 H3].
  apply Z.eqb_eq in H2, H3. subst q. rewrite (eta_v4 _ nm H2). reflexivity.
Qed.

Lemma mask_text_v4 mask p :
  mask_text_ok_v4 mask p = true ->
  exists t,
    V4._string_from_ip_int mask = Ok t /\
    contains "/" t = false /\
    _make_netmask_v4 (MaskStr t)
    = Ok ({| v4_ip := _ip_int_from_prefix (V:=_BaseV4) p |}, p).
Proof.
  unfold mask_text_ok_v4. intros Hc.
  destruct (V4._string_from_ip_int mask) as [t|]; [|discriminate].
  exists t. split; [reflexivity|].
  apply andb_true_iff in Hc as [H1 H2]. apply negb_true_iff in H1.
  split; [exact H1|].
  destruct (_make_netmask_v4 (MaskStr t)) as [[nm q]|]; [|discriminate].
  apply andb_true_iff in H2 as [H2 H3].
  apply Z.eqb_eq in H2, H3. subst q. rewrite (eta_v4 _ nm H2). reflexivity.
Qed.

(** The network depends on the mask through [_make_netmask] only. *)
Lemma Network_init_mask_ext {V : Version} {AC : AddressClass V} a m1 m2 strict :
  contains "/" a = false -> contains "/" m1 = false -> contains "/" m2 = false ->
  _make_netmask (MaskStr m1) = _make_netmask (MaskStr m2) ->
  Network_init (AC:=AC) (a ++ "/" ++ m1) strict
  = Network_init (AC:=AC) (a ++ "/" ++ m2) strict.
Proof.
  intros Ha H1 H2 E. unfold Network_init.
  rewrite (_split_addr_prefix_mask a m1 Ha H1), (_split_addr_prefix_mask a m2 Ha H2).
  cbn [bind]. rewrite E. reflexivity.
Qed.

(** X3. The IPv4 calculator takes the mask after the slash in dotted
    form as well: for an address text without a slash and a prefix length
    from 0 to 32, the netmask in dotted form gives the result of the prefix
    length in decimal, and so does the hostmask in dotted form for the
    prefix lengths from 1 to 31. *)
Theorem X_netmask_notation :
  forall a p,
    contains "/" a = false -> 0 <= p <= 32 ->
    (exists t,
       V4._string_from_ip_int (netmask_int_v4 p) = Ok t /\
       calculate_ipv4_subnet_info (a ++ "/" ++ t)
       = calculate_ipv4_subnet_info (a ++ "/" ++ str_int p)) /\
    (1 <= p <= 31 ->
     exists t,
       V4._string_from_ip_int (hostmask_int_v4 p) = Ok t /\
       calculate_ipv4_subnet_info (a ++ "/" ++ t)
       = calculate_ipv4_subnet_info (a ++ "/" ++ str_int p)).
Proof.
  intros a p Ha Hp.
  destruct (prefix_text_v4 p Hp) as [Hs Hm].
  split.
  - pose proof (proj1 (forallb_forall _ _) netmask_texts_ok_v4 p
                  (in_seq_Z p 0 33 ltac:(lia))) as Hc.
    destruct (mask_text_v4 _ _ Hc) as (t & Et & Hst & Hmt).
    exists t. split; [exact Et|].
    apply calculate_ipv4_ext. unfold IPv4Network.
    apply Network_init_mask_ext; try assumption.
    cbn [_make_netmask IPv4Address]. congruence.
  - intros Hp'.
    pose proof (proj1 (forallb_forall _ _) hostmask_texts_ok_v4 p
                  (in_seq_Z p 1 31 ltac:(lia))) as Hc.
    destruct (mask_text_v4 _ _ Hc) as (t & Et & Hst & Hmt).
    exists t. split; [exact Et|].
    apply calculate_ipv4_ext. unfold IPv4Network.
    apply Network_init_mask_ext; try assumption.
    cbn [_make_netmask IPv4Address]. congruence.
Qed.

(** X3 at [192.168.1.5] with [255.255.255.0] and with [0.0.0.255]. *)
Lemma X_netmask_notation_witness :
  calculate_ipv4_subnet_info "192.168.1.5/255.255.255.0"
  = calculate_ipv4_subnet_info "192.168.1.5/24" /\
  calculate_ipv4_subnet_info "192.168.1.5/0.0.0.255"
  = calculate_ipv4_subnet_info "192.168.1.5/24".
Proof.
  split.
  - destruct (proj1 (X_netmask_notation "192.168.1.5" 24 eq_refl ltac:(lia)))
      as (t & Et & E).
    injection Et as <-. exact E.
  - destruct (proj2 (X_netmask_notation "192.168.1.5" 24 eq_refl ltac:(lia))
                ltac:(lia))
      as (t & Et & E).
    injection Et as <-. exact E.
Defined.

(** *** The canonical text of an IPv4 network *)

Lemma reads_as_of_network_v4 s net :
  IPv4Network s false = Ok net ->
  exists a,
    reads_as IPv4Address s a (_prefixlen net) /\
    v4_ip (network_address net)
    = network_bits (V:=_BaseV4) (v4_ip a) (_prefixlen net).
Proof.
  intros H.
  destruct (Network_init_inv (AC:=IPv4Address) s net H)
    as (addr & mask & a & Hs & Ha & Hm & _).
  exists a.
  assert (R : reads_as IPv4Address s a (_prefixlen net)).
  { exists addr, mask, (netmask net). repeat split; assumption. }
  split; [exact R|].
  pose proof (IPv4Network_reads s a _ R) as E. rewrite H in E.
  injection E as E. rewrite E at 1. reflexivity.
Qed.

(** X4. The "Input CIDR" entry of an IPv4 dictionary is a text of the
    network that the calculator reads back: given this entry, the
    calculator returns the same dictionary. *)
Theorem X_input_cidr_canonical_v4 :
  forall s d,
    calculate_ipv4_subnet_info s = Ok (PyDict d) ->
    exists c,
      get d "Input CIDR" = Some (VStr c) /\
      calculate_ipv4_subnet_info c = Ok (PyDict d).
Proof.
  intros s d Hd.
  destruct (calculate_ipv4_cases s) as [[e He] | (net & Hn & Hp)].
  { rewrite (calculate_ipv4_invalid s e He) in Hd. discriminate. }
  destruct (Z.eq_dec (_prefixlen net) 32) as [E|E].
  { rewrite (calculate_ipv4_single s net Hn E) in Hd. discriminate. }
  pose proof (Network_init_wf (AC:=IPv4Address) s net Hn) as Hwf.
  destruct (calculate_ipv4_dict s net Hn ltac:(lia))
    as (ns & bs & fs & ls & Ens & _ & _ & _ & Hc).
  rewrite Hc in Hd. injection Hd as <-.
  exists (ns ++ "/" ++ str_int (_prefixlen net)). split; [reflexivity|].
  etransitivity; [|exact Hc].
  apply calculate_ipv4_ext.
  destruct (reads_as_of_network_v4 s net Hn) as (a & R & Ena).
  pose proof (v4_network_range net Hwf) as Hr.
  assert (P32 : 2 ^ 32 = 4294967296) by reflexivity.
  pose proof (fun H => IPv4Address_reads_back _ _ H Ens) as Rn.
  specialize (Rn ltac:(lia)).
  destruct (prefix_text_v4 (_prefixlen net) Hp) as [Hs Hm].
  assert (R' : reads_as IPv4Address (ns ++ "/" ++ str_int (_prefixlen net))
                 {| v4_ip := v4_ip (network_address net) |} (_prefixlen net)).
  { exists ns, (MaskStr (str_int (_prefixlen net))),
           {| v4_ip := _ip_int_from_prefix (V:=_BaseV4) (_prefixlen net) |}.
    split; [apply _split_addr_prefix_mask;
            [exact (IPv4Address_of_str_no_slash _ _ Rn) | exact Hs]|].
    split; [exact Rn | exact Hm]. }
  rewrite (IPv4Network_reads _ _ _ R'), (IPv4Network_reads _ _ _ R). cbn [v4_ip].
  rewrite Ena, network_bits_idem. reflexivity.
Qed.

(** X4 at the dictionary of [192.168.1.5/24], whose entry is
    [192.168.1.0/24]. *)
Lemma X_input_cidr_canonical_v4_witness :
  exists c,
    get [("version", VInt 4); ("Input CIDR", VStr "192.168.1.0/24");
         ("Network Address", VStr "192.168.1.0");
         ("Broadcast Address", VStr "192.168.1.255");
         ("First usable Address", VStr "192.168.1.1");
         ("Last usable Address", VStr "192.168.1.254");
         ("Total Addresses", VInt 256)] "Input CIDR" = Some (VStr c) /\
    calculate_ipv4_subnet_info c
    = Ok (PyDict [("version", VInt 4); ("Input CIDR", VStr "192.168.1.0/24");
                  ("Network Address", VStr "192.168.1.0");
                  ("Broadcast Address", VStr "192.168.1.255");
                  ("First usable Address", VStr "192.168.1.1");
                  ("Last usable Address", VStr "192.168.1.254");
                  ("Total Addresses", VInt 256)]).
Proof.
  apply (X_input_cidr_canonical_v4 "192.168.1.5/24"). vm_compute. reflexivity.
Defined.

(** *** Decimal texts and the thousands separator *)

Lemma digit_value_char base d :
  base = 10 \/ base = 16 -> 0 <= d < base ->
  digit_value base (digit_char d) = Some d.
Proof.
  intros Hb H.
  assert (C : d = 0 \/ d = 1 \/ d = 2 \/ d = 3 \/ d = 4 \/ d = 5 \/ d = 6 \/ d = 7 \/
              d = 8 \/ d = 9 \/ d = 10 \/ d = 11 \/ d = 12 \/ d = 13 \/ d = 14 \/
              d = 15) by lia.
  destruct Hb as [-> | ->];
    repeat (destruct C as [->|C]; [first [reflexivity | lia]|]);
    subst d; first [reflexivity | lia].
Qed.

Lemma digits_value_app base s t : forall acc,
  digits_value base acc (s ++ t)
  = match digits_value base acc s with
    | Some v => digits_value base v t
    | None => None
    end.
Proof.
  induction s as [|c r IH]; intros acc; simpl; [reflexivity|].
  destruct (digit_value base c); [apply IH | reflexivity].
Qed.

Lemma string_of_list_app (l1 l2 : list ascii) :
  string_of_list_ascii (l1 ++ l2)
  = string_of_list_ascii l1 ++ string_of_list_ascii l2.
Proof. induction l1 as [|c r IH]; simpl; [reflexivity | rewrite IH; reflexivity]. Qed.

(** The text of a list of digits, least significant first, reads as their
    value. *)
Lemma digits_value_rev base l : forall acc,
  base = 10 \/ base = 16 ->
  Forall (fun d => 0 <= d < base) l ->
  digits_value base acc (string_of_list_ascii (map digit_char (rev l)))
  = Some (acc * base ^ Z.of_nat (List.length l)
          + fold_right (fun d v => d + base * v) 0 l).
Proof.
  induction l as [|d r IH]; intros acc Hb Hl.
  - simpl. f_equal. lia.
  - inversion Hl as [|? ? Hd Hr]; subst.
    cbn [rev]. rewrite map_app, string_of_list_app, digits_value_app.
    rewrite (IH acc Hb Hr). cbn [map string_of_list_ascii digits_value].
    rewrite (digit_value_char base d Hb Hd). f_equal.
    cbn [fold_right List.length]. rewrite Nat2Z.inj_succ, Z.pow_succ_r by lia. lia.
Qed.

Lemma digits_rev_value base fuel : forall n,
  2 <= base -> 0 <= n < 2 ^ Z.of_nat fuel ->
  fold_right (fun d v => d + base * v) 0 (digits_rev base fuel n) = n.
Proof.
  induction fuel as [|f IH]; intros n Hb Hn.
  - simpl in Hn. assert (n = 0) by lia. subst. reflexivity.
  - cbn [digits_rev fold_right].
    destruct (Z.eqb_spec (n / base) 0) as [E|E].
    + cbn [fold_right]. rewrite (Z.div_mod n base) at 2 by lia. rewrite E. lia.
    + rewrite IH; [rewrite (Z.div_mod n base) at 3 by lia; lia | exact Hb |].
      rewrite Nat2Z.inj_succ, Z.pow_succ_r in Hn by lia.
      split; [apply Z.div_pos; lia|].
      apply Z.div_lt_upper_bound; [lia|]. nia.
Qed.

Lemma digits_value_of base n :
  2 <= base -> 0 <= n ->
  fold_right (fun d v => d + base * v) 0 (digits base n) = n.
Proof.
  intros Hb Hn. unfold digits. apply digits_rev_value; [exact Hb|].
  rewrite Nat2Z.inj_succ, Z2Nat.id by apply Z.log2_nonneg.
  destruct (Z.eq_dec n 0) as [->|Hz]; [cbn; lia|].
  pose proof (Z.log2_spec n ltac:(lia)). lia.
Qed.

Lemma digits_not_nil base n : digits base n <> [].
Proof. unfold digits. cbn [digits_rev]. discriminate. Qed.

Lemma digits_str_value base n :
  base = 10 \/ base = 16 -> 0 <= n ->
  digits_value base 0 (digits_str base n) = Some n.
Proof.
  intros Hb Hn. unfold digits_str.
  assert (Hb2 : 2 <= base) by lia.
  rewrite (digits_value_rev base (digits base n) 0 Hb)
    by (apply digits_rev_range; lia).
  rewrite (digits_value_of base n Hb2 Hn), Z.mul_0_l, Z.add_0_l. reflexivity.
Qed.

Lemma digits_str_not_empty base n : digits_str base n <> "".
Proof.
  unfold digits_str.
  destruct (digits base n) as [|d r] eqn:E; [destruct (digits_not_nil base n E)|].
  cbn [rev]. rewrite map_app, string_of_list_app.
  destruct (string_of_list_ascii (map digit_char (rev r))); discriminate.
Qed.

(** [int(str(n)) == n], and likewise in base 16. *)
Lemma int_of_digits_str base n :
  base = 10 \/ base = 16 -> 0 <= n ->
  int_of_str (digits_str base n) base = Ok n.
Proof.
  intros Hb Hn. pose proof (digits_str_value base n Hb Hn) as V.
  pose proof (digits_str_not_empty base n) as Hne.
  unfold int_of_str. destruct (digits_str base n); [congruence|].
  rewrite V. reflexivity.
Qed.

Lemma int_of_str_int n : 0 <= n -> int_of_str (str_int n) 10 = Ok n.
Proof.
  intros Hn. unfold str_int. destruct (Z.ltb_spec n 0); [lia|].
  apply int_of_digits_str; [left; reflexivity | exact Hn].
Qed.

(** Splitting at a separator that joins two texts. *)
Lemma split_app sep s t :
  split sep (s ++ String sep t) = (split sep s ++ split sep t)%list.
Proof.
  induction s as [|a r IH]; cbn [append split].
  - rewrite Ascii.eqb_refl. reflexivity.
  - destruct (Ascii.eqb a sep); [rewrite IH; reflexivity|].
    rewrite IH. destruct (split sep r) as [|h tl] eqn:E;
      [destruct (split_not_nil sep r E) | reflexivity].
Qed.

(** A text without the separator, put after another, extends its last
    part. *)
Lemma split_app_last sep t : forall s pre l,
  contains sep t = false ->
  split sep s = (pre ++ [l])%list ->
  split sep (s ++ t) = (pre ++ [(l ++ t)%string])%list.
Proof.
  intros s pre l Ht. revert pre l.
  induction s as [|a r IH]; intros pre l E; cbn [append split] in *.
  - destruct pre as [|x pre]; [|destruct pre; discriminate].
    injection E as <-. cbn. apply split_no_sep. exact Ht.
  - destruct (Ascii.eqb a sep).
    + destruct pre as [|x pre].
      * injection E as _ E. destruct (split_not_nil sep r E).
      * injection E as <- E. rewrite (IH pre l E). reflexivity.
    + destruct (split sep r) as [|h tl] eqn:Er; [destruct (split_not_nil sep r Er)|].
      destruct pre as [|x pre].
      * injection E as <- ->. rewrite (IH [] h eq_refl). reflexivity.
      * injection E as <- ->. rewrite (IH (h :: pre) l eq_refl). reflexivity.
Qed.

Lemma without_of_list c l :
  without c (string_of_list_ascii l)
  = string_of_list_ascii (filter (fun a => negb (Ascii.eqb a c)) l).
Proof.
  induction l as [|a r IH]; simpl; [reflexivity|].
  destruct (Ascii.eqb a c); simpl; rewrite IH; reflexivity.
Qed.

Lemma filter_rev {A} (f : A -> bool) l : filter f (rev l) = rev (filter f l).
Proof.
  induction l as [|a r IH]; simpl; [reflexivity|].
  rewrite filter_app, IH. simpl. destruct (f a); simpl;
    [reflexivity | apply app_nil_r].
Qed.

(** Grouping only adds commas. *)
Lemma group_thousands_filter ds : forall k,
  Forall (fun a => Ascii.eqb a "," = false) ds ->
  filter (fun a => negb (Ascii.eqb a ",")) (group_thousands ds k) = ds.
Proof.
  induction ds as [|d r IH]; intros k H; [reflexivity|].
  inversion H as [|? ? Hd Hr]; subst. cbn [group_thousands].
  destruct (Nat.eqb k 3); cbn [filter]; rewrite ?Ascii.eqb_refl; cbn [negb];
    rewrite Hd; cbn [negb]; rewrite (IH _ Hr); reflexivity.
Qed.

Lemma digit_char_not_comma d : 0 <= d < 10 -> Ascii.eqb (digit_char d) "," = false.
Proof.
  intros H.
  assert (C : d = 0 \/ d = 1 \/ d = 2 \/ d = 3 \/ d = 4 \/ d = 5 \/ d = 6 \/ d = 7 \/
              d = 8 \/ d = 9) by lia.
  repeat (destruct C as [->|C]; [reflexivity|]). subst d. reflexivity.
Qed.

Lemma decimal_digits_no_comma n :
  0 <= n ->
  Forall (fun a => Ascii.eqb a "," = false) (map digit_char (digits 10 n)).
Proof.
  intros Hn. apply Forall_map.
  eapply Forall_impl; [|apply (digits_rev_range 10); lia].
  intros d Hd. apply digit_char_not_comma. exact Hd.
Qed.

Lemma contains_of_list c l :
  Forall (fun a => Ascii.eqb a c = false) l ->
  contains c (string_of_list_ascii l) = false.
Proof.
  induction 1 as [|a r Ha _ IH]; simpl; [reflexivity|]. rewrite Ha, IH. reflexivity.
Qed.

(** The groups, from the left: the last one holds what the current group
    still takes, the first one from one to three digits, the others three. *)
Lemma group_thousands_split ds : forall k,
  (k <= 3)%nat ->
  Forall (fun a => Ascii.eqb a "," = false) ds ->
  exists pre l,
    split "," (string_of_list_ascii (rev (group_thousands ds k)))
    = (pre ++ [l])%list /\
    String.length l = Nat.min (List.length ds) (3 - k) /\
    ((pre = [] /\ (List.length ds <= 3 - k)%nat) \/
     (exists first mid,
        pre = first :: mid /\ (1 <= String.length first <= 3)%nat /\
        Forall (fun g => String.length g = 3%nat) mid /\
        (3 - k < List.length ds)%nat)).
Proof.
  induction ds as [|d r IH]; intros k Hk H.
  - exists [], "". cbn. split; [reflexivity|]. split; [reflexivity|].
    left. split; [reflexivity | lia].
  - inversion H as [|? ? Hd Hr]; subst. cbn [group_thousands].
    assert (Hdc : contains "," (String d "") = false).
    { cbn. rewrite Hd. reflexivity. }
    destruct (Nat.eqb_spec k 3) as [->|Hk3].
    + destruct (IH 1%nat ltac:(lia) Hr) as (pre & l & Es & Hl & Hc).
      cbn [rev]. rewrite <- app_assoc. cbn [app].
      rewrite string_of_list_app.
      change (string_of_list_ascii [d; ","%char]) with (String d "" ++ String "," "").
      rewrite <- append_assoc, split_app.
      rewrite (split_app_last "," (String d "") _ pre l Hdc Es).
      exists (pre ++ [(l ++ String d "")%string])%list, "".
      split; [reflexivity|]. split; [cbn; lia|]. right.
      destruct Hc as [[-> Hlen] | (first & mid & -> & Hf & Hm & Hlen)].
      * exists (l ++ String d ""), []. split; [reflexivity|].
        rewrite length_app_string. cbn [String.length].
        split; [lia|]. split; [constructor | cbn; lia].
      * exists first, (mid ++ [(l ++ String d "")%string])%list. split; [reflexivity|].
        split; [exact Hf|]. split; [|cbn; lia].
        apply Forall_app. split; [exact Hm|]. constructor; [|constructor].
        rewrite length_app_string. cbn [String.length]. lia.
    + destruct (IH (S k) ltac:(lia) Hr) as (pre & l & Es & Hl & Hc).
      cbn [rev]. rewrite string_of_list_app.
      change (string_of_list_ascii [d]) with (String d "").
      rewrite (split_app_last "," (String d "") _ pre l Hdc Es).
      exists pre, (l ++ String d ""). split; [reflexivity|].
      split; [rewrite length_app_string; cbn [String.length List.length]; lia|].
      destruct Hc as [[-> Hlen] | (first & mid & -> & Hf & Hm & Hlen)].
      * left. split; [reflexivity | cbn [List.length]; lia].
      * right. exists first, mid. split; [reflexivity|].
        split; [exact Hf|]. split; [exact Hm | cbn [List.length]; lia].
Qed.

(** X5. The thousands separator of [print_subnet_info] only adds commas:
    without them the text of an integer is its decimal text, which reads
    back as the integer; the commas cut the text of a non-negative integer
    into a first group of one to three digits and groups of three. *)
Theorem X_format_comma :
  (forall n, without "," (format_comma n) = str_int n)
  /\
  (forall n,
     0 <= n ->
     int_of_str (without "," (format_comma n)) 10 = Ok n /\
     exists first rest,
       split "," (format_comma n) = first :: rest /\
       1 <= len first <= 3 /\
       Forall (fun g => len g = 3) rest).
Proof.
  assert (W : forall n, 0 <= n ->
                without "," (string_of_list_ascii
                               (rev (group_thousands (map digit_char (digits 10 n)) 0)))
                = digits_str 10 n).
  { intros n Hn. rewrite without_of_list, filter_rev.
    rewrite (group_thousands_filter _ 0 (decimal_digits_no_comma n Hn)).
    unfold digits_str. rewrite map_rev. reflexivity. }
  assert (A : forall n, without "," (format_comma n) = str_int n).
  { intros n. unfold format_comma, str_int. cbv zeta.
    destruct (Z.ltb_spec n 0) as [Hneg|Hpos].
    - cbn [without]. replace (Ascii.eqb "-" ",") with false by reflexivity.
      rewrite Z.abs_neq by lia. rewrite W by lia. reflexivity.
    - rewrite Z.abs_eq by lia. apply W. exact Hpos. }
  split; [exact A|].
  intros n Hn. split; [rewrite A; apply int_of_str_int; exact Hn|].
  unfold format_comma. cbv zeta. destruct (Z.ltb_spec n 0); [lia|].
  rewrite Z.abs_eq by lia.
  destruct (group_thousands_split (map digit_char (digits 10 n)) 0 ltac:(lia)
              (decimal_digits_no_comma n Hn)) as (pre & l & Es & Hl & Hc).
  rewrite Es. rewrite length_map in Hl, Hc.
  assert (Hne : (1 <= List.length (digits 10 n))%nat).
  { destruct (digits 10 n) eqn:E; [destruct (digits_not_nil 10 n E) | cbn; lia]. }
  unfold len.
  destruct Hc as [[-> Hlen] | (first & mid & -> & Hf & Hm & Hlen)].
  - exists l, []. split; [reflexivity|]. split; [lia | constructor].
  - exists first, (mid ++ [l])%list. split; [reflexivity|]. split; [lia|].
    apply Forall_app. split.
    + eapply Forall_impl; [|exact Hm]. intros g Hg. cbv beta in Hg. lia.
    + constructor; [lia | constructor].
Qed.

(** X5 at [2^96], the count of an IPv6 [/32]. *)
Lemma X_format_comma_witness :
  format_comma 79228162514264337593543950336
  = "79,228,162,514,264,337,593,543,950,336" /\
  int_of_str (without "," (format_comma 79228162514264337593543950336)) 10
  = Ok 79228162514264337593543950336.
Proof.
  split; [vm_compute; reflexivity|].
  apply (proj2 X_format_comma 79228162514264337593543950336). lia.
Defined.

(** *** The command line *)

(** Without [-4], two states of the parser that differ in [seen6] only
    end alike: with the same exit, or with the same address and no IPv4
    flag. *)
Lemma parse_loop_seen6 argv : forall st st',
  ~ In Opt4 argv ->
  seen4 st = false -> seen4 st' = false ->
  positional st = positional st' -> extras st = extras st' ->
  match parse_loop st argv, parse_loop st' argv with
  | SystemExit a o, SystemExit a' o' => a = a' /\ o = o'
  | Parsed x, Parsed y =>
      Namespace.is_ipv4 x = false /\ Namespace.is_ipv4 y = false /\
      Namespace.network_address x = Namespace.network_address y
  | _, _ => False
  end.
Proof.
  induction argv as [|a r IH]; intros st st' H4 S S' P X.
  - cbn [parse_loop]. rewrite <- P, <- X.
    destruct (positional st); [|split; reflexivity].
    destruct (extras st); [|split; reflexivity].
    cbn. auto.
  - assert (H4' : ~ In Opt4 r) by (intros C; apply H4; right; exact C).
    destruct a; cbn [parse_loop].
    + exfalso. apply H4. left. reflexivity.
    + rewrite S, S'. apply IH; auto.
    + split; reflexivity.
    + apply IH; cbn; auto. rewrite X. reflexivity.
    + split; reflexivity.
    + rewrite <- P. destruct (positional st); apply IH; cbn; auto.
      rewrite X. reflexivity.
Qed.

Lemma main_of_parse argv argv' :
  match parse_args argv, parse_args argv' with
  | SystemExit a o, SystemExit a' o' => a = a' /\ o = o'
  | Parsed x, Parsed y =>
      Namespace.is_ipv4 x = false /\ Namespace.is_ipv4 y = false /\
      Namespace.network_address x = Namespace.network_address y
  | _, _ => False
  end ->
  main argv = main argv'.
Proof.
  unfold main.
  destruct (parse_args argv) as [[v4 v6 ip]|a o],
           (parse_args argv') as [[v4' v6' ip']|a' o']; try contradiction.
  - cbn [Namespace.is_ipv4 Namespace.is_ipv6 Namespace.network_address].
    intros (-> & -> & ->). destruct v6, v6'; reflexivity.
  - intros [-> ->]. reflexivity.
Qed.

(** A [-6] may be left out wherever it stands. *)
Lemma parse_loop_drop6 before after : forall st,
  seen4 st = false -> ~ In Opt4 (before ++ after) ->
  match parse_loop st (before ++ Opt6 :: after),
        parse_loop st (before ++ after) with
  | SystemExit a o, SystemExit a' o' => a = a' /\ o = o'
  | Parsed x, Parsed y =>
      Namespace.is_ipv4 x = false /\ Namespace.is_ipv4 y = false /\
      Namespace.network_address x = Namespace.network_address y
  | _, _ => False
  end.
Proof.
  induction before as [|a r IH]; intros st S H4.
  - cbn [app parse_loop]. rewrite S. apply parse_loop_seen6; auto.
  - assert (H4' : ~ In Opt4 (r ++ after)) by (intros C; apply H4; right; exact C).
    destruct a; cbn [app parse_loop].
    + exfalso. apply H4. left. reflexivity.
    + rewrite S. apply IH; auto.
    + split; reflexivity.
    + apply IH; auto.
    + split; reflexivity.
    + destruct (positional st); apply IH; auto.
Qed.

(** X6. IPv6 is the default: on a command line without [-4], a [-6]
    changes nothing, wherever it stands. *)
Theorem X_default_family :
  forall before after,
    ~ In Opt4 (before ++ after) ->
    main (before ++ Opt6 :: after) = main (before ++ after).
Proof.
  intros before after H4. apply main_of_parse. unfold parse_args.
  apply parse_loop_drop6; [reflexivity | exact H4].
Qed.

(** X6 with the [-6] before and after the address. *)
Lemma X_default_family_witness :
  main [Opt6; Positional "2001:db8::/32"] = main [Positional "2001:db8::/32"] /\
  main [Positional "192.168.1.0/24"; Opt6] = main [Positional "192.168.1.0/24"].
Proof.
  split.
  - apply (X_default_family [] [Positional "2001:db8::/32"]).
    intros [C|[]]. discriminate.
  - apply (X_default_family [Positional "192.168.1.0/24"] []).
    intros [C|[]]. discriminate.
Defined.

(** An accepted command line, for any state of the parser in which the
    two options have not both been seen. *)
Lemma parse_loop_parsed argv : forall st args,
  seen4 st && seen6 st = false ->
  (parse_loop st argv = Parsed args <->
   plain argv = true /\
   (seen4 st || has4 argv) && (seen6 st || has6 argv) = false /\
   extras st = [] /\
   (match positional st with Some ip => [ip] | None => [] end ++ positionals argv
    = [Namespace.network_address args])%list /\
   Namespace.is_ipv4 args = seen4 st || has4 argv /\
   Namespace.is_ipv6 args = seen6 st || has6 argv).
Proof.
  induction argv as [|a r IH]; intros st args Hb.
  - cbn [parse_loop plain has4 has6 positionals forallb existsb flat_map].
    rewrite !orb_false_r, app_nil_r. destruct args as [v4 v6 ip].
    cbn [Namespace.is_ipv4 Namespace.is_ipv6 Namespace.network_address].
    destruct (positional st) as [ip0|]; [destruct (extras st) as [|x xs]|].
    + split.
      * intros [= <- <- <-]. repeat split; auto.
      * intros (_ & _ & _ & [= ->] & -> & ->). reflexivity.
    + split; [discriminate|]. intros (_ & _ & C & _). discriminate.
    + split; [discriminate|]. intros (_ & _ & _ & C & _). discriminate.
  - destruct a; cbn [parse_loop plain has4 has6 positionals forallb existsb flat_map].
    + (* -4 *)
      destruct (seen6 st) eqn:E6.
      * split; [discriminate|]. intros (_ & C & _). cbn in C.
        rewrite orb_true_r in C. discriminate.
      * rewrite IH by reflexivity.
        cbn [seen4 seen6 positional extras]. rewrite !orb_true_r, !orb_true_l.
        cbn [andb orb app]. fold (plain r) (has4 r) (has6 r) (positionals r).
        tauto.
    + (* -6 *)
      destruct (seen4 st) eqn:E4.
      * split; [discriminate|]. intros (_ & C & _). cbn in C.
        rewrite orb_true_r in C. discriminate.
      * rewrite IH by reflexivity.
        cbn [seen4 seen6 positional extras]. rewrite !orb_true_r, !orb_true_l.
        cbn [andb orb app]. fold (plain r) (has4 r) (has6 r) (positionals r).
        tauto.
    + split; [discriminate|]. intros (C & _). discriminate.
    + split; [|intros (C & _); discriminate].
      intros H. apply IH in H; [|exact Hb]. cbn [extras] in H.
      destruct H as (_ & _ & C & _). destruct (extras st); discriminate.
    + split; [discriminate|]. intros (C & _). discriminate.
    + fold (plain r) (has4 r) (has6 r) (positionals r). cbn [andb orb app].
      destruct (positional st) as [ip0|] eqn:Ep.
      * split.
        -- intros H. apply IH in H; [|exact Hb]. cbn [extras] in H.
           destruct H as (_ & _ & C & _). destruct (extras st); discriminate.
        -- intros (_ & _ & _ & C & _). cbn in C. discriminate.
      * rewrite IH by exact Hb. cbn [seen4 seen6 positional extras app]. tauto.
Qed.

(** X7. The command lines the program accepts: [parse_args] returns a
    namespace exactly when the command line holds nothing but [-4], [-6]
    and positional arguments, not both options, and exactly one positional
    argument; the namespace then holds this argument and which option
    occurred. *)
Theorem X_command_line :
  forall argv args,
    parse_args argv = Parsed args <->
    plain argv = true /\
    has4 argv && has6 argv = false /\
    positionals argv = [Namespace.network_address args] /\
    Namespace.is_ipv4 args = has4 argv /\
    Namespace.is_ipv6 args = has6 argv.
Proof.
  intros argv args. unfold parse_args.
  rewrite parse_loop_parsed by reflexivity.
  cbn [seen4 seen6 positional extras orb app]. tauto.
Qed.

(** *** Texts that are no network *)

Lemma split_length_app sep s t :
  List.length (split sep (s ++ String sep t))
  = (List.length (split sep s) + List.length (split sep t))%nat.
Proof. rewrite split_app. apply length_app. Qed.

Lemma split_length_pos sep s : (1 <= List.length (split sep s))%nat.
Proof.
  destruct (split sep s) eqn:E; [destruct (split_not_nil sep s E) | cbn; lia].
Qed.

(** Two slashes: [_split_optional_netmask] refuses the text. *)
Lemma _split_addr_prefix_slashes {V : Version} x y z :
  _split_addr_prefix (x ++ "/" ++ y ++ "/" ++ z)
  = raise AddressValueError
      ("Only one '/' permitted in " ++ repr (x ++ "/" ++ y ++ "/" ++ z)).
Proof.
  unfold _split_addr_prefix, _split_optional_netmask.
  assert (H : (3 <= List.length (split "/" (x ++ "/" ++ y ++ "/" ++ z)))%nat).
  { change (x ++ "/" ++ y ++ "/" ++ z) with (x ++ String "/" (y ++ String "/" z)).
    rewrite !split_length_app.
    pose proof (split_length_pos "/" x). pose proof (split_length_pos "/" y).
    pose proof (split_length_pos "/" z). lia. }
  destruct (Z.ltb_spec 2 (Z.of_nat (List.length (split "/" (x ++ "/" ++ y ++ "/" ++ z)))));
    [reflexivity | lia].
Qed.

Lemma Network_init_split_raises {V : Version} {AC : AddressClass V} s e :
  _split_addr_prefix s = Raise e -> Network_init (AC:=AC) s false = Raise e.
Proof. intros H. unfold Network_init. rewrite H. reflexivity. Qed.

Lemma Network_init_address_raises {V : Version} {AC : AddressClass V} s addr mask e :
  _split_addr_prefix s = Ok (addr, mask) -> of_str addr = Raise e ->
  Network_init (AC:=AC) s false = Raise e.
Proof. intros H E. unfold Network_init. rewrite H. cbn [bind]. rewrite E. reflexivity. Qed.

Lemma Network_init_mask_raises {V : Version} {AC : AddressClass V} s addr mask a e :
  _split_addr_prefix s = Ok (addr, mask) -> of_str addr = Ok a ->
  _make_netmask mask = Raise e ->
  Network_init (AC:=AC) s false = Raise e.
Proof.
  intros H E M. unfold Network_init. rewrite H. cbn [bind]. rewrite E. cbn [bind].
  rewrite M. reflexivity.
Qed.

Lemma _split_addr_prefix_empty_address {V : Version} m :
  contains "/" m = false ->
  _split_addr_prefix ("/" ++ m) = Ok ("", MaskStr m).
Proof. intros H. exact (_split_addr_prefix_mask "" m eq_refl H). Qed.

(** X10. Texts of a wrong shape: with two slashes both calculators
    answer that only one is permitted, naming the text; with an empty
    text, or nothing before the slash, that the address cannot be empty;
    with a valid address and nothing after the slash, that [''] is not a
    valid netmask. *)
Theorem X_malformed_shapes :
  (forall x y z,
     let s := x ++ "/" ++ y ++ "/" ++ z in
     calculate_ipv4_subnet_info s
     = Ok (PyStr ("Error: Invalid IPv4 address or prefix. "
                  ++ "Only one '/' permitted in " ++ repr s)) /\
     calculate_ipv6_subnet_info s
     = Ok (PyStr ("Error: Invalid IPv6 address or prefix. "
                  ++ "Only one '/' permitted in " ++ repr s)))
  /\
  (forall s,
     s = "" \/ (exists m, s = "/" ++ m /\ contains "/" m = false) ->
     calculate_ipv4_subnet_info s
     = Ok (PyStr "Error: Invalid IPv4 address or prefix. Address cannot be empty") /\
     calculate_ipv6_subnet_info s
     = Ok (PyStr "Error: Invalid IPv6 address or prefix. Address cannot be empty"))
  /\
  (forall a x,
     IPv4Address_of_str a = Ok x ->
     calculate_ipv4_subnet_info (a ++ "/")
     = Ok (PyStr "Error: Invalid IPv4 address or prefix. '' is not a valid netmask"))
  /\
  (forall a x,
     IPv6Address_of_str a = Ok x ->
     calculate_ipv6_subnet_info (a ++ "/")
     = Ok (PyStr "Error: Invalid IPv6 address or prefix. '' is not a valid netmask")).
Proof.
  split; [|split; [|split]].
  - intros x y z s. split.
    + apply (calculate_ipv4_invalid s (Exn AddressValueError _)).
      apply Network_init_split_raises. apply _split_addr_prefix_slashes.
    + apply (calculate_ipv6_invalid s (Exn AddressValueError _)).
      apply Network_init_split_raises. apply _split_addr_prefix_slashes.
  - intros s [-> | (m & -> & Hm)].
    + split; reflexivity.
    + split.
      * apply (calculate_ipv4_invalid _ (Exn AddressValueError "Address cannot be empty")).
        eapply Network_init_address_raises;
          [apply (_split_addr_prefix_empty_address m Hm) | reflexivity].
      * apply (calculate_ipv6_invalid _ (Exn AddressValueError "Address cannot be empty")).
        eapply Network_init_address_raises;
          [apply (_split_addr_prefix_empty_address m Hm) | reflexivity].
  - intros a x H.
    apply (calculate_ipv4_invalid _ (Exn NetmaskValueError "'' is not a valid netmask")).
    eapply Network_init_mask_raises;
      [apply (_split_addr_prefix_mask a "" (IPv4Address_of_str_no_slash a x H) eq_refl)
      | exact H | reflexivity].
  - intros a x H.
    apply (calculate_ipv6_invalid _ (Exn NetmaskValueError "'' is not a valid netmask")).
    eapply Network_init_mask_raises;
      [apply (_split_addr_prefix_mask a "" (IPv6Address_of_str_no_slash a x H) eq_refl)
      | exact H | reflexivity].
Qed.

(** X10 at [/24], [10.0.0.0/] and [2001:db8::/]. *)
Lemma X_malformed_shapes_witness :
  calculate_ipv4_subnet_info "/24"
  = Ok (PyStr "Error: Invalid IPv4 address or prefix. Address cannot be empty") /\
  calculate_ipv4_subnet_info "10.0.0.0/"
  = Ok (PyStr "Error: Invalid IPv4 address or prefix. '' is not a valid netmask") /\
  calculate_ipv6_subnet_info "2001:db8::/"
  = Ok (PyStr "Error: Invalid IPv6 address or prefix. '' is not a valid netmask").
Proof.
  split; [|split].
  - apply (proj1 (proj2 X_malformed_shapes) "/24").
    right. exists "24". split; reflexivity.
  - apply (proj1 (proj2 (proj2 X_malformed_shapes)) "10.0.0.0" {| v4_ip := 167772160 |}).
    reflexivity.
  - apply (proj2 (proj2 (proj2 X_malformed_shapes)) "2001:db8::"
             {| v6_ip := 42540766411282592856903984951653826560; _scope_id := None |}).
    reflexivity.
Defined.

(** *** The two families share no text *)

Lemma all_chars_split p sep s :
  p sep = true -> Forall (fun x => all_chars p x = true) (split sep s) ->
  all_chars p s = true.
Proof.
  intros Hsep. induction s as [|a r IH]; intros H; [reflexivity|].
  cbn [split] in H. cbn [all_chars].
  destruct (Ascii.eqb_spec a sep) as [->|Hne].
  - inversion H as [|? ? _ Hr]; subst. rewrite Hsep, (IH Hr). reflexivity.
  - destruct (split sep r) as [|h tl] eqn:E; [destruct (split_not_nil sep r E)|].
    inversion H as [|? ? Hh Ht]; subst. cbn [all_chars] in Hh.
    apply andb_true_iff in Hh as [Ha Hh]. rewrite IH.
    + rewrite andb_true_r.
      destruct (p a) eqn:Ep; [reflexivity|].
      revert Ha. clear - Ep. intros Ha. congruence.
    + constructor; assumption.
Qed.

Lemma all_chars_impl (p q : ascii -> bool) s :
  (forall c, p c = true -> q c = true) -> all_chars p s = true -> all_chars q s = true.
Proof.
  intros H. induction s as [|a r IH]; cbn [all_chars]; [reflexivity|].
  intros E. apply andb_true_iff in E as [Ea Er].
  rewrite (H a Ea), (IH Er). reflexivity.
Qed.

Lemma all_chars_and p q s :
  all_chars p s = true -> all_chars q s = true ->
  all_chars (fun c => p c && q c) s = true.
Proof.
  induction s as [|a r IH]; cbn [all_chars]; [reflexivity|].
  intros E F. apply andb_true_iff in E as [Ea Er]. apply andb_true_iff in F as [Fa Fr].
  rewrite Ea, Fa, (IH Er Fr). reflexivity.
Qed.

Lemma all_chars_contains p c s :
  p c = false -> all_chars p s = true -> contains c s = false.
Proof.
  intros Hc. induction s as [|a r IH]; cbn [all_chars contains]; [reflexivity|].
  intros E. apply andb_true_iff in E as [Ea Er]. rewrite (IH Er), orb_false_r.
  destruct (Ascii.eqb_spec a c) as [->|]; [congruence | reflexivity].
Qed.

Lemma mapM_Forall {A B} (f : A -> result B) l ys :
  mapM f l = Ok ys -> Forall (fun x => exists y, f x = Ok y) l.
Proof.
  revert ys. induction l as [|x r IH]; intros ys H; [constructor|].
  cbn [mapM] in H. destruct (f x) as [y|] eqn:E; [|discriminate].
  cbn [bind] in H. destruct (mapM f r) as [zs|] eqn:Er; [|discriminate].
  constructor; [exists y; exact E | exact (IH zs eq_refl)].
Qed.

(** An octet the parser accepts holds decimal digits only. *)
Lemma _parse_octet_digits o n :
  V4._parse_octet o = Ok n -> all_chars is_decimal_digit o = true.
Proof.
  unfold V4._parse_octet. destruct (String.eqb o ""); [discriminate|].
  destruct (isascii o && isdigit o) eqn:E; [|discriminate]. intros _.
  apply andb_true_iff in E as [Ea Ed]. unfold isascii in Ea. unfold isdigit in Ed.
  apply andb_true_iff in Ed as [_ Ed].
  pose proof (all_chars_and _ _ o Ea Ed) as H.
  revert H. apply all_chars_impl. intros c Hc.
  apply andb_true_iff in Hc as [H1 H2].
  destruct (is_decimal_digit c); [reflexivity|]. cbn [orb] in H2.
  apply Z.ltb_lt in H1.
  destruct (Z.eqb_spec (ord c) 178); [lia|].
  destruct (Z.eqb_spec (ord c) 179); [lia|].
  destruct (Z.eqb_spec (ord c) 185); [lia | discriminate].
Qed.

(** The text of an IPv4 address holds digits and dots only. *)
Lemma IPv4Address_of_str_chars s a :
  IPv4Address_of_str s = Ok a -> all_chars is_dotted_char s = true /\ s <> "".
Proof.
  unfold IPv4Address_of_str. destruct (contains "/" s); [discriminate|].
  unfold V4._ip_int_from_string.
  destruct (String.eqb_spec s ""); [discriminate|].
  destruct (negb (Z.of_nat (List.length (split "." s)) =? 4)); [discriminate|].
  destruct (mapM V4._parse_octet (split "." s)) as [bs|e] eqn:E.
  - intros _. split; [|assumption].
    apply (all_chars_split is_dotted_char "." s eq_refl).
    apply mapM_Forall in E. eapply Forall_impl; [|exact E].
    intros o [v Hv]. apply _parse_octet_digits in Hv.
    revert Hv. apply all_chars_impl. intros c Hc. unfold is_dotted_char.
    rewrite Hc. reflexivity.
  - cbn [bind try_except dispatch].
    destruct (isinstance e ValueError); discriminate.
Qed.

Lemma partition_no_sep sep s :
  contains sep s = false -> partition sep s = (s, false, "").
Proof.
  induction s as [|a r IH]; cbn [contains partition]; [reflexivity|].
  intros H. apply orb_false_iff in H as [Ha Hr]. rewrite Ha, (IH Hr). reflexivity.
Qed.

(** Such a text is no IPv6 address: it has no colon. *)
Lemma IPv6Address_of_str_dotted s :
  all_chars is_dotted_char s = true ->
  exists e, IPv6Address_of_str s = Raise e.
Proof.
  intros H.
  pose proof (all_chars_contains is_dotted_char "/" s eq_refl H) as H1.
  pose proof (all_chars_contains is_dotted_char "%" s eq_refl H) as H2.
  pose proof (all_chars_contains is_dotted_char ":" s eq_refl H) as H3.
  unfold IPv6Address_of_str. rewrite H1. unfold V6._split_scope_id.
  rewrite (partition_no_sep "%" s H2). cbn [negb bind].
  unfold V6._ip_int_from_string.
  destruct (String.eqb s ""); [eexists; reflexivity|].
  rewrite (split_no_sep ":" s H3). eexists. reflexivity.
Qed.

Lemma _split_addr_prefix_address {V V' : Version} s addr mask :
  _split_addr_prefix (V:=V) s = Ok (addr, mask) ->
  exists mask', _split_addr_prefix (V:=V') s = Ok (addr, mask').
Proof.
  unfold _split_addr_prefix. destruct (_split_optional_netmask s) as [l|]; [|discriminate].
  cbn [bind]. destruct l as [|x [|y r]]; [discriminate | |];
    intros [= <- _]; eexists; reflexivity.
Qed.

(** X11. No text is a network of both families: a text the IPv4
    constructor accepts makes the IPv6 calculator answer with the message
    of an invalid input, and the other way round. *)
Theorem X_families_disjoint :
  forall s,
    (forall net,
       IPv4Network s false = Ok net ->
       exists e,
         IPv6Network s false = Raise e /\
         calculate_ipv6_subnet_info s
         = Ok (PyStr ("Error: Invalid IPv6 address or prefix. " ++ exn_str e))) /\
    (forall net,
       IPv6Network s false = Ok net ->
       exists e,
         IPv4Network s false = Raise e /\
         calculate_ipv4_subnet_info s
         = Ok (PyStr ("Error: Invalid IPv4 address or prefix. " ++ exn_str e))).
Proof.
  intros s.
  assert (A : forall net, IPv4Network s false = Ok net ->
                          exists e, IPv6Network s false = Raise e).
  { intros net H.
    destruct (Network_init_inv (AC:=IPv4Address) s net H)
      as (addr & mask & a & Hs & Ha & _).
    cbn [of_str IPv4Address] in Ha.
    destruct (IPv4Address_of_str_chars addr a Ha) as [Hc _].
    destruct (IPv6Address_of_str_dotted addr Hc) as [e He].
    destruct (_split_addr_prefix_address (V':=_BaseV6) s addr mask Hs) as [mask' Hs'].
    exists e. unfold IPv6Network.
    exact (Network_init_address_raises (AC:=IPv6Address) s addr mask' e Hs' He). }
  split.
  - intros net H. destruct (A net H) as [e He].
    exists e. split; [exact He | exact (calculate_ipv6_invalid s e He)].
  - intros net H. destruct (IPv4Network s false) as [net4|e] eqn:E.
    + destruct (A net4 eq_refl) as [e He]. congruence.
    + exists e. split; [reflexivity | exact (calculate_ipv4_invalid s e E)].
Qed.

(** X11 at [192.168.1.0/24] and at [2001:db8::/32]. *)
Lemma X_families_disjoint_witness :
  calculate_ipv6_subnet_info "192.168.1.0/24"
  = Ok (PyStr ("Error: Invalid IPv6 address or prefix. "
               ++ "At least 3 parts expected in '192.168.1.0'")) /\
  calculate_ipv4_subnet_info "2001:db8::/32"
  = Ok (PyStr ("Error: Invalid IPv4 address or prefix. "
               ++ "Expected 4 octets in '2001:db8::'")).
Proof.
  split.
  - destruct (proj1 (X_families_disjoint "192.168.1.0/24")
                (Build_Network _ IPv4Address
                   {| v4_ip := 3232235776 |} {| v4_ip := 4294967040 |} 24)
                eq_refl) as (e & He & Hc).
    injection He as <-. exact Hc.
  - destruct (proj2 (X_families_disjoint "2001:db8::/32")
                (Build_Network _ IPv6Address
                   {| v6_ip := 42540766411282592856903984951653826560;
                      _scope_id := None |}
                   {| v6_ip := 340282366841710300949110269838224261120;
                      _scope_id := None |} 32)
                eq_refl) as (e & He & Hc).
    injection He as <-. exact Hc.
Defined.

(** *** The usable addresses of small and of larger networks *)

(** X12. Networks of two addresses.  For an IPv4 [/31] the dictionary
    has the network address as last usable address and the broadcast
    address as first usable address, so that the first is above the last;
    for an IPv6 [/127] the first and the last usable address are the same,
    the address after the network address.  The count is 2. *)
Theorem X_two_address_networks :
  (forall s net,
     IPv4Network s false = Ok net -> _prefixlen net = 31 ->
     exists d low high,
       calculate_ipv4_subnet_info s = Ok (PyDict d) /\
       get d "Network Address" = Some (VStr low) /\
       get d "Last usable Address" = Some (VStr low) /\
       get d "Broadcast Address" = Some (VStr high) /\
       get d "First usable Address" = Some (VStr high) /\
       get d "Total Addresses" = Some (VInt 2) /\
       IPv4Address_of_str low = Ok (network_address net) /\
       IPv4Address_of_str high
       = Ok {| v4_ip := v4_ip (network_address net) + 1 |})
  /\
  (forall s net,
     IPv6Network s false = Ok net -> _prefixlen net = 127 ->
     exists d high,
       calculate_ipv6_subnet_info s = Ok (PyDict d) /\
       get d "First usable Address" = Some (VStr high) /\
       get d "Last usable Address" = Some (VStr high) /\
       get d "Total Addresses" = Some (VInt 2) /\
       IPv6Address_str {| v6_ip := v6_ip (network_address net) + 1;
                          _scope_id := None |} = Ok high).
Proof.
  split; intros s net Hn Hp.
  - pose proof (Network_init_wf (AC:=IPv4Address) s net Hn) as Hwf.
    destruct (calculate_ipv4_dict s net Hn ltac:(lia))
      as (ns & bs & fs & ls & Ens & Ebs & Efs & Els & Hc).
    pose proof (v4_network_range net Hwf) as Hr.
    rewrite Hp in *. change (2 ^ (32 - 31)) with 2 in *.
    replace (v4_ip (network_address net) + 2 - 1)
      with (v4_ip (network_address net) + 1) in Ebs by lia.
    replace (v4_ip (network_address net) + 2 - 2)
      with (v4_ip (network_address net)) in Els by lia.
    assert (fs = bs) by congruence. assert (ls = ns) by congruence. subst fs ls.
    assert (P32 : 2 ^ 32 = 4294967296) by reflexivity.
    pose proof (fun H => IPv4Address_reads_back _ _ H Ens) as Rn.
    specialize (Rn ltac:(lia)). rewrite v4_eta in Rn.
    pose proof (fun H => IPv4Address_reads_back _ _ H Ebs) as Rb.
    specialize (Rb ltac:(lia)).
    eexists _, ns, bs. split; [exact Hc|].
    repeat (split; [reflexivity|]). split; [exact Rn | exact Rb].
  - destruct (calculate_ipv6_dict s net Hn ltac:(lia))
      as (ns & fs & ls & Ens & Efs & Els & Hc).
    rewrite Hp in *. change (2 ^ (128 - 127)) with 2 in *.
    replace (v6_ip (network_address net) + 2 - 1)
      with (v6_ip (network_address net) + 1) in Els by lia.
    assert (ls = fs) by congruence. subst ls.
    eexists _, fs. split; [exact Hc|].
    repeat (split; [reflexivity|]). exact Efs.
Qed.

(** X12 at [10.0.0.1/31]. *)
Lemma X_two_address_networks_witness :
  exists d low high,
    calculate_ipv4_subnet_info "10.0.0.1/31" = Ok (PyDict d) /\
    get d "Network Address" = Some (VStr low) /\
    get d "Last usable Address" = Some (VStr low) /\
    get d "Broadcast Address" = Some (VStr high) /\
    get d "First usable Address" = Some (VStr high) /\
    get d "Total Addresses" = Some (VInt 2) /\
    IPv4Address_of_str low = Ok {| v4_ip := 167772160 |} /\
    IPv4Address_of_str high = Ok {| v4_ip := 167772160 + 1 |}.
Proof.
  apply (proj1 X_two_address_networks "10.0.0.1/31"
           (Build_Network _ IPv4Address
              {| v4_ip := 167772160 |} {| v4_ip := 4294967294 |} 31));
    reflexivity.
Defined.

(** X13. For an IPv4 prefix length up to 30 the usable addresses lie
    strictly between the network and the broadcast address, the first not
    above the last, and there are two fewer of them than addresses. *)
Theorem X_usable_inside_v4 :
  forall s net,
    IPv4Network s false = Ok net -> _prefixlen net <= 30 ->
    exists d n f l b,
      calculate_ipv4_subnet_info s = Ok (PyDict d) /\
      reads_back_v4 d "Network Address" {| v4_ip := n |} /\
      reads_back_v4 d "First usable Address" {| v4_ip := f |} /\
      reads_back_v4 d "Last usable Address" {| v4_ip := l |} /\
      reads_back_v4 d "Broadcast Address" {| v4_ip := b |} /\
      n < f /\ f <= l /\ l < b /\
      exists total,
        get d "Total Addresses" = Some (VInt total) /\
        l - f + 1 = total - 2.
Proof.
  intros s net Hn Hp.
  pose proof (Network_init_wf (AC:=IPv4Address) s net Hn) as Hwf.
  destruct (calculate_ipv4_dict s net Hn ltac:(lia))
    as (ns & bs & fs & ls & Ens & Ebs & Efs & Els & Hc).
  pose proof (v4_network_range net Hwf) as Hr.
  pose proof Hwf as (Hp0 & _).
  change (_max_prefixlen (Version:=_BaseV4)) with 32 in Hp0.
  assert (4 <= 2 ^ (32 - _prefixlen net)).
  { change 4 with (2 ^ 2). apply Z.pow_le_mono_r; lia. }
  assert (P32 : 2 ^ 32 = 4294967296) by reflexivity.
  pose proof (fun H => IPv4Address_reads_back _ _ H Ens) as Rn.
  specialize (Rn ltac:(lia)).
  pose proof (fun H => IPv4Address_reads_back _ _ H Ebs) as Rb.
  specialize (Rb ltac:(lia)).
  pose proof (fun H => IPv4Address_reads_back _ _ H Efs) as Rf.
  specialize (Rf ltac:(lia)).
  pose proof (fun H => IPv4Address_reads_back _ _ H Els) as Rl.
  specialize (Rl ltac:(lia)).
  eexists _, _, _, _, _. split; [exact Hc|].
  split; [eexists; split; [reflexivity | exact Rn]|].
  split; [eexists; split; [reflexivity | exact Rf]|].
  split; [eexists; split; [reflexivity | exact Rl]|].
  split; [eexists; split; [reflexivity | exact Rb]|].
  split; [lia|]. split; [lia|]. split; [lia|].
  eexists. split; [reflexivity | lia].
Qed.

(** X13 at [192.168.1.5/30]. *)
Lemma X_usable_inside_v4_witness :
  exists d n f l b,
    calculate_ipv4_subnet_info "192.168.1.5/30" = Ok (PyDict d) /\
    reads_back_v4 d "Network Address" {| v4_ip := n |} /\
    reads_back_v4 d "First usable Address" {| v4_ip := f |} /\
    reads_back_v4 d "Last usable Address" {| v4_ip := l |} /\
    reads_back_v4 d "Broadcast Address" {| v4_ip := b |} /\
    n < f /\ f <= l /\ l < b /\
    exists total,
      get d "Total Addresses" = Some (VInt total) /\
      l - f + 1 = total - 2.
Proof.
  apply (X_usable_inside_v4 "192.168.1.5/30"
           (Build_Network _ IPv4Address
              {| v4_ip := 3232235780 |} {| v4_ip := 4294967292 |} 30));
    [reflexivity | cbn; lia].
Defined.

(** *** The text of an IPv6 address *)

Lemma digits_value_zeros base k t : 2 <= base ->
  digits_value base 0 (zeros k ++ t) = digits_value base 0 t.
Proof.
  intros Hb.
  assert (E : digit_value base "0" = Some 0).
  { unfold digit_value. change (ord "0") with 48. cbv zeta.
    change ((48 <=? 48) && (48 <=? 57)) with true. cbv iota.
    change (48 - 48) with 0. destruct (Z.ltb_spec 0 base); [reflexivity | lia]. }
  induction k as [|k IH]; [reflexivity|].
  cbn [zeros append digits_value]. rewrite E, Z.mul_0_l, Z.add_0_l. exact IH.
Qed.

Lemma pct_0x_value n :
  0 <= n -> digits_value 16 0 (pct_0x 32 n) = Some n.
Proof.
  intros Hn. unfold pct_0x. destruct (Z.ltb_spec n 0); [lia|]. cbv zeta.
  rewrite digits_value_zeros by lia.
  apply digits_str_value; [right; reflexivity | exact Hn].
Qed.

Lemma is_digit_of_value base c :
  is_digit_of base c = true -> exists d, digit_value base c = Some d.
Proof. unfold is_digit_of. destruct (digit_value base c); [eauto | discriminate]. Qed.

Lemma Some_inj {A} (a b : A) : Some a = Some b -> a = b.
Proof. congruence. Qed.

(** The eight groups of four digits of a text of 32 hexadecimal digits. *)
Lemma hextets_of_hex s n :
  String.length s = 32%nat -> all_chars (is_digit_of 16) s = true ->
  digits_value 16 0 s = Some n ->
  exists hs,
    List.length hs = 8%nat /\
    Forall (fun h => 0 <= h < 65536) hs /\
    mapM (fun x => h <- int_of_str (slice s x (x + 4)) 16 ;; Ok (pct_x h))
         (map (fun k => 4 * k) (V6.range 0 8))
    = Ok (map pct_x hs) /\
    fold_left (fun acc h => acc * 65536 + h) hs 0 = n.
Proof.
  intros Hl Ha Hv.
  do 32 (destruct s as [|? s]; [discriminate|]).
  destruct s; [|discriminate]. clear Hl.
  cbn [all_chars] in Ha.
  repeat match type of Ha with
         | (_ && _ = true) => apply andb_true_iff in Ha; destruct Ha as [? Ha]
         end.
  clear Ha.
  repeat match goal with
         | H : is_digit_of 16 ?c = true |- _ =>
             let d := fresh "d" in let E := fresh "E" in
             destruct (is_digit_of_value 16 c H) as [d E];
             pose proof (digit_value_range 16 c d E); clear H
         end.
  cbn [digits_value] in Hv.
  repeat match goal with
         | E : digit_value 16 ?c = Some _ |- _ => rewrite E in Hv
         end.
  cbn [digits_value] in Hv. apply Some_inj in Hv.
  change (map (fun k => 4 * k) (V6.range 0 8)) with [0; 4; 8; 12; 16; 20; 24; 28].
  eexists [_; _; _; _; _; _; _; _]. split; [reflexivity|].
  split; [|split].
  2: { cbn [mapM].
       repeat match goal with
              | |- context [slice ?s ?i ?j] =>
                  let r := eval vm_compute in (slice s i j) in
                  change (slice s i j) with r
              end.
       unfold int_of_str. cbn [digits_value].
       repeat match goal with
              | E : digit_value 16 ?c = Some _ |- _ => rewrite E; clear E
              end.
       cbn [digits_value bind]. reflexivity. }
  - repeat constructor; lia.
  - cbn [fold_left]. rewrite <- Hv. ring.
Qed.

Lemma digit_char_hextet d : 0 <= d < 16 -> is_hextet_char (digit_char d) = true.
Proof.
  intros H.
  assert (C : d = 0 \/ d = 1 \/ d = 2 \/ d = 3 \/ d = 4 \/ d = 5 \/ d = 6 \/ d = 7 \/
              d = 8 \/ d = 9 \/ d = 10 \/ d = 11 \/ d = 12 \/ d = 13 \/ d = 14 \/
              d = 15) by lia.
  repeat (destruct C as [->|C]; [reflexivity|]). subst d. reflexivity.
Qed.

Lemma is_hextet_char_HEX c : is_hextet_char c = true -> V6.in_HEX_DIGITS c = true.
Proof.
  unfold is_hextet_char, V6.in_HEX_DIGITS, V6._HEX_DIGITS.
  cbn [list_ascii_of_string existsb].
  intros H. repeat (apply orb_true_iff in H; destruct H as [H|H];
                    [rewrite H, ?orb_true_r; reflexivity|]).
  discriminate.
Qed.

(** The text of a hextet: lower-case hexadecimal digits, from one to four,
    which [_parse_hextet] reads back; it is ["0"] for zero only. *)
Lemma hextet_text h :
  0 <= h < 65536 ->
  all_chars is_hextet_char (pct_x h) = true /\
  pct_x h <> "" /\
  V6._parse_hextet (pct_x h) = Ok h /\
  (pct_x h = "0" -> h = 0).
Proof.
  intros H. unfold pct_x. destruct (Z.ltb_spec h 0); [lia|].
  assert (Hc : all_chars is_hextet_char (digits_str 16 h) = true).
  { unfold digits_str. apply all_chars_of_list. apply Forall_rev.
    eapply Forall_impl; [|apply (digits_rev_range 16); lia].
    intros d Hd. apply digit_char_hextet. exact Hd. }
  assert (Hl : len (digits_str 16 h) <= 4).
  { unfold len, digits_str. rewrite length_of_list, length_map, length_rev.
    pose proof (digits_rev_length 16 (S (Z.to_nat (Z.log2 h))) h 4
                  ltac:(lia) ltac:(change (16 ^ 4) with 65536; lia) ltac:(lia)).
    unfold digits. lia. }
  assert (Hp : V6._parse_hextet (digits_str 16 h) = Ok h).
  { unfold V6._parse_hextet.
    rewrite (all_chars_impl _ _ _ is_hextet_char_HEX Hc). cbn [negb].
    destruct (Z.ltb_spec 4 (len (digits_str 16 h))); [lia|].
    apply int_of_digits_str; [right; reflexivity | lia]. }
  split; [exact Hc|]. split; [apply digits_str_not_empty|]. split; [exact Hp|].
  intros E. rewrite E in Hp. cbv in Hp. congruence.
Qed.

Lemma compress_fold T suf : forall pre st,
  T = (pre ++ suf)%list ->
  compress_inv T (List.length pre) st ->
  compress_inv T (List.length T)
    (fold_left V6.doublecolon_step
       (combine (map Z.of_nat (seq (List.length pre) (List.length suf))) suf) st).
Proof.
  induction suf as [|t r IH]; intros pre st ET Hinv.
  - cbn. rewrite app_nil_r in ET. subst pre. exact Hinv.
  - cbn [List.length seq map combine fold_left].
    replace (S (List.length pre)) with (List.length (pre ++ [t])%list)
      by (rewrite length_app; cbn; lia).
    apply IH; [rewrite <- app_assoc; exact ET|].
    assert (Ht : nth (List.length pre) T "" = t).
    { rewrite ET, app_nth2 by lia. rewrite Nat.sub_diag. reflexivity. }
    rewrite length_app. cbn [List.length].
    destruct Hinv as [Hb Hc]. unfold V6.doublecolon_step.
    destruct (String.eqb_spec t "0") as [E0|N0].
    + set (dstart := if V6.doublecolon_start st =? -1 then Z.of_nat (List.length pre)
                     else V6.doublecolon_start st).
      assert (Hrun : run_of_zeros T dstart (V6.doublecolon_len st + 1) /\
                     dstart + (V6.doublecolon_len st + 1)
                     = Z.of_nat (List.length pre + 1)).
      { destruct Hc as [[Hl Hs] | [(H0 & H1 & Hz) He]].
        - unfold dstart. rewrite Hs, Hl. change (-1 =? -1) with true. cbv iota.
          split; [|lia]. split; [lia|]. split; [lia|].
          intros j Hj. replace j with (List.length pre) by lia. congruence.
        - unfold dstart. destruct (Z.eqb_spec (V6.doublecolon_start st) (-1)); [lia|].
          split; [|lia]. split; [lia|]. split; [lia|].
          intros j Hj. destruct (Nat.eq_dec j (List.length pre)) as [->|Hne].
          + congruence.
          + apply Hz. lia. }
      destruct (Z.ltb_spec (V6.best_doublecolon_len st) (V6.doublecolon_len st + 1)).
      * split; cbn; right; [|exact Hrun].
        destruct Hrun as [Hr He]. split; [exact Hr | lia].
      * split; cbn; [|right; exact Hrun].
        destruct Hb as [Hb | [Hb He]]; [left; exact Hb | right; split; [exact Hb | lia]].
    + split; cbn; [|left; split; reflexivity].
      destruct Hb as [Hb | [Hb He]]; [left; exact Hb | right; split; [exact Hb | lia]].
Qed.

(** What [_compress_hextets] returns: the hextets as they are, or with a
    run of at least two zero hextets replaced by an empty text, and one
    more empty text at an end that the run touches. *)
Lemma _compress_hextets_spec T :
  V6._compress_hextets T = T \/
  exists bs e,
    0 <= bs /\ bs + 2 <= e <= Z.of_nat (List.length T) /\
    (forall j, bs <= Z.of_nat j < e -> nth j T "" = "0") /\
    V6._compress_hextets T
    = ((if bs =? 0 then [""] else [])
       ++ firstn (Z.to_nat bs) T ++ [""] ++ skipn (Z.to_nat e) T
       ++ (if e =? Z.of_nat (List.length T) then [""] else []))%list.
Proof.
  unfold V6._compress_hextets, V6.enumerate.
  pose proof (compress_fold T T [] 
                {| V6.best_doublecolon_start := -1; V6.best_doublecolon_len := 0;
                   V6.doublecolon_start := -1; V6.doublecolon_len := 0 |}
                eq_refl) as H.
  cbn [List.length app] in H. specialize (H ltac:(split; left; auto)).
  set (st := fold_left _ _ _) in *. cbv zeta.
  destruct (Z.ltb_spec 1 (V6.best_doublecolon_len st)) as [Hl|]; [|left; reflexivity].
  right. destruct H as [[Hb | [(H0 & H1 & Hz) He]] _]; [lia|].
  exists (V6.best_doublecolon_start st),
         (V6.best_doublecolon_start st + V6.best_doublecolon_len st).
  split; [exact H0|]. split; [lia|]. split; [exact Hz|].
  set (bs := V6.best_doublecolon_start st) in *.
  set (e := bs + V6.best_doublecolon_len st) in *.
  assert (Hbs : (Z.to_nat bs < List.length T)%nat) by lia.
  destruct (Z.eqb_spec e (Z.of_nat (List.length T))) as [Ee|Ne].
  - rewrite firstn_app, skipn_app.
    replace (Z.to_nat bs - List.length T)%nat with 0%nat by lia.
    replace (Z.to_nat e - List.length T)%nat with 0%nat by lia.
    cbn [firstn skipn]. rewrite app_nil_r.
    rewrite (skipn_all2 T) by lia. cbn [app].
    destruct (bs =? 0); reflexivity.
  - rewrite app_nil_r. destruct (bs =? 0); reflexivity.
Qed.

(** [range] *)
Lemma range_nil a b : b <= a -> V6.range a b = [].
Proof. intros H. unfold V6.range. replace (Z.to_nat (b - a)) with 0%nat by lia. reflexivity. Qed.

Lemma range_cons a b : a < b -> V6.range a b = a :: V6.range (a + 1) b.
Proof.
  intros H. unfold V6.range.
  replace (Z.to_nat (b - a)) with (S (Z.to_nat (b - (a + 1)))) by lia.
  cbn [seq map]. f_equal; [lia|].
  rewrite <- seq_shift, map_map. apply map_ext. intros k. lia.
Qed.

Lemma range_app a b c :
  a <= b <= c -> V6.range a c = (V6.range a b ++ V6.range b c)%list.
Proof.
  intros H. remember (Z.to_nat (b - a)) as n eqn:En. revert a En H.
  induction n as [|n IH]; intros a En H.
  - replace b with a by lia. rewrite (range_nil a a) by lia. reflexivity.
  - rewrite (range_cons a c), (range_cons a b) by lia. cbn [app]. f_equal.
    apply IH; lia.
Qed.

Lemma In_range i a b : In i (V6.range a b) -> a <= i < b.
Proof.
  unfold V6.range. intros H. apply in_map_iff in H as (k & <- & Hk).
  apply in_seq in Hk. lia.
Qed.

(** [parts[i]] *)
Lemma item_nonneg parts i : 0 <= i -> V6.item parts i = nth (Z.to_nat i) parts "".
Proof. intros H. unfold V6.item. destruct (Z.ltb_spec i 0); [lia | reflexivity]. Qed.

Lemma item_neg parts i :
  i < 0 ->
  V6.item parts i = nth (Z.to_nat (Z.of_nat (List.length parts) + i)) parts "".
Proof. intros H. unfold V6.item. destruct (Z.ltb_spec i 0); [reflexivity | lia]. Qed.

(** The search for the empty part passes the parts that are not empty. *)
Lemma skip_fold_pass s parts l : forall x,
  (forall i, In i l -> String.eqb (V6.item parts i) "" = false) ->
  fold_left (V6.skip_index_step s parts) l (Ok x) = Ok x.
Proof.
  induction l as [|i r IH]; intros x H; [reflexivity|].
  cbn [fold_left]. unfold V6.skip_index_step at 2. cbn [bind].
  rewrite (H i (or_introl eq_refl)). apply IH. intros j Hj. apply H. right. exact Hj.
Qed.

(** The hextets before the empty part, read from the left. *)
Lemma hextet_fold_left hs : forall rest acc,
  Forall (fun h => 0 <= h < 65536) hs ->
  fold_left (V6.hextet_step (map pct_x hs ++ rest))
            (V6.range 0 (Z.of_nat (List.length hs))) (Ok acc)
  = Ok (fold_left (fun a h => Z.lor (Z.shiftl a 16) h) hs acc).
Proof.
  induction hs as [|h r IH] using rev_ind; intros rest acc H.
  - rewrite range_nil by (cbn; lia). reflexivity.
  - apply Forall_app in H as [Hr Hh]. inversion Hh as [|? ? Hh' _]; subst.
    rewrite length_app. cbn [List.length].
    rewrite (range_app 0 (Z.of_nat (List.length r))) by lia.
    rewrite (range_cons (Z.of_nat (List.length r)) (Z.of_nat (List.length r + 1)))
      by lia.
    rewrite (range_nil (Z.of_nat (List.length r) + 1) (Z.of_nat (List.length r + 1)))
      by lia.
    rewrite !fold_left_app. rewrite map_app, <- app_assoc.
    rewrite (IH _ acc Hr). cbn [fold_left map app]. unfold V6.hextet_step. cbn [bind].
    rewrite item_nonneg by lia. rewrite Nat2Z.id.
    rewrite app_nth2 by (rewrite length_map; lia).
    rewrite length_map, Nat.sub_diag. cbn [nth].
    destruct (hextet_text h Hh') as (_ & _ & Hp & _). rewrite Hp. reflexivity.
Qed.

(** The hextets after the empty part, read by their distance from the
    end. *)
Lemma hextet_fold_right hs : forall front acc,
  Forall (fun h => 0 <= h < 65536) hs ->
  fold_left (V6.hextet_step (front ++ map pct_x hs))
            (V6.range (- Z.of_nat (List.length hs)) 0) (Ok acc)
  = Ok (fold_left (fun a h => Z.lor (Z.shiftl a 16) h) hs acc).
Proof.
  induction hs as [|h r IH]; intros front acc H.
  - rewrite range_nil by (cbn; lia). reflexivity.
  - inversion H as [|? ? Hh Hr]; subst.
    rewrite range_cons by (cbn [List.length]; lia).
    cbn [fold_left map]. unfold V6.hextet_step at 2. cbn [bind].
    rewrite item_neg by (cbn [List.length]; lia).
    rewrite app_nth2 by (rewrite length_app; cbn [List.length]; rewrite length_map; lia).
    replace (Z.to_nat (Z.of_nat (List.length (front ++ pct_x h :: map pct_x r))
                       + - Z.of_nat (List.length (h :: r)))
             - List.length front)%nat with 0%nat
      by (rewrite length_app; cbn [List.length]; rewrite length_map; lia).
    cbn [nth]. destruct (hextet_text h Hh) as (_ & _ & Hp & _). rewrite Hp. cbn [bind].
    replace (front ++ pct_x h :: map pct_x r)%list
      with ((front ++ [pct_x h]) ++ map pct_x r)%list
      by (rewrite <- app_assoc; reflexivity).
    replace (- Z.of_nat (List.length (h :: r)) + 1) with (- Z.of_nat (List.length r))
      by (cbn [List.length]; lia).
    apply IH. exact Hr.
Qed.

Lemma skip_fold_found s A B :
  A <> [] -> B <> [] ->
  (forall i, (1 <= i < List.length A)%nat -> String.eqb (nth i A "") "" = false) ->
  (forall i, (i + 1 < List.length B)%nat -> String.eqb (nth i B "") "" = false) ->
  fold_left (V6.skip_index_step s (A ++ "" :: B))
            (V6.range 1 (Z.of_nat (List.length (A ++ "" :: B)) - 1)) (Ok None)
  = Ok (Some (Z.of_nat (List.length A))).
Proof.
  intros HA HB HnA HnB.
  assert (LA : (1 <= List.length A)%nat) by (destruct A; [congruence | cbn; lia]).
  assert (LB : (1 <= List.length B)%nat) by (destruct B; [congruence | cbn; lia]).
  rewrite length_app. cbn [List.length].
  rewrite (range_app 1 (Z.of_nat (List.length A))) by lia.
  rewrite (range_cons (Z.of_nat (List.length A))) by lia.
  rewrite fold_left_app. cbn [fold_left].
  rewrite skip_fold_pass.
  - unfold V6.skip_index_step at 2. cbn [bind].
    rewrite item_nonneg by lia. rewrite Nat2Z.id, app_nth2 by lia.
    rewrite Nat.sub_diag. cbn [nth String.eqb].
    apply skip_fold_pass. intros i Hi. apply In_range in Hi.
    rewrite item_nonneg by lia. rewrite app_nth2 by lia.
    replace (Z.to_nat i - List.length A)%nat
      with (S (Z.to_nat i - List.length A - 1)) by lia.
    cbn [nth]. apply HnB. lia.
  - intros i Hi. apply In_range in Hi.
    rewrite item_nonneg by lia. rewrite app_nth1 by lia. apply HnA. lia.
Qed.

Lemma join_two sep x y r :
  join sep (x :: y :: r) = x ++ sep ++ join sep (y :: r).
Proof. reflexivity. Qed.

Lemma join_colon_not_empty x y r : String.eqb (join ":" (x :: y :: r)) "" = false.
Proof. rewrite join_two. destruct x; reflexivity. Qed.

Lemma hextet_texts hs :
  Forall (fun h => 0 <= h < 65536) hs ->
  Forall (fun t => all_chars is_hextet_char t = true /\ String.eqb t "" = false)
         (map pct_x hs).
Proof.
  intros H. apply Forall_map. eapply Forall_impl; [|exact H].
  intros h Hh. destruct (hextet_text h Hh) as (Hc & Hne & _). split; [exact Hc|].
  apply String.eqb_neq. exact Hne.
Qed.

Lemma nth_Forall_lt {A} (P : A -> Prop) l d k :
  Forall P l -> (k < List.length l)%nat -> P (nth k l d).
Proof.
  intros H Hk. rewrite Forall_forall in H. apply H. apply nth_In. exact Hk.
Qed.

Lemma nth_Forall {A} (P : A -> Prop) l d k : Forall P l -> P d -> P (nth k l d).
Proof.
  intros H Hd. destruct (nth_in_or_default k l d) as [Hi | ->]; [|exact Hd].
  rewrite Forall_forall in H. apply H. exact Hi.
Qed.

(** Reading a text with an empty part in the place of the hextets left
    out. *)
Lemma parse_compressed A B hi lo :
  Forall (fun h => 0 <= h < 65536) hi -> Forall (fun h => 0 <= h < 65536) lo ->
  (A = [""] /\ hi = [] \/ A = map pct_x hi /\ hi <> []) ->
  (B = [""] /\ lo = [] \/ B = map pct_x lo /\ lo <> []) ->
  (List.length hi + List.length lo <= 7)%nat ->
  V6._ip_int_from_string (join ":" (A ++ "" :: B))
  = Ok (fold_left (fun a h => Z.lor (Z.shiftl a 16) h) lo
          (Z.shiftl (fold_left (fun a h => Z.lor (Z.shiftl a 16) h) hi 0)
                    (16 * (8 - Z.of_nat (List.length hi + List.length lo))))).
Proof.
  intros Hhi Hlo HA HB Hlen.
  pose proof (hextet_texts hi Hhi) as Thi. pose proof (hextet_texts lo Hlo) as Tlo.
  set (ok := fun t => all_chars is_hextet_char t = true) in *.
  assert (FA : Forall (fun t => all_chars is_hextet_char t = true) A).
  { destruct HA as [[-> _] | [-> _]]; [repeat constructor|].
    eapply Forall_impl; [|exact Thi]. intros t [H _]. exact H. }
  assert (FB : Forall (fun t => all_chars is_hextet_char t = true) B).
  { destruct HB as [[-> _] | [-> _]]; [repeat constructor|].
    eapply Forall_impl; [|exact Tlo]. intros t [H _]. exact H. }
  assert (NA : A <> []).
  { destruct HA as [[-> _] | [-> H]]; [discriminate|].
    destruct hi; [congruence | discriminate]. }
  assert (NB : B <> []).
  { destruct HB as [[-> _] | [-> H]]; [discriminate|].
    destruct lo; [congruence | discriminate]. }
  assert (LA : List.length A = Nat.max 1 (List.length hi)).
  { destruct HA as [[-> ->] | [-> H]]; [reflexivity|]. rewrite length_map.
    destruct hi; [congruence | cbn; lia]. }
  assert (LB : List.length B = Nat.max 1 (List.length lo)).
  { destruct HB as [[-> ->] | [-> H]]; [reflexivity|]. rewrite length_map.
    destruct lo; [congruence | cbn; lia]. }
  set (parts := (A ++ "" :: B)%list).
  assert (FP : Forall (fun t => all_chars is_hextet_char t = true) parts).
  { apply Forall_app. split; [exact FA|]. constructor; [reflexivity | exact FB]. }
  assert (Lp : List.length parts = (List.length A + 1 + List.length B)%nat).
  { unfold parts. rewrite length_app. cbn [List.length]. lia. }
  unfold V6._ip_int_from_string.
  assert (Es : String.eqb (join ":" parts) "" = false).
  { unfold parts. destruct A as [|a [|a' A']]; [congruence | |];
      cbn [app]; apply join_colon_not_empty. }
  rewrite Es. cbv zeta.
  rewrite (split_join ":" parts).
  2: { unfold parts. destruct A; discriminate. }
  2: { eapply Forall_impl; [|exact FP]. intros t Ht.
       exact (all_chars_contains is_hextet_char ":" t eq_refl Ht). }
  destruct (Z.ltb_spec (Z.of_nat (List.length parts)) 3) as [C|_]; [lia|].
  assert (Ed : contains "." (V6.item parts (-1)) = false).
  { apply (all_chars_contains is_hextet_char "." _ eq_refl).
    unfold V6.item. cbn [Z.ltb Z.compare]. apply nth_Forall; [exact FP | reflexivity]. }
  rewrite Ed. cbn [bind].
  change (V6._HEXTET_COUNT + 1) with 9.
  destruct (Z.ltb_spec 9 (Z.of_nat (List.length parts))) as [C|_]; [lia|].
  unfold parts at 2 3.
  rewrite (skip_fold_found _ A B NA NB).
  2: { intros i Hi. destruct HA as [[-> _] | [-> _]]; [cbn in Hi; lia|].
       apply (nth_Forall_lt (fun t => String.eqb t "" = false)); [|lia].
       eapply Forall_impl; [|exact Thi]. intros t [_ H]. exact H. }
  2: { intros i Hi. destruct HB as [[-> _] | [-> _]]; [cbn in Hi; lia|].
       apply (nth_Forall_lt (fun t => String.eqb t "" = false)); [|lia].
       eapply Forall_impl; [|exact Tlo]. intros t [_ H]. exact H. }
  cbn [bind].
  match goal with
  | |- context [if String.eqb (V6.item parts 0) "" then ?x else ?y] =>
      assert (E0 : (if String.eqb (V6.item parts 0) "" then x else y)
                   = Ok (Z.of_nat (List.length hi)))
  end.
  { rewrite item_nonneg by lia. unfold parts.
    destruct HA as [[-> ->] | [-> H]]; [reflexivity|].
    destruct hi as [|h r]; [congruence|]. cbn [map app Z.to_nat nth].
    inversion Thi as [|? ? [_ Hn] _]; subst. rewrite Hn. cbn [List.length].
    rewrite length_map. reflexivity. }
  rewrite E0. clear E0. cbn [bind].
  match goal with
  | |- context [if String.eqb (V6.item parts (-1)) "" then ?x else ?y] =>
      assert (E1 : (if String.eqb (V6.item parts (-1)) "" then x else y)
                   = Ok (Z.of_nat (List.length lo)))
  end.
  { rewrite item_neg by lia. rewrite Lp. unfold parts.
    rewrite app_nth2 by lia.
    replace (Z.to_nat (Z.of_nat (List.length A + 1 + List.length B) + -1)
             - List.length A)%nat with (S (List.length B - 1)) by lia.
    cbn [nth].
    destruct HB as [[-> ->] | [-> H]].
    { cbn [List.length Nat.sub nth String.eqb].
      match goal with
      | |- context [negb (?e =? 0)] => replace e with 0 by lia
      end.
      reflexivity. }
    assert (Hn : String.eqb (nth (List.length (map pct_x lo) - 1) (map pct_x lo) "") ""
                 = false).
    { apply (nth_Forall_lt (fun t => String.eqb t "" = false)).
      - eapply Forall_impl; [|exact Tlo]. intros t [_ Ht]. exact Ht.
      - destruct lo; [congruence | cbn; lia]. }
    rewrite Hn. f_equal. rewrite length_map. lia. }
  rewrite E1. clear E1. cbn [bind].
  change V6._HEXTET_COUNT with 8.
  destruct (Z.ltb_spec (8 - (Z.of_nat (List.length hi) + Z.of_nat (List.length lo))) 1)
    as [C|_]; [lia|].
  cbn [bind].
  assert (F1 : fold_left (V6.hextet_step parts)
                 (V6.range 0 (Z.of_nat (List.length hi))) (Ok 0)
               = Ok (fold_left (fun a h => Z.lor (Z.shiftl a 16) h) hi 0)).
  { unfold parts. destruct HA as [[-> ->] | [-> H]].
    - rewrite range_nil by (cbn; lia). reflexivity.
    - apply hextet_fold_left. exact Hhi. }
  rewrite F1. cbn [bind].
  assert (F2 : forall acc,
             fold_left (V6.hextet_step parts)
               (V6.range (- Z.of_nat (List.length lo)) 0) (Ok acc)
             = Ok (fold_left (fun a h => Z.lor (Z.shiftl a 16) h) lo acc)).
  { intros acc. unfold parts. destruct HB as [[-> ->] | [-> H]].
    - rewrite range_nil by (cbn; lia). reflexivity.
    - replace (A ++ "" :: map pct_x lo)%list with ((A ++ [""]) ++ map pct_x lo)%list
        by (rewrite <- app_assoc; reflexivity).
      apply hextet_fold_right. exact Hlo. }
  rewrite F2. cbn [try_except]. do 3 f_equal. lia.
Qed.

(** Reading a text of eight hextets. *)
Lemma parse_full hs :
  List.length hs = 8%nat -> Forall (fun h => 0 <= h < 65536) hs ->
  V6._ip_int_from_string (join ":" (map pct_x hs))
  = Ok (fold_left (fun a h => Z.lor (Z.shiftl a 16) h) hs 0).
Proof.
  intros Hl Hhs. pose proof (hextet_texts hs Hhs) as Ths.
  set (parts := map pct_x hs).
  assert (Lp : List.length parts = 8%nat) by (unfold parts; rewrite length_map; exact Hl).
  assert (FP : Forall (fun t => all_chars is_hextet_char t = true) parts).
  { eapply Forall_impl; [|exact Ths]. intros t [H _]. exact H. }
  assert (NP : forall k, (k < 8)%nat -> String.eqb (nth k parts "") "" = false).
  { intros k Hk. apply (nth_Forall_lt (fun t => String.eqb t "" = false)); [|lia].
    eapply Forall_impl; [|exact Ths]. intros t [_ H]. exact H. }
  unfold V6._ip_int_from_string.
  assert (Es : String.eqb (join ":" parts) "" = false).
  { destruct parts as [|a [|b r]]; [discriminate | discriminate |].
    apply join_colon_not_empty. }
  rewrite Es. cbv zeta.
  rewrite (split_join ":" parts).
  2: { destruct parts; discriminate. }
  2: { eapply Forall_impl; [|exact FP]. intros t Ht.
       exact (all_chars_contains is_hextet_char ":" t eq_refl Ht). }
  rewrite Lp. cbn [Z.of_nat Pos.of_succ_nat Pos.succ Z.ltb Z.compare Pos.compare
                   Pos.compare_cont].
  assert (Ed : contains "." (V6.item parts (-1)) = false).
  { apply (all_chars_contains is_hextet_char "." _ eq_refl).
    unfold V6.item. cbn [Z.ltb Z.compare]. apply nth_Forall; [exact FP | reflexivity]. }
  rewrite Ed. cbn [bind]. rewrite Lp.
  change (V6._HEXTET_COUNT + 1 <? Z.of_nat 8) with false. cbv iota.
  rewrite skip_fold_pass.
  2: { intros i Hi. apply In_range in Hi. rewrite item_nonneg by lia.
       apply NP. lia. }
  cbn [bind]. change (negb (Z.of_nat 8 =? V6._HEXTET_COUNT)) with false. cbv iota.
  rewrite item_nonneg by lia. change (Z.to_nat 0) with 0%nat.
  rewrite (NP 0%nat) by lia.
  rewrite item_neg by lia. rewrite Lp. change (Z.to_nat (Z.of_nat 8 + -1)) with 7%nat.
  rewrite (NP 7%nat) by lia. cbn [bind].
  assert (F1 : fold_left (V6.hextet_step parts) (V6.range 0 (Z.of_nat 8)) (Ok 0)
               = Ok (fold_left (fun a h => Z.lor (Z.shiftl a 16) h) hs 0)).
  { unfold parts. rewrite <- (app_nil_r (map pct_x hs)), <- Hl.
    apply hextet_fold_left. exact Hhs. }
  rewrite F1. cbn [bind]. rewrite range_nil by lia. cbn [fold_left try_except].
  change (16 * 0) with 0. rewrite Z.shiftl_0_r. reflexivity.
Qed.

Lemma lor_shift_add a h : 0 <= h < 65536 -> Z.lor (Z.shiftl a 16) h = a * 65536 + h.
Proof.
  intros H. rewrite Z.shiftl_mul_pow2 by lia. change (2 ^ 16) with 65536.
  assert (L : Z.land (a * 65536) h = 0).
  { apply Z.bits_inj'. intros i Hi. rewrite Z.land_spec, Z.bits_0.
    destruct (Z.ltb_spec i 16).
    - replace 65536 with (2 ^ 16) by reflexivity.
      rewrite Z.mul_pow2_bits_low by lia. reflexivity.
    - rewrite (Bits.testbit_high h 16 i) by (change (2 ^ 16) with 65536; lia).
      apply andb_false_r. }
  rewrite <- (Z.lxor_lor _ _ L). symmetry. apply Z.add_nocarry_lxor. exact L.
Qed.

Lemma hextet_value hs : forall acc,
  Forall (fun h => 0 <= h < 65536) hs ->
  fold_left (fun a h => Z.lor (Z.shiftl a 16) h) hs acc
  = fold_left (fun a h => a * 65536 + h) hs acc.
Proof.
  induction hs as [|h r IH]; intros acc H; [reflexivity|].
  inversion H as [|? ? Hh Hr]; subst. cbn [fold_left].
  rewrite (lor_shift_add acc h Hh). apply IH. exact Hr.
Qed.

Lemma fold_zeros mid : forall acc,
  Forall (fun h => h = 0) mid ->
  fold_left (fun a h => a * 65536 + h) mid acc
  = acc * 65536 ^ Z.of_nat (List.length mid).
Proof.
  induction mid as [|h r IH]; intros acc H.
  - cbn. lia.
  - inversion H as [|? ? Hh Hr]; subst. cbn [fold_left List.length].
    rewrite (IH _ Hr), Nat2Z.inj_succ, Z.pow_succ_r by lia. lia.
Qed.

Lemma all_chars_join p sep l :
  all_chars p sep = true -> Forall (fun t => all_chars p t = true) l ->
  all_chars p (join sep l) = true.
Proof.
  intros Hs H. induction H as [|t r Ht Hr IH]; [reflexivity|].
  destruct r as [|u r]; [exact Ht|].
  rewrite join_two, !all_chars_app, Ht, Hs, IH. reflexivity.
Qed.

Lemma Forall_firstn_of {A} (P : A -> Prop) l : forall n,
  Forall P l -> Forall P (firstn n l).
Proof.
  induction l as [|x r IH]; intros [|n] H; cbn [firstn]; try constructor.
  - inversion H; assumption.
  - apply IH. inversion H; assumption.
Qed.

Lemma Forall_skipn_of {A} (P : A -> Prop) l : forall n,
  Forall P l -> Forall P (skipn n l).
Proof.
  induction l as [|x r IH]; intros [|n] H; cbn [skipn]; try assumption.
  apply IH. inversion H; assumption.
Qed.

Lemma compress_chars T :
  Forall (fun t => all_chars is_hextet_char t = true) T ->
  Forall (fun t => all_chars is_hextet_char t = true) (V6._compress_hextets T).
Proof.
  intros H. destruct (_compress_hextets_spec T) as [-> | (bs & e & _ & _ & _ & ->)];
    [exact H|].
  apply Forall_app. split; [destruct (bs =? 0); repeat constructor|].
  apply Forall_app. split; [apply Forall_firstn_of; exact H|].
  apply Forall_app. split; [repeat constructor|].
  apply Forall_app. split; [apply Forall_skipn_of; exact H|].
  destruct (e =? _); repeat constructor.
Qed.

(** The text of an IPv6 address, without a zone, reads back as the
    address. *)
Theorem v6_text_round_trip n :
  0 <= n < 2 ^ 128 ->
  exists t,
    V6._string_from_ip_int n = Ok t /\
    V6._ip_int_from_string t = Ok n /\
    all_chars is_v6_text_char t = true.
Proof.
  intros Hn. unfold V6._string_from_ip_int.
  destruct (Z.ltb_spec (_ALL_ONES (Version:=_BaseV6)) n) as [C|_].
  { change (_ALL_ONES (Version:=_BaseV6)) with (2 ^ 128 - 1) in C. lia. }
  cbv zeta. destruct (pct_0x_32 n Hn) as [Hlen Hall].
  destruct (hextets_of_hex (pct_0x 32 n) n Hlen Hall (pct_0x_value n ltac:(lia)))
    as (hs & Hl & Hhs & Em & Ev).
  rewrite Em. cbn [bind]. eexists. split; [reflexivity|].
  pose proof (hextet_texts hs Hhs) as Ths.
  assert (FT : Forall (fun t => all_chars is_hextet_char t = true) (map pct_x hs)).
  { eapply Forall_impl; [|exact Ths]. intros t [H _]. exact H. }
  split.
  2: { apply all_chars_join; [reflexivity|].
       eapply Forall_impl; [|exact (compress_chars _ FT)].
       intros t. apply all_chars_impl. intros c Hc. unfold is_v6_text_char.
       rewrite Hc. reflexivity. }
  rewrite <- (hextet_value hs 0 Hhs) in Ev.
  destruct (_compress_hextets_spec (map pct_x hs))
    as [-> | (bs & e & Hbs & He & Hz & ->)].
  - rewrite (parse_full hs Hl Hhs). f_equal. exact Ev.
  - rewrite length_map, Hl in He. rewrite length_map, Hl.
    set (hi := firstn (Z.to_nat bs) hs). set (lo := skipn (Z.to_nat e) hs).
    set (mid := firstn (Z.to_nat (e - bs)) (skipn (Z.to_nat bs) hs)).
    assert (Ehs : hs = (hi ++ mid ++ lo)%list).
    { unfold hi, mid, lo.
      replace (Z.to_nat e) with (Z.to_nat (e - bs) + Z.to_nat bs)%nat by lia.
      rewrite <- skipn_skipn, firstn_skipn, firstn_skipn. reflexivity. }
    assert (Lhi : List.length hi = Z.to_nat bs)
      by (unfold hi; rewrite length_firstn; lia).
    assert (Llo : List.length lo = (8 - Z.to_nat e)%nat)
      by (unfold lo; rewrite length_skipn; lia).
    assert (Lmid : List.length mid = Z.to_nat (e - bs))
      by (unfold mid; rewrite length_firstn, length_skipn; lia).
    assert (Hmid : Forall (fun h => h = 0) mid).
    { apply Forall_forall. intros x Hx.
      apply (In_nth _ _ 0) in Hx as (k & Hk & <-). rewrite Lmid in Hk.
      unfold mid. rewrite nth_firstn. destruct (Nat.ltb_spec k (Z.to_nat (e - bs))); [|lia].
      rewrite nth_skipn.
      assert (Hr : 0 <= nth (Z.to_nat bs + k) hs 0 < 65536).
      { apply (nth_Forall_lt (fun h => 0 <= h < 65536)); [exact Hhs | lia]. }
      destruct (hextet_text _ Hr) as (_ & _ & _ & H0). apply H0.
      rewrite <- (Hz (Z.to_nat bs + k)%nat) by lia.
      rewrite (nth_indep _ "" (pct_x 0)) by (rewrite length_map; lia).
      symmetry. apply map_nth. }
    assert (Fhi : Forall (fun h => 0 <= h < 65536) hi) by (apply Forall_firstn_of; exact Hhs).
    assert (Flo : Forall (fun h => 0 <= h < 65536) lo) by (apply Forall_skipn_of; exact Hhs).
    match goal with
    | |- V6._ip_int_from_string (join ":" ?L) = _ =>
        replace L with (((if bs =? 0 then [""] else []) ++ firstn (Z.to_nat bs) (map pct_x hs))
                        ++ "" :: (skipn (Z.to_nat e) (map pct_x hs)
                                  ++ (if e =? Z.of_nat 8 then [""] else [])))%list
          by (rewrite <- !app_assoc; reflexivity)
    end.
    rewrite (parse_compressed _ _ hi lo Fhi Flo).
    + f_equal. rewrite !hextet_value by assumption.
      transitivity (fold_left (fun a h => a * 65536 + h) (hi ++ mid ++ lo)%list 0);
        [|rewrite <- Ehs, <- (hextet_value hs 0 Hhs); exact Ev].
      rewrite !fold_left_app, (fold_zeros mid _ Hmid).
      rewrite Z.shiftl_mul_pow2 by lia. rewrite Lhi, Llo, Lmid.
      do 2 f_equal. replace 65536 with (2 ^ 16) by reflexivity.
      rewrite <- Z.pow_mul_r by lia. f_equal. lia.
    + destruct (Z.eqb_spec bs 0) as [->|Nb].
      * left. split; reflexivity.
      * right. cbn [app]. unfold hi. rewrite firstn_map. split; [reflexivity|].
        intros C. apply (f_equal (@List.length Z)) in C. fold hi in C.
        rewrite Lhi in C. cbn [List.length] in C. lia.
    + destruct (Z.eqb_spec e (Z.of_nat 8)) as [->|Ne].
      * left. split.
        -- rewrite skipn_all2 by (rewrite length_map; lia). reflexivity.
        -- unfold lo. apply skipn_all2. lia.
      * right. rewrite app_nil_r. unfold lo. rewrite skipn_map. split; [reflexivity|].
        intros C. apply (f_equal (@List.length Z)) in C. fold lo in C.
        rewrite Llo in C. cbn [List.length] in C. lia.
    + lia.
Qed.

Lemma partition_found sep h t :
  contains sep h = false -> partition sep (h ++ String sep t) = (h, true, t).
Proof.
  induction h as [|c r IH]; intros H; cbn [append partition contains] in *.
  - rewrite Ascii.eqb_refl. reflexivity.
  - apply orb_false_iff in H as [Hc Hr]. rewrite Hc, (IH Hr). reflexivity.
Qed.

Lemma partition_spec sep s : forall h t,
  partition sep s = (h, true, t) -> s = h ++ String sep t.
Proof.
  induction s as [|c r IH]; intros h t H; cbn [partition] in H; [discriminate|].
  destruct (Ascii.eqb_spec c sep) as [->|Hne].
  - injection H as <- <-. reflexivity.
  - destruct (partition sep r) as [[h' f] t'] eqn:E.
    injection H as <- -> <-. cbn [append]. f_equal. apply IH. reflexivity.
Qed.

Lemma v6_text_chars t :
  all_chars is_v6_text_char t = true ->
  contains "/" t = false /\ contains "%" t = false.
Proof.
  intros H. split.
  - exact (all_chars_contains is_v6_text_char "/" t eq_refl H).
  - exact (all_chars_contains is_v6_text_char "%" t eq_refl H).
Qed.

(** The text of an IPv6 address reads back as the address, zone
    included. *)
Lemma IPv6Address_text_round_trip a :
  0 <= v6_ip a < 2 ^ 128 -> zone_ok (_scope_id a) ->
  exists t, IPv6Address_str a = Ok t /\ IPv6Address_of_str t = Ok a.
Proof.
  intros Hr Hz. destruct a as [n zone]. cbn [v6_ip _scope_id] in *.
  destruct (v6_text_round_trip n Hr) as (t0 & Et & Ep & Hc).
  destruct (v6_text_chars t0 Hc) as [Hs Hp].
  unfold IPv6Address_str. cbn [v6_ip _scope_id]. rewrite Et. cbn [bind].
  destruct zone as [z|].
  - destruct Hz as (Hne & Hzp & Hzs).
    destruct (String.eqb_spec z ""); [congruence|].
    eexists. split; [reflexivity|].
    unfold IPv6Address_of_str.
    change (t0 ++ "%" ++ z) with (t0 ++ String "%" z).
    rewrite contains_app. cbn [contains]. rewrite Hs, Hzs. cbn [orb].
    replace (Ascii.eqb "%" "/") with false by reflexivity. cbn [orb].
    unfold V6._split_scope_id. rewrite (partition_found "%" t0 z Hp). cbn [negb].
    destruct (String.eqb_spec z ""); [congruence|]. rewrite Hzp. cbn [orb bind].
    rewrite Ep. reflexivity.
  - eexists. split; [reflexivity|].
    unfold IPv6Address_of_str. rewrite Hs.
    unfold V6._split_scope_id. rewrite (partition_no_sep "%" t0 Hp). cbn [negb bind].
    rewrite Ep. reflexivity.
Qed.

(** The zone of an address that was read from a text. *)
Lemma IPv6Address_of_str_zone s a :
  IPv6Address_of_str s = Ok a -> zone_ok (_scope_id a).
Proof.
  unfold IPv6Address_of_str. destruct (contains "/" s) eqn:Hs; [discriminate|].
  unfold V6._split_scope_id.
  destruct (partition "%" s) as [[h f] t] eqn:Ep. destruct f; cbn [negb].
  - destruct (String.eqb_spec t "") as [|Hne]; [discriminate|]. cbn [orb].
    destruct (contains "%" t) eqn:Hp; [discriminate|]. cbn [bind].
    destruct (V6._ip_int_from_string h); [|discriminate].
    intros [= <-]. cbn [_scope_id zone_ok].
    split; [exact Hne|]. split; [exact Hp|].
    apply partition_spec in Ep. rewrite Ep, contains_app in Hs.
    apply orb_false_iff in Hs as [_ Hs]. cbn [contains] in Hs.
    apply orb_false_iff in Hs as [_ Hs]. exact Hs.
  - cbn [bind]. destruct (V6._ip_int_from_string h); [|discriminate].
    intros [= <-]. exact I.
Qed.

Lemma network_address_zone s net :
  IPv6Network s false = Ok net -> zone_ok (_scope_id (network_address net)).
Proof.
  intros H.
  destruct (Network_init_inv (AC:=IPv6Address) s net H)
    as (addr & mask & a & _ & Ha & _ & _ & Hc).
  cbn [of_str of_int int_ IPv6Address] in Ha, Hc.
  destruct Hc as [-> | [_ Hc]].
  - exact (IPv6Address_of_str_zone addr a Ha).
  - apply IPv6Address_of_int_spec_eq in Hc. rewrite Hc. exact I.
Qed.

Lemma IPv6Address_reads_back a t :
  0 <= v6_ip a < 2 ^ 128 -> zone_ok (_scope_id a) ->
  IPv6Address_str a = Ok t -> IPv6Address_of_str t = Ok a.
Proof.
  intros Hr Hz Et. destruct (IPv6Address_text_round_trip a Hr Hz) as (t' & Et' & Er).
  congruence.
Qed.

(** X14. The address texts of an IPv6 dictionary read back: the entries
    "Network Address", "First usable Address" and "Last usable Address"
    are texts that [IPv6Address] reads as the network address (with its
    zone), as [network[1]] and as [network[-1]]. *)
Theorem X_ipv6_texts_read_back :
  forall s d,
    calculate_ipv6_subnet_info s = Ok (PyDict d) ->
    exists net f l,
      IPv6Network s false = Ok net /\
      getitem net 1 = Ok f /\
      getitem net (-1) = Ok l /\
      reads_back_v6 d "Network Address" (network_address net) /\
      reads_back_v6 d "First usable Address" f /\
      reads_back_v6 d "Last usable Address" l.
Proof.
  intros s d Hd.
  destruct (calculate_ipv6_cases s) as [[e He] | (net & Hn & Hp)].
  { rewrite (calculate_ipv6_invalid s e He) in Hd. discriminate. }
  destruct (Z.eq_dec (_prefixlen net) 128) as [E|E].
  { rewrite (calculate_ipv6_single s net Hn E) in Hd. discriminate. }
  pose proof (Network_init_wf (AC:=IPv6Address) s net Hn) as Hwf.
  destruct (calculate_ipv6_dict s net Hn ltac:(lia))
    as (ns & fs & ls & Ens & Efs & Els & Hc).
  rewrite Hc in Hd. injection Hd as <-.
  pose proof (v6_first net Hwf ltac:(lia)) as Ef.
  pose proof (v6_last net Hwf) as El.
  pose proof (v6_network_range net Hwf) as Hr.
  assert (2 <= 2 ^ (128 - _prefixlen net)).
  { change 2 with (2 ^ 1) at 1. apply Z.pow_le_mono_r; lia. }
  assert (P128 : 2 ^ 128 = 340282366920938463463374607431768211456) by reflexivity.
  exists net. do 2 eexists. split; [exact Hn|]. split; [exact Ef|]. split; [exact El|].
  split; [|split]; eexists; (split; [reflexivity|]).
  - apply IPv6Address_reads_back; [lia | exact (network_address_zone s net Hn) | exact Ens].
  - apply IPv6Address_reads_back; [cbn [v6_ip]; lia | exact I | exact Efs].
  - apply IPv6Address_reads_back; [cbn [v6_ip]; lia | exact I | exact Els].
Qed.

(** X14 at the dictionary of [fe80::%eth0/64]. *)
Lemma X_ipv6_texts_read_back_witness :
  exists net f l,
    IPv6Network "fe80::%eth0/64" false = Ok net /\
    getitem net 1 = Ok f /\
    getitem net (-1) = Ok l /\
    reads_back_v6
      [("version", VInt 6); ("Input CIDR", VStr "fe80::%eth0/64");
       ("Network Address", VStr "fe80::%eth0");
       ("First usable Address", VStr "fe80::1");
       ("Last usable Address", VStr "fe80::ffff:ffff:ffff:ffff");
       ("Total Addresses", VInt 18446744073709551616)]
      "Network Address" (network_address net) /\
    reads_back_v6
      [("version", VInt 6); ("Input CIDR", VStr "fe80::%eth0/64");
       ("Network Address", VStr "fe80::%eth0");
       ("First usable Address", VStr "fe80::1");
       ("Last usable Address", VStr "fe80::ffff:ffff:ffff:ffff");
       ("Total Addresses", VInt 18446744073709551616)]
      "First usable Address" f /\
    reads_back_v6
      [("version", VInt 6); ("Input CIDR", VStr "fe80::%eth0/64");
       ("Network Address", VStr "fe80::%eth0");
       ("First usable Address", VStr "fe80::1");
       ("Last usable Address", VStr "fe80::ffff:ffff:ffff:ffff");
       ("Total Addresses", VInt 18446744073709551616)]
      "Last usable Address" l.
Proof.
  apply (X_ipv6_texts_read_back "fe80::%eth0/64"). vm_compute. reflexivity.
Defined.

(** *** The canonical text of an IPv6 network *)

Lemma prefix_texts_ok_v6 :
  forallb prefix_text_ok_v6 (map Z.of_nat (seq 0 129)) = true.
Proof. vm_compute. reflexivity. Qed.

Lemma prefix_text_v6 p :
  0 <= p <= 128 ->
  contains "/" (str_int p) = false /\
  _make_netmask_v6 (MaskStr (str_int p))
  = Ok ({| v6_ip := _ip_int_from_prefix (V:=_BaseV6) p; _scope_id := None |}, p).
Proof.
  intros H.
  pose proof (proj1 (forallb_forall _ _) prefix_texts_ok_v6 p
                (in_seq_Z p 0 129 ltac:(lia))) as Hc.
  unfold prefix_text_ok_v6 in Hc. cbv zeta in Hc.
  apply andb_true_iff in Hc as [H1 H2]. apply negb_true_iff in H1.
  split; [exact H1|].
  destruct (_make_netmask_v6 (MaskStr (str_int p))) as [[nm q]|]; [|discriminate].
  apply andb_true_iff in H2 as [H2 H3]. apply andb_true_iff in H2 as [H2 H4].
  apply Z.eqb_eq in H2, H3. subst q. destruct nm as [x z]. cbn [v6_ip _scope_id] in *.
  destruct z; [discriminate|]. subst x. reflexivity.
Qed.

Lemma reads_as_of_network_v6 s net :
  IPv6Network s false = Ok net ->
  exists a,
    reads_as IPv6Address s a (_prefixlen net) /\
    v6_ip (network_address net)
    = network_bits (V:=_BaseV6) (v6_ip a) (_prefixlen net) /\
    net = Build_Network _ IPv6Address (network_address net)
            {| v6_ip := _ip_int_from_prefix (V:=_BaseV6) (_prefixlen net);
               _scope_id := None |}
            (_prefixlen net).
Proof.
  intros H.
  destruct (Network_init_inv (AC:=IPv6Address) s net H)
    as (addr & mask & a & Hs & Ha & Hm & _).
  exists a.
  assert (R : reads_as IPv6Address s a (_prefixlen net)).
  { exists addr, mask, (netmask net). repeat split; assumption. }
  split; [exact R|].
  pose proof (IPv6Network_reads s a _ R) as E. rewrite H in E.
  assert (En : net = Build_Network _ IPv6Address
                 (if network_bits (V:=_BaseV6) (v6_ip a) (_prefixlen net) =? v6_ip a
                  then a
                  else {| v6_ip := network_bits (V:=_BaseV6) (v6_ip a) (_prefixlen net);
                          _scope_id := None |})
                 {| v6_ip := _ip_int_from_prefix (V:=_BaseV6) (_prefixlen net);
                    _scope_id := None |}
                 (_prefixlen net)) by congruence.
  assert (Ea : network_address net
               = (if network_bits (V:=_BaseV6) (v6_ip a) (_prefixlen net) =? v6_ip a
                  then a
                  else {| v6_ip := network_bits (V:=_BaseV6) (v6_ip a) (_prefixlen net);
                          _scope_id := None |})).
  { rewrite En at 1. reflexivity. }
  split.
  - rewrite Ea.
    destruct (Z.eqb_spec (network_bits (V:=_BaseV6) (v6_ip a) (_prefixlen net)) (v6_ip a))
      as [Eq|]; [symmetry; exact Eq | reflexivity].
  - rewrite En at 1. rewrite <- Ea. reflexivity.
Qed.

(** X15. The "Input CIDR" entry of an IPv6 dictionary is a text of the
    network that the calculator reads back: given this entry, the
    calculator returns the same dictionary, a zone included. *)
Theorem X_input_cidr_canonical_v6 :
  forall s d,
    calculate_ipv6_subnet_info s = Ok (PyDict d) ->
    exists c,
      get d "Input CIDR" = Some (VStr c) /\
      calculate_ipv6_subnet_info c = Ok (PyDict d).
Proof.
  intros s d Hd.
  destruct (calculate_ipv6_cases s) as [[e He] | (net & Hn & Hp)].
  { rewrite (calculate_ipv6_invalid s e He) in Hd. discriminate. }
  destruct (Z.eq_dec (_prefixlen net) 128) as [E|E].
  { rewrite (calculate_ipv6_single s net Hn E) in Hd. discriminate. }
  pose proof (Network_init_wf (AC:=IPv6Address) s net Hn) as Hwf.
  destruct (calculate_ipv6_dict s net Hn ltac:(lia))
    as (ns & fs & ls & Ens & _ & _ & Hc).
  rewrite Hc in Hd. injection Hd as <-.
  exists (ns ++ "/" ++ str_int (_prefixlen net)). split; [reflexivity|].
  etransitivity; [|exact Hc].
  apply calculate_ipv6_ext.
  destruct (reads_as_of_network_v6 s net Hn) as (a & R & Ena & Enet).
  pose proof (v6_network_range net Hwf) as Hr.
  assert (P128 : 2 ^ 128 = 340282366920938463463374607431768211456) by reflexivity.
  pose proof (fun H => IPv6Address_reads_back _ _ H (network_address_zone s net Hn) Ens)
    as Rn.
  specialize (Rn ltac:(lia)).
  destruct (prefix_text_v6 (_prefixlen net) Hp) as [Hs Hm].
  assert (R' : reads_as IPv6Address (ns ++ "/" ++ str_int (_prefixlen net))
                 (network_address net) (_prefixlen net)).
  { exists ns, (MaskStr (str_int (_prefixlen net))),
           {| v6_ip := _ip_int_from_prefix (V:=_BaseV6) (_prefixlen net);
              _scope_id := None |}.
    split; [apply _split_addr_prefix_mask;
            [exact (IPv6Address_of_str_no_slash _ _ Rn) | exact Hs]|].
    split; [exact Rn | exact Hm]. }
  rewrite (IPv6Network_reads _ _ _ R'), Hn.
  rewrite Ena, network_bits_idem, <- Ena, Z.eqb_refl. rewrite Enet at 4. reflexivity.
Qed.

(** X15 at the dictionary of [fe80::%eth0/64]. *)
Lemma X_input_cidr_canonical_v6_witness :
  exists c,
    get [("version", VInt 6); ("Input CIDR", VStr "fe80::%eth0/64");
         ("Network Address", VStr "fe80::%eth0");
         ("First usable Address", VStr "fe80::1");
         ("Last usable Address", VStr "fe80::ffff:ffff:ffff:ffff");
         ("Total Addresses", VInt 18446744073709551616)] "Input CIDR"
    = Some (VStr c) /\
    calculate_ipv6_subnet_info c
    = Ok (PyDict
            [("version", VInt 6); ("Input CIDR", VStr "fe80::%eth0/64");
             ("Network Address", VStr "fe80::%eth0");
             ("First usable Address", VStr "fe80::1");
             ("Last usable Address", VStr "fe80::ffff:ffff:ffff:ffff");
             ("Total Addresses", VInt 18446744073709551616)]).
Proof.
  apply (X_input_cidr_canonical_v6 "fe80::%eth0/64"). vm_compute. reflexivity.
Defined.

(** *** The column of the values in a run *)

(** X16. In every run that prints a dictionary, the value of each line
    starts in column 24: the label, with its two blanks and its colon, is
    padded to 24 characters, the longest label having 20. *)
Theorem X_output_column :
  forall s d,
    calculate_ipv4_subnet_info s = Ok (PyDict d) \/
    calculate_ipv6_subnet_info s = Ok (PyDict d) ->
    Forall2 (fun kv line =>
               line = ljust ("  " ++ fst kv ++ ":") 24 ++ render (snd kv) /\
               len (ljust ("  " ++ fst kv ++ ":") 24) = 24)
            d (print_subnet_info d).
Proof.
  intros s d [Hd | Hd].
  - destruct (calculate_ipv4_cases s) as [[e He] | (net & Hn & Hp)].
    { rewrite (calculate_ipv4_invalid s e He) in Hd. discriminate. }
    destruct (Z.eq_dec (_prefixlen net) 32) as [E|E].
    { rewrite (calculate_ipv4_single s net Hn E) in Hd. discriminate. }
    destruct (calculate_ipv4_dict s net Hn ltac:(lia))
      as (ns & bs & fs & ls & _ & _ & _ & _ & Hc).
    rewrite Hc in Hd. injection Hd as <-.
    unfold print_subnet_info. cbn [map fst].
    match goal with
    | |- context [fold_left ?f ?l 0] =>
        replace (fold_left f l 0) with 20 by (vm_compute; reflexivity)
    end.
    cbn [map]. change (20 + 4) with 24.
    repeat (constructor; [split; [reflexivity | vm_compute; reflexivity]|]).
    constructor.
  - destruct (calculate_ipv6_cases s) as [[e He] | (net & Hn & Hp)].
    { rewrite (calculate_ipv6_invalid s e He) in Hd. discriminate. }
    destruct (Z.eq_dec (_prefixlen net) 128) as [E|E].
    { rewrite (calculate_ipv6_single s net Hn E) in Hd. discriminate. }
    destruct (calculate_ipv6_dict s net Hn ltac:(lia))
      as (ns & fs & ls & _ & _ & _ & Hc).
    rewrite Hc in Hd. injection Hd as <-.
    unfold print_subnet_info. cbn [map fst].
    match goal with
    | |- context [fold_left ?f ?l 0] =>
        replace (fold_left f l 0) with 20 by (vm_compute; reflexivity)
    end.
    cbn [map]. change (20 + 4) with 24.
    repeat (constructor; [split; [reflexivity | vm_compute; reflexivity]|]).
    constructor.
Qed.

(** X16 at the dictionary of [192.168.1.0/24]. *)
Lemma X_output_column_witness :
  Forall2 (fun kv line =>
             line = ljust ("  " ++ fst kv ++ ":") 24 ++ render (snd kv) /\
             len (ljust ("  " ++ fst kv ++ ":") 24) = 24)
          [("version", VInt 4); ("Input CIDR", VStr "192.168.1.0/24");
           ("Network Address", VStr "192.168.1.0");
           ("Broadcast Address", VStr "192.168.1.255");
           ("First usable Address", VStr "192.168.1.1");
           ("Last usable Address", VStr "192.168.1.254");
           ("Total Addresses", VInt 256)]
          (print_subnet_info
             [("version", VInt 4); ("Input CIDR", VStr "192.168.1.0/24");
              ("Network Address", VStr "192.168.1.0");
              ("Broadcast Address", VStr "192.168.1.255");
              ("First usable Address", VStr "192.168.1.1");
              ("Last usable Address", VStr "192.168.1.254");
              ("Total Addresses", VInt 256)]).
Proof.
  apply (X_output_column "192.168.1.0/24"). left. vm_compute. reflexivity.
Defined.

(** *** A prefix length out of range *)

Lemma decimal_digit_chars c :
  is_decimal_digit c = true ->
  Ascii.eqb c "'" = false /\ Ascii.eqb c "\" = false /\ Ascii.eqb c "/" = false /\
  Ascii.eqb c "." = false /\ 32 <= ord c < 127.
Proof.
  unfold is_decimal_digit. intros H. apply andb_true_iff in H as [H1 H2].
  apply Z.leb_le in H1, H2.
  split; [destruct (Ascii.eqb_spec c "'") as [->|]; [|reflexivity];
          change (ord "'") with 39 in H1; lia|].
  split; [destruct (Ascii.eqb_spec c "\") as [->|]; [|reflexivity];
          change (ord "\") with 92 in H2; lia|].
  split; [destruct (Ascii.eqb_spec c "/") as [->|]; [|reflexivity];
          change (ord "/") with 47 in H1; lia|].
  split; [destruct (Ascii.eqb_spec c ".") as [->|]; [|reflexivity];
          change (ord ".") with 46 in H1; lia|].
  lia.
Qed.

Lemma digit_char_decimal d : 0 <= d < 10 -> is_decimal_digit (digit_char d) = true.
Proof.
  intros H.
  assert (C : d = 0 \/ d = 1 \/ d = 2 \/ d = 3 \/ d = 4 \/ d = 5 \/ d = 6 \/ d = 7 \/
              d = 8 \/ d = 9) by lia.
  repeat (destruct C as [->|C]; [reflexivity|]). subst d. reflexivity.
Qed.

Lemma str_int_digits v :
  0 <= v -> all_chars is_decimal_digit (str_int v) = true /\ str_int v <> "".
Proof.
  intros H. unfold str_int. destruct (Z.ltb_spec v 0); [lia|].
  split; [|apply digits_str_not_empty].
  unfold digits_str. apply all_chars_of_list. apply Forall_rev.
  eapply Forall_impl; [|apply (digits_rev_range 10); lia].
  intros d Hd. apply digit_char_decimal. exact Hd.
Qed.

(** [repr] of a text of decimal digits puts it between single quotes. *)
Lemma repr_digits s :
  all_chars is_decimal_digit s = true -> repr s = "'" ++ s ++ "'".
Proof.
  intros H. unfold repr.
  assert (Hq : repr_quote s = "'"%char).
  { unfold repr_quote.
    rewrite (all_chars_contains is_decimal_digit "'" s eq_refl H). reflexivity. }
  rewrite Hq. clear Hq. cbn [append]. f_equal.
  induction s as [|c r IH]; [reflexivity|].
  cbn [all_chars] in H. apply andb_true_iff in H as [Hc Hr].
  destruct (decimal_digit_chars c Hc) as (H1 & H2 & _ & _ & H3).
  cbn [repr_body append]. rewrite H1, H2. cbn [orb].
  destruct (Z.eqb_spec (ord c) 9); [lia|]. destruct (Z.eqb_spec (ord c) 10); [lia|].
  destruct (Z.eqb_spec (ord c) 13); [lia|]. destruct (Z.ltb_spec (ord c) 32); [lia|].
  destruct (Z.eqb_spec (ord c) 127); [lia|]. cbn [orb].
  destruct (Z.ltb_spec (ord c) 127); [|lia]. cbn [append]. rewrite (IH Hr). reflexivity.
Qed.

Lemma digits_ascii s :
  all_chars is_decimal_digit s = true -> s <> "" -> isascii s && isdigit s = true.
Proof.
  intros H Hne. unfold isascii, isdigit. apply andb_true_iff. split.
  - revert H. apply all_chars_impl. intros c Hc.
    destruct (decimal_digit_chars c Hc) as (_ & _ & _ & _ & Hr). apply Z.ltb_lt. lia.
  - apply andb_true_iff. split.
    + apply negb_true_iff. apply String.eqb_neq. exact Hne.
    + revert H. apply all_chars_impl. intros c Hc. rewrite Hc. reflexivity.
Qed.

(** A prefix length above the maximum, in decimal. *)
Lemma _prefix_from_prefix_string_above {V : Version} v :
  0 <= _max_prefixlen -> _max_prefixlen < v ->
  _prefix_from_prefix_string (str_int v)
  = raise NetmaskValueError ("'" ++ str_int v ++ "' is not a valid netmask").
Proof.
  intros H0 H. destruct (str_int_digits v ltac:(lia)) as [Hd Hne].
  unfold _prefix_from_prefix_string. rewrite (digits_ascii _ Hd Hne). cbn [negb].
  rewrite int_of_str_int by lia. cbn [try_except bind].
  destruct (Z.leb_spec 0 v); [|lia]. destruct (Z.leb_spec v _max_prefixlen); [lia|].
  cbn [andb negb]. unfold _report_invalid_netmask, raise.
  rewrite (repr_digits _ Hd). rewrite !append_assoc. reflexivity.
Qed.

(** X17. A prefix length above the maximum: for a valid address and a
    number above 32 (IPv4) or 128 (IPv6) written in decimal after the
    slash, the calculator answers that this text, between quotes, is not a
    valid netmask. *)
Theorem X_prefix_out_of_range :
  (forall a x v,
     IPv4Address_of_str a = Ok x -> 32 < v ->
     calculate_ipv4_subnet_info (a ++ "/" ++ str_int v)
     = Ok (PyStr ("Error: Invalid IPv4 address or prefix. '"
                  ++ str_int v ++ "' is not a valid netmask")))
  /\
  (forall a x v,
     IPv6Address_of_str a = Ok x -> 128 < v ->
     calculate_ipv6_subnet_info (a ++ "/" ++ str_int v)
     = Ok (PyStr ("Error: Invalid IPv6 address or prefix. '"
                  ++ str_int v ++ "' is not a valid netmask"))).
Proof.
  split; intros a x v Ha Hv.
  - destruct (str_int_digits v ltac:(lia)) as [Hd Hne].
    pose proof (all_chars_contains is_decimal_digit "/" _ eq_refl Hd) as Hs.
    pose proof (all_chars_contains is_decimal_digit "." _ eq_refl Hd) as Hdot.
    apply (calculate_ipv4_invalid _
             (Exn NetmaskValueError ("'" ++ str_int v ++ "' is not a valid netmask"))).
    eapply Network_init_mask_raises;
      [apply (_split_addr_prefix_mask a _ (IPv4Address_of_str_no_slash a x Ha) Hs)
      | exact Ha |].
    cbn [_make_netmask IPv4Address]. unfold _make_netmask_v4.
    rewrite (_prefix_from_prefix_string_above (V:=_BaseV4) v)
      by (change (_max_prefixlen (Version:=_BaseV4)) with 32; lia).
    cbn [try_except dispatch raise]. 
    change (isinstance (Exn NetmaskValueError ("'" ++ str_int v ++ "' is not a valid netmask"))
              NetmaskValueError) with true. cbv iota.
    unfold _prefix_from_ip_string, V4._ip_int_from_string.
    destruct (String.eqb_spec (str_int v) ""); [congruence|].
    rewrite (split_no_sep "." _ Hdot). cbn [List.length Z.of_nat Z.eqb negb].
    cbn [try_except dispatch raise bind].
    unfold _report_invalid_netmask, raise. rewrite (repr_digits _ Hd).
    rewrite !append_assoc. reflexivity.
  - destruct (str_int_digits v ltac:(lia)) as [Hd Hne].
    pose proof (all_chars_contains is_decimal_digit "/" _ eq_refl Hd) as Hs.
    apply (calculate_ipv6_invalid _
             (Exn NetmaskValueError ("'" ++ str_int v ++ "' is not a valid netmask"))).
    eapply Network_init_mask_raises;
      [apply (_split_addr_prefix_mask a _ (IPv6Address_of_str_no_slash a x Ha) Hs)
      | exact Ha |].
    cbn [_make_netmask IPv6Address]. unfold _make_netmask_v6.
    rewrite (_prefix_from_prefix_string_above (V:=_BaseV6) v)
      by (change (_max_prefixlen (Version:=_BaseV6)) with 128; lia).
    reflexivity.
Qed.

(** X17 at [10.0.0.0/33] and at [2001:db8::/129]. *)
Lemma X_prefix_out_of_range_witness :
  calculate_ipv4_subnet_info "10.0.0.0/33"
  = Ok (PyStr "Error: Invalid IPv4 address or prefix. '33' is not a valid netmask") /\
  calculate_ipv6_subnet_info "2001:db8::/129"
  = Ok (PyStr "Error: Invalid IPv6 address or prefix. '129' is not a valid netmask").
Proof.
  split.
  - apply (proj1 X_prefix_out_of_range "10.0.0.0" {| v4_ip := 167772160 |} 33);
      [reflexivity | lia].
  - apply (proj2 X_prefix_out_of_range "2001:db8::"
             {| v6_ip := 42540766411282592856903984951653826560; _scope_id := None |}
             129); [reflexivity | lia].
Defined.

(** *** A request for help *)

Lemma parse_loop_help before after : forall st,
  (forall o e, ~ In (OptIgnoredArg o e) before) ->
  (seen4 st || has4 before) && (seen6 st || has6 before) = false ->
  parse_loop st (before ++ OptHelp :: after) = SystemExit 0 [StdoutHelp].
Proof.
  induction before as [|a r IH]; intros st Hi Hb; [reflexivity|].
  assert (Hi' : forall o e, ~ In (OptIgnoredArg o e) r)
    by (intros o e C; apply (Hi o e); right; exact C).
  destruct a; cbn [app parse_loop]; cbn [has4 has6 existsb] in Hb;
    fold (has4 r) (has6 r) in Hb.
  - destruct (seen6 st) eqn:E6.
    + destruct (seen4 st), (has4 r), (has6 r); cbn in Hb; discriminate.
    + apply IH; [exact Hi'|]. cbn [seen4 seen6].
      destruct (seen4 st), (has4 r), (has6 r); cbn in *; congruence.
  - destruct (seen4 st) eqn:E4.
    + destruct (seen6 st), (has4 r), (has6 r); cbn in Hb; discriminate.
    + apply IH; [exact Hi'|]. cbn [seen4 seen6].
      destruct (seen6 st), (has4 r), (has6 r); cbn in *; congruence.
  - reflexivity.
  - apply IH; [exact Hi' | exact Hb].
  - exfalso. apply (Hi option explicit_arg). left. reflexivity.
  - destruct (positional st); apply IH; try exact Hi'; exact Hb.
Qed.

(** X18. A request for help wins: when [-h] stands after arguments that
    hold no option glued to a text and not both [-4] and [-6], the program
    prints the help text and ends with status 0, whatever else the command
    line holds (surplus or missing arguments, options after the [-h]). *)
Theorem X_help_wins :
  forall before after,
    (forall o e, ~ In (OptIgnoredArg o e) before) ->
    has4 before && has6 before = false ->
    main (before ++ OptHelp :: after)
    = {| output := [StdoutHelp]; exit_status := 0 |}.
Proof.
  intros before after Hi Hb. unfold main, parse_args.
  rewrite parse_loop_help; [reflexivity | exact Hi | exact Hb].
Qed.

(** X18 at [-4 x y -h -6]. *)
Lemma X_help_wins_witness :
  main [Opt4; Positional "x"; Positional "y"; OptHelp; Opt6]
  = {| output := [StdoutHelp]; exit_status := 0 |}.
Proof.
  apply (X_help_wins [Opt4; Positional "x"; Positional "y"] [Opt6]).
  - intros o e [C|[C|[C|[]]]]; discriminate.
  - reflexivity.
Defined.

(** *** The mask of an IPv6 network *)

Lemma all_chars_fails p c s :
  contains c s = true -> p c = false -> all_chars p s = false.
Proof.
  intros Hc Hp. induction s as [|a r IH]; [discriminate|].
  cbn [contains all_chars] in *.
  destruct (Ascii.eqb_spec a c) as [->|].
  - rewrite Hp. reflexivity.
  - cbn [orb] in Hc. rewrite (IH Hc). apply andb_false_r.
Qed.

Lemma not_digits m c :
  contains c m = true -> is_decimal_digit c = false -> isascii m && isdigit m = false.
Proof.
  intros Hc Hd. destruct (Z.ltb_spec (ord c) 128) as [Ha|Ha].
  - apply andb_false_iff. right. unfold isdigit. apply andb_false_iff. right.
    apply (all_chars_fails _ c m Hc). rewrite Hd. cbn [orb].
    destruct (Z.eqb_spec (ord c) 178); [lia|]. destruct (Z.eqb_spec (ord c) 179); [lia|].
    destruct (Z.eqb_spec (ord c) 185); [lia | reflexivity].
  - apply andb_false_iff. left. unfold isascii.
    apply (all_chars_fails _ c m Hc). apply Z.ltb_ge. exact Ha.
Qed.

(** X19. The IPv6 calculator takes a prefix length in decimal digits only
    (the IPv4 calculator also takes a mask in dotted form): for a valid
    address and a mask text that holds any other character, it answers
    that the text is not a valid netmask. *)
Theorem X_ipv6_mask_digits_only :
  forall a x m c,
    IPv6Address_of_str a = Ok x ->
    contains "/" m = false ->
    contains c m = true -> is_decimal_digit c = false ->
    calculate_ipv6_subnet_info (a ++ "/" ++ m)
    = Ok (PyStr ("Error: Invalid IPv6 address or prefix. "
                 ++ repr m ++ " is not a valid netmask")).
Proof.
  intros a x m c Ha Hs Hc Hd.
  apply (calculate_ipv6_invalid _
           (Exn NetmaskValueError (repr m ++ " is not a valid netmask"))).
  eapply Network_init_mask_raises;
    [apply (_split_addr_prefix_mask a m (IPv6Address_of_str_no_slash a x Ha) Hs)
    | exact Ha |].
  cbn [_make_netmask IPv6Address]. unfold _make_netmask_v6, _prefix_from_prefix_string.
  rewrite (not_digits m c Hc Hd). reflexivity.
Qed.

(** X19 at [2001:db8::/ffff::]. *)
Lemma X_ipv6_mask_digits_only_witness :
  calculate_ipv6_subnet_info "2001:db8::/ffff::"
  = Ok (PyStr "Error: Invalid IPv6 address or prefix. 'ffff::' is not a valid netmask").
Proof.
  apply (X_ipv6_mask_digits_only "2001:db8::"
           {| v6_ip := 42540766411282592856903984951653826560; _scope_id := None |}
           "ffff::" "f"); reflexivity.
Defined.

(** *** The lines of the output *)

Lemma Forall2_map_same {A B} (R : A -> B -> Prop) (f : A -> B) l :
  (forall x, In x l -> R x (f x)) -> Forall2 R l (map f l).
Proof.
  induction l as [|x r IH]; intros H; cbn [map]; constructor.
  - apply H. left. reflexivity.
  - apply IH. intros y Hy. apply H. right. exact Hy.
Qed.

Lemma length_spaces n : String.length (spaces n) = n.
Proof. induction n as [|k IH]; simpl; [reflexivity | rewrite IH; reflexivity]. Qed.

Lemma contains_spaces c n : Ascii.eqb " " c = false -> contains c (spaces n) = false.
Proof.
  intros H. induction n as [|k IH]; cbn [spaces contains]; [reflexivity|].
  rewrite H, IH. reflexivity.
Qed.

Lemma decimal_not_LF c : is_decimal_digit c = true -> Ascii.eqb c LF = false.
Proof.
  unfold is_decimal_digit. intros H. apply andb_true_iff in H as [H1 _].
  apply Z.leb_le in H1.
  destruct (Ascii.eqb_spec c LF) as [->|]; [|reflexivity].
  change (ord LF) with 10 in H1. lia.
Qed.

Lemma decimal_digits_no_LF n :
  0 <= n -> Forall (fun a => Ascii.eqb a LF = false) (map digit_char (digits 10 n)).
Proof.
  intros Hn. apply Forall_map.
  eapply Forall_impl; [|apply (digits_rev_range 10); lia].
  intros d Hd. apply decimal_not_LF, digit_char_decimal. exact Hd.
Qed.

Lemma str_int_no_LF n : contains LF (str_int n) = false.
Proof.
  unfold str_int, digits_str.
  destruct (Z.ltb_spec n 0); cbn [contains];
    [change (Ascii.eqb "-" LF) with false; cbn [orb]|];
    apply contains_of_list; rewrite map_rev; apply Forall_rev, decimal_digits_no_LF; lia.
Qed.

Lemma group_thousands_Forall (P : ascii -> Prop) ds : forall k,
  P ","%char -> Forall P ds -> Forall P (group_thousands ds k).
Proof.
  induction ds as [|d r IH]; intros k Hc H; [constructor|].
  inversion H as [|? ? Hd Hr]; subst. cbn [group_thousands].
  destruct (Nat.eqb k 3); repeat constructor; auto.
Qed.

(** The text of an integer holds digits, commas and a sign. *)
Lemma format_comma_no_LF n : contains LF (format_comma n) = false.
Proof.
  unfold format_comma. cbv zeta.
  assert (H : contains LF
                (string_of_list_ascii
                   (rev (group_thousands (map digit_char (digits 10 (Z.abs n))) 0)))
              = false).
  { apply contains_of_list, Forall_rev, group_thousands_Forall; [reflexivity|].
    apply decimal_digits_no_LF. lia. }
  destruct (n <? 0); [cbn [contains]; rewrite H; reflexivity | exact H].
Qed.

(** Texts without a line feed are one line each. *)
Lemma lines_of_single texts :
  Forall (fun t => contains LF t = false) texts -> lines_of texts = texts.
Proof.
  unfold lines_of. induction 1 as [|t r Ht _ IH]; [reflexivity|].
  cbn [flat_map]. rewrite (split_no_sep LF t Ht), IH. reflexivity.
Qed.

Lemma print_subnet_info_single d :
  Forall (fun kv => contains LF (fst kv) = false /\
                    contains LF (render (snd kv)) = false) d ->
  lines_of (print_subnet_info d) = print_subnet_info d.
Proof.
  intros H. apply lines_of_single.
  destruct (print_subnet_info_layout d) as (width & _ & _ & ->).
  apply Forall_map. eapply Forall_impl; [|exact H].
  intros [k v] [Hk Hv]. cbn [fst snd] in *.
  rewrite !contains_app, Hk, Hv, contains_spaces by reflexivity. reflexivity.
Qed.

Lemma one_line_entries d :
  Forall one_line_entry d ->
  Forall (fun kv => contains LF (fst kv) = false /\
                    contains LF (render (snd kv)) = false) d.
Proof.
  apply Forall_impl. intros [k v] [Hk Hv]. cbn [fst snd] in *.
  split; [exact Hk|]. destruct v; cbn [render]; [apply format_comma_no_LF | exact Hv].
Qed.

(** X9. For a dictionary whose keys and string values hold no line feed
    and whose integers have at most 4300 digits, the output of
    [print_subnet_info] has one line for each entry, in order; on every
    line the value starts in the same column, four characters after the
    length of the longest label, with at least one blank after the colon;
    and the label of a line is the key of its entry, for keys without a
    colon. *)
Theorem X_value_column :
  forall d,
    Forall one_line_entry d ->
    exists width,
      Forall (fun kv => len (fst kv) <= width) d /\
      (d <> [] -> In width (map (fun kv => len (fst kv)) d)) /\
      Forall2 (fun kv line =>
                 exists pad,
                   line = "  " ++ fst kv ++ ":" ++ spaces pad ++ render (snd kv) /\
                   len ("  " ++ fst kv ++ ":" ++ spaces pad) = width + 4)
              d (lines_of (print_subnet_info d)) /\
      (Forall (fun kv => contains ":" (fst kv) = false) d ->
       map label_of_line (lines_of (print_subnet_info d)) = map fst d).
Proof.
  intros d Hd. rewrite (print_subnet_info_single d (one_line_entries d Hd)).
  destruct (print_subnet_info_layout d) as (width & Hw & Hin & Ep).
  exists width. split; [exact Hw|]. split.
  { intros Hne. destruct Hin as [-> | Hin]; [|exact Hin].
    destruct d as [|[k v] r]; [congruence|]. left.
    inversion Hw as [|? ? H0 _]. cbn [fst] in *. unfold len in *. lia. }
  split; [|apply print_subnet_info_labels].
  rewrite Ep. apply Forall2_map_same. intros [k v] Hk. cbn [fst snd].
  rewrite Forall_forall in Hw. specialize (Hw (k, v) Hk). cbn [fst] in Hw.
  exists (Z.to_nat (width + 1 - len k)). split; [reflexivity|].
  unfold len in *. rewrite !length_app_string, length_spaces.
  cbn [String.length]. lia.
Qed.

(** X9 at a dictionary of two entries, a text and an integer. *)
Lemma X_value_column_witness :
  lines_of (print_subnet_info [("host", VStr "example"); ("Total", VInt (-1234567))])
  = ["  host:  example"; "  Total: -1,234,567"] /\
  exists width,
    Forall (fun kv => len (fst kv) <= width)
           [("host", VStr "example"); ("Total", VInt (-1234567))] /\
    ([("host", VStr "example"); ("Total", VInt (-1234567))] <> [] ->
     In width (map (fun kv => len (fst kv))
                   [("host", VStr "example"); ("Total", VInt (-1234567))])) /\
    Forall2 (fun kv line =>
               exists pad,
                 line = "  " ++ fst kv ++ ":" ++ spaces pad ++ render (snd kv) /\
                 len ("  " ++ fst kv ++ ":" ++ spaces pad) = width + 4)
            [("host", VStr "example"); ("Total", VInt (-1234567))]
            (lines_of (print_subnet_info
                         [("host", VStr "example"); ("Total", VInt (-1234567))])) /\
    (Forall (fun kv => contains ":" (fst kv) = false)
            [("host", VStr "example"); ("Total", VInt (-1234567))] ->
     map label_of_line
         (lines_of (print_subnet_info
                      [("host", VStr "example"); ("Total", VInt (-1234567))]))
     = map fst [("host", VStr "example"); ("Total", VInt (-1234567))]).
Proof.
  split; [vm_compute; reflexivity|].
  apply (X_value_column [("host", VStr "example"); ("Total", VInt (-1234567))]).
  repeat constructor.
Defined.

End Coverage.

(* ================================================================= *)
(** ** The printed fields *)

Module PrintedFields.
Import Py Notions CoverageNotions PyFacts ipaddress BaseFacts V4Facts V4Text V6Text
       DigitFacts NetworkFacts CalculatorFacts ReadingFacts DriverFacts Coverage
       ipcalc.

(** A character that a text does not hold is in none of its parts. *)
Lemma split_no_char c sep s :
  contains c s = false -> Forall (fun x => contains c x = false) (split sep s).
Proof.
  induction s as [|a r IH]; intros H; cbn [split].
  - repeat constructor.
  - cbn [contains] in H. apply orb_false_iff in H as [Ha Hr]. specialize (IH Hr).
    destruct (Ascii.eqb a sep).
    + constructor; [reflexivity | exact IH].
    + destruct (split sep r) as [|h t].
      * repeat constructor. cbn [contains]. rewrite Ha. reflexivity.
      * inversion IH as [|? ? Hh Ht]; subst.
        constructor; [cbn [contains]; rewrite Ha; exact Hh | exact Ht].
Qed.

Lemma partition_no_char c sep s : forall h f t,
  partition sep s = (h, f, t) -> contains c s = false -> contains c t = false.
Proof.
  induction s as [|a r IH]; intros h f t H Hc; cbn [partition] in H.
  - injection H as _ _ <-. reflexivity.
  - cbn [contains] in Hc. apply orb_false_iff in Hc as [_ Hr].
    destruct (Ascii.eqb a sep).
    + injection H as _ _ <-. exact Hr.
    + destruct (partition sep r) as [[h' f'] t'] eqn:E.
      injection H as _ _ <-. exact (IH h' f' t' eq_refl Hr).
Qed.

Lemma _split_addr_prefix_chars {V : Version} c s addr mask :
  _split_addr_prefix s = Ok (addr, mask) -> contains c s = false ->
  contains c addr = false.
Proof.
  intros H Hc. pose proof (split_no_char c "/" s Hc) as F.
  unfold _split_addr_prefix, _split_optional_netmask in H.
  destruct (2 <? Z.of_nat (List.length (split "/" s))); [discriminate|].
  cbn [bind] in H.
  destruct (split "/" s) as [|x [|y r]]; [discriminate | |];
    injection H as <- _; inversion F; assumption.
Qed.

(** The zone of an IPv6 address is a part of the text it was read from. *)
Lemma IPv6Address_of_str_zone_chars c s a z :
  IPv6Address_of_str s = Ok a -> _scope_id a = Some z ->
  contains c s = false -> contains c z = false.
Proof.
  unfold IPv6Address_of_str. destruct (contains "/" s); [discriminate|].
  unfold V6._split_scope_id.
  destruct (partition "%" s) as [[h f] t] eqn:Ep. destruct f; cbn [negb].
  - destruct (String.eqb t "" || contains "%" t); [discriminate|]. cbn [bind].
    destruct (V6._ip_int_from_string h); [|discriminate].
    intros [= <-]. cbn [_scope_id]. intros [= <-] Hc.
    exact (partition_no_char c "%" s _ _ _ Ep Hc).
  - cbn [bind]. destruct (V6._ip_int_from_string h); [|discriminate].
    intros [= <-]. discriminate.
Qed.

Lemma network_zone_chars c s net z :
  IPv6Network s false = Ok net -> contains c s = false ->
  _scope_id (network_address net) = Some z -> contains c z = false.
Proof.
  intros H Hc Hz.
  destruct (Network_init_inv (AC:=IPv6Address) s net H)
    as (addr & mask & a & Hs & Ha & _ & _ & Hn).
  cbn [of_str of_int int_ IPv6Address] in Ha, Hn.
  destruct Hn as [Hn | [_ Hn]].
  - rewrite Hn in Hz.
    exact (IPv6Address_of_str_zone_chars c addr a z Ha Hz
             (_split_addr_prefix_chars c s addr mask Hs Hc)).
  - apply IPv6Address_of_int_spec_eq in Hn. rewrite Hn in Hz. discriminate.
Qed.

Lemma Ok_inj {A} (x y : A) : Ok x = Ok y -> x = y.
Proof. intros H. injection H as H. exact H. Qed.

(** The texts of addresses hold no line feed, but for the zone. *)
Lemma IPv4Address_str_no_LF a t : IPv4Address_str a = Ok t -> contains LF t = false.
Proof.
  unfold IPv4Address_str, V4._string_from_ip_int.
  destruct (to_bytes (v4_ip a) 4) as [bs|e]; [|discriminate].
  cbn [bind]. intros H. apply Ok_inj in H. subst t.
  apply contains_join; [reflexivity|].
  apply Forall_map. apply Forall_forall. intros b _. apply str_int_no_LF.
Qed.

Lemma IPv6Address_str_no_LF a t :
  0 <= v6_ip a < 2 ^ 128 ->
  (forall z, _scope_id a = Some z -> contains LF z = false) ->
  IPv6Address_str a = Ok t -> contains LF t = false.
Proof.
  intros Hr Hz. destruct a as [n zone]. cbn [v6_ip _scope_id] in *.
  destruct (v6_text_round_trip n Hr) as (t0 & Et & _ & Hc).
  assert (H0 : contains LF t0 = false)
    by exact (all_chars_contains is_v6_text_char LF t0 eq_refl Hc).
  unfold IPv6Address_str. cbn [v6_ip _scope_id]. rewrite Et. cbn [bind].
  destruct zone as [z|].
  - destruct (String.eqb z ""); intros [= <-]; [exact H0|].
    change (t0 ++ "%" ++ z) with (t0 ++ String "%" z).
    rewrite contains_app. cbn [contains]. rewrite H0, (Hz z eq_refl). reflexivity.
  - intros [= <-]. exact H0.
Qed.

(** What [main] prints for a dictionary. *)
Lemma main_prints_dict argv s d :
  (argv = [Opt4; Positional s] /\ calculate_ipv4_subnet_info s = Ok (PyDict d)) \/
  ((argv = [Opt6; Positional s] \/ argv = [Positional s]) /\
   calculate_ipv6_subnet_info s = Ok (PyDict d)) ->
  main argv = {| output := map Stdout (print_subnet_info d); exit_status := 0 |}.
Proof.
  intros [[-> Hd] | [[-> | ->] Hd]]; unfold main;
    cbn -[calculate_ipv4_subnet_info calculate_ipv6_subnet_info print_subnet_info];
    rewrite Hd; cbn [truthy]; destruct d; reflexivity.
Qed.

Ltac each_entry :=
  repeat (apply Forall_cons; [split; [reflexivity | cbn [snd render]] |]);
  [.. | apply Forall_nil].

(** C4, as amended.  On success the program prints exactly the lines of the
    dictionary, one line for each entry and in its order: for IPv4 version,
    Input CIDR, Network Address, Broadcast Address, First usable Address,
    Last usable Address, Total Addresses; for an IPv6 input without a line
    feed version, Input CIDR, Network Address, First usable Address, Last
    usable Address, Total Addresses.  The version is the first line
    printed. *)
Theorem C4_printed_lines :
  (forall s d,
     calculate_ipv4_subnet_info s = Ok (PyDict d) ->
     let r := main [Opt4; Positional s] in
     r = {| output := map Stdout (print_subnet_info d); exit_status := 0 |} /\
     printed_lines r = print_subnet_info d /\
     map label_of_line (printed_lines r)
     = ["version"; "Input CIDR"; "Network Address"; "Broadcast Address";
        "First usable Address"; "Last usable Address"; "Total Addresses"] /\
     get d "version" = Some (VInt 4))
  /\
  (forall s d,
     contains LF s = false ->
     calculate_ipv6_subnet_info s = Ok (PyDict d) ->
     let r := main [Opt6; Positional s] in
     main [Positional s] = r /\
     r = {| output := map Stdout (print_subnet_info d); exit_status := 0 |} /\
     printed_lines r = print_subnet_info d /\
     map label_of_line (printed_lines r)
     = ["version"; "Input CIDR"; "Network Address";
        "First usable Address"; "Last usable Address"; "Total Addresses"] /\
     get d "version" = Some (VInt 6)).
Proof.
  split.
  - intros s d Hd r.
    assert (Er : r = {| output := map Stdout (print_subnet_info d);
                        exit_status := 0 |})
      by (apply (main_prints_dict _ s d); left; split; [reflexivity | exact Hd]).
    split; [exact Er|]. rewrite Er, printed_lines_stdout.
    destruct (calculate_ipv4_cases s) as [[e He] | (net & Hn & Hp)].
    { rewrite (calculate_ipv4_invalid s e He) in Hd. discriminate. }
    destruct (Z.eq_dec (_prefixlen net) 32) as [E|E].
    { rewrite (calculate_ipv4_single s net Hn E) in Hd. discriminate. }
    destruct (calculate_ipv4_dict s net Hn ltac:(lia))
      as (ns & bs & fs & ls & Ens & Ebs & Efs & Els & Hc).
    rewrite Hc in Hd. injection Hd as <-.
    apply IPv4Address_str_no_LF in Ens, Ebs, Efs, Els.
    match goal with
    | |- lines_of (print_subnet_info ?D) = _ /\ _ =>
        assert (L : lines_of (print_subnet_info D) = print_subnet_info D)
    end.
    { apply print_subnet_info_single. each_entry;
        try apply format_comma_no_LF; try assumption.
      rewrite !contains_app, Ens. cbn [contains]. rewrite str_int_no_LF. reflexivity. }
    rewrite L. split; [reflexivity|]. split; [|reflexivity].
    rewrite print_subnet_info_labels; [reflexivity|].
    repeat constructor.
  - intros s d Hs Hd r.
    assert (Er : r = {| output := map Stdout (print_subnet_info d);
                        exit_status := 0 |})
      by (apply (main_prints_dict _ s d); right; split; [left; reflexivity | exact Hd]).
    split.
    { rewrite Er. apply (main_prints_dict _ s d). right.
      split; [right; reflexivity | exact Hd]. }
    split; [exact Er|]. rewrite Er, printed_lines_stdout.
    destruct (calculate_ipv6_cases s) as [[e He] | (net & Hn & Hp)].
    { rewrite (calculate_ipv6_invalid s e He) in Hd. discriminate. }
    destruct (Z.eq_dec (_prefixlen net) 128) as [E|E].
    { rewrite (calculate_ipv6_single s net Hn E) in Hd. discriminate. }
    pose proof (Network_init_wf (AC:=IPv6Address) s net Hn) as Hwf.
    destruct (calculate_ipv6_dict s net Hn ltac:(lia))
      as (ns & fs & ls & Ens & Efs & Els & Hc).
    rewrite Hc in Hd. injection Hd as <-.
    pose proof (v6_network_range net Hwf) as Hr.
    assert (2 <= 2 ^ (128 - _prefixlen net)).
    { change 2 with (2 ^ 1) at 1. apply Z.pow_le_mono_r; lia. }
    assert (P128 : 2 ^ 128 = 340282366920938463463374607431768211456) by reflexivity.
    apply IPv6Address_str_no_LF in Ens;
      [| lia | intros z; exact (network_zone_chars LF s net z Hn Hs)].
    apply IPv6Address_str_no_LF in Efs; [| cbn [v6_ip]; lia | discriminate].
    apply IPv6Address_str_no_LF in Els; [| cbn [v6_ip]; lia | discriminate].
    match goal with
    | |- lines_of (print_subnet_info ?D) = _ /\ _ =>
        assert (L : lines_of (print_subnet_info D) = print_subnet_info D)
    end.
    { apply print_subnet_info_single. each_entry;
        try apply format_comma_no_LF; try assumption.
      rewrite !contains_app, Ens. cbn [contains]. rewrite str_int_no_LF. reflexivity. }
    rewrite L. split; [reflexivity|]. split; [|reflexivity].
    rewrite print_subnet_info_labels; [reflexivity|].
    repeat constructor.
Qed.

(** C4 as amended, at [192.168.1.0/24] under [-4] and at [fe80::%eth0/64]
    with no option. *)
Lemma C4_printed_lines_witness :
  printed_lines (main [Opt4; Positional "192.168.1.0/24"])
  = ["  version:              4";
     "  Input CIDR:           192.168.1.0/24";
     "  Network Address:      192.168.1.0";
     "  Broadcast Address:    192.168.1.255";
     "  First usable Address: 192.168.1.1";
     "  Last usable Address:  192.168.1.254";
     "  Total Addresses:      256"] /\
  map label_of_line (printed_lines (main [Opt4; Positional "192.168.1.0/24"]))
  = ["version"; "Input CIDR"; "Network Address"; "Broadcast Address";
     "First usable Address"; "Last usable Address"; "Total Addresses"] /\
  map label_of_line (printed_lines (main [Opt6; Positional "fe80::%eth0/64"]))
  = ["version"; "Input CIDR"; "Network Address";
     "First usable Address"; "Last usable Address"; "Total Addresses"].
Proof.
  split; [vm_compute; reflexivity|]. split.
  - refine (proj1 (proj2 (proj2 (proj1 C4_printed_lines "192.168.1.0/24" _ _)))).
    vm_compute. reflexivity.
  - refine (proj1 (proj2 (proj2 (proj2
              (proj2 C4_printed_lines "fe80::%eth0/64" _ eq_refl _))))).
    vm_compute. reflexivity.
Defined.

(** C4 as stated fails.  Under [-4] the text [192.168.1.0/24] prints seven
    lines, the first for the version, not the six of the specification, and
    [2001:db8::/32] prints six, not five.  And a zone identifier with a
    line feed, which the library accepts, is printed as it is: the text
    below prints eight lines, two of them with the label of the count. *)
Lemma C4_counterexample :
  map label_of_line (printed_lines (main [Opt4; Positional "192.168.1.0/24"]))
  <> ["Input CIDR"; "Network Address"; "Broadcast Address";
      "First usable Address"; "Last usable Address"; "Total Addresses"] /\
  hd_error (printed_lines (main [Opt4; Positional "192.168.1.0/24"]))
  = Some "  version:              4" /\
  map label_of_line (printed_lines (main [Positional "2001:db8::/32"]))
  <> ["Input CIDR"; "Network Address";
      "First usable Address"; "Last usable Address"; "Total Addresses"] /\
  printed_lines
    (main [Positional ("fe80::%x" ++ String LF "  Total Addresses:      1/64")])
  = ["  version:              6";
     "  Input CIDR:           fe80::%x";
     "  Total Addresses:      1/64";
     "  Network Address:      fe80::%x";
     "  Total Addresses:      1";
     "  First usable Address: fe80::1";
     "  Last usable Address:  fe80::ffff:ffff:ffff:ffff";
     "  Total Addresses:      18,446,744,073,709,551,616"].
Proof.
  split; [vm_compute; discriminate|].
  split; [vm_compute; reflexivity|].
  split; [vm_compute; discriminate | vm_compute; reflexivity].
Qed.

End PrintedFields.
